(** * ALLaMo data pipeline: a shallow embedding of [data_loader.py]

    The development follows the Python source function by function:
    [AllamoDataset] (file catalogue, loading, alignment, rank sharding,
    sample materialisation) and [AllamoDataLoader] (sequential cursor,
    epoch rollover, prefetch slot), plus the resume branch of
    [AllamoTrainer.__init_training] in [train.py].

    Conventions.
    - A one-dimensional integer tensor or numpy array is an [Array]: its
      element type and the list of its items; a boolean matrix is a
      [list (list bool)]; a float is a [spec_float].
    - A Python exception is a value [Raise e] of the result type [res].
    - A sample dict is a record of [option] fields ([None] = key absent)
      for the keys the pipeline reads or writes, together with the list
      of all its keys in insertion order.
    - Mutable objects are threaded explicitly as states.
    - A prefetch worker is a sequence of steps on the loader
      ([worker_step]), one per access to the shared object; a call of the
      consumer is one function application.  A schedule is an
      alternation of calls and worker steps: workers run before, between
      and after calls.
    - The file system is an environment [Env] of reader functions, and
      the random generator a stream of raw numbers.
    - Logging, garbage collection, device transfer and the batch-size
      schedule have no effect on the data that is handed out and are left
      out. *)

From Stdlib Require Import ZArith Lia Ascii Floats.SpecFloat.
From stdpp Require Import base list strings sorting.

Local Open Scope Z_scope.
Local Open Scope nat_scope.

(** ** Python exceptions and the result type *)

Inductive Err : Type :=
  | AssertionError (msg : string)
  | Exception (msg : string)
  | IndexError
  | KeyError (key : string)
  | TypeError
  | ValueError
  | RuntimeError
  | ZeroDivisionError
  | IOError.

Inductive res (A : Type) : Type :=
  | Ok (a : A)
  | Raise (e : Err).
Arguments Ok {A} a.
Arguments Raise {A} e.

#[global] Instance res_ret : MRet res := fun A a => Ok a.
#[global] Instance res_bind : MBind res := fun A B k m =>
  match m with
  | Ok a => k a
  | Raise e => Raise e
  end.

#[global] Instance res_fmap : FMap res := fun A B f m =>
  match m with
  | Ok a => Ok (f a)
  | Raise e => Raise e
  end.

Definition assert (b : bool) (msg : string) : res unit :=
  if b then Ok tt else Raise (AssertionError msg).

Definition is_ok {A} (r : res A) : bool :=
  match r with Ok _ => true | Raise _ => false end.

(** ** Python list slicing *)

Section Slices.
Context {A : Type}.

(** [l[start::step]] for [start >= 0] and [step >= 1]: [skip] counts the
    elements still to be passed over before the next one is kept. *)
Fixpoint stride (skip step : nat) (l : list A) : list A :=
  match l with
  | [] => []
  | x :: t =>
      match skip with
      | 0 => x :: stride (step - 1) step t
      | S k => stride k step t
      end
  end.

(** [l[lo:hi]] for [0 <= lo], [0 <= hi]; out-of-range bounds are clipped. *)
Definition slice (lo hi : nat) (l : list A) : list A :=
  take (hi - lo) (drop lo l).

(** [l[-1]]: the last element, [IndexError] on an empty list. *)
Definition last_item (l : list A) : res A :=
  match last l with
  | Some x => Ok x
  | None => Raise IndexError
  end.

(** [l[i]] for [i >= 0]. *)
Definition item (i : nat) (l : list A) : res A :=
  match l !! i with
  | Some x => Ok x
  | None => Raise IndexError
  end.

(** [for x in l: ...] with a body that can raise: the first exception
    aborts the loop. *)
Fixpoint mapM {B : Type} (f : A -> res B) (l : list A) : res (list B) :=
  match l with
  | [] => Ok []
  | x :: t => y ← f x; ys ← mapM f t; Ok (y :: ys)
  end.
End Slices.

(** [range(lo, hi)] *)
Definition range (lo hi : nat) : list nat := seq lo (hi - lo).

(** ** Python string helpers *)

(** [s.startswith(p)] *)
Definition startswith (s p : string) : bool := String.prefix p s.

(** [s.endswith(p)] *)
Definition endswith (s p : string) : bool :=
  String.prefix (String.rev p) (String.rev s).

(** [s.split(sep)] for a one-character separator: empty pieces are kept,
    and the result is never empty. *)
Fixpoint split (sep : ascii) (s : string) : list string :=
  match s with
  | EmptyString => [EmptyString]
  | String c s' =>
      if Ascii.eqb c sep then EmptyString :: split sep s'
      else match split sep s' with
           | [] => [String c EmptyString]
           | w :: ws => String c w :: ws
           end
  end.

(** [os.path.basename(p)]: what follows the last slash. *)
Definition basename (p : string) : string :=
  default EmptyString (last (split "/"%char p)).

(** [os.path.join(a, b)] on POSIX. *)
Definition path_join (a b : string) : string :=
  if startswith b "/" then b
  else if String.eqb a EmptyString || endswith a "/" then a +:+ b
  else a +:+ "/" +:+ b.

(** [sorted(l)] on strings: Python compares strings code point by code
    point; the sort is stable, which is unobservable on strings. *)
Definition sorted (l : list string) : list string := merge_sort String.le l.

(** Truthiness of a Python string and of a Python list. *)
Definition str_truthy (s : string) : bool := negb (String.eqb s EmptyString).
Definition list_truthy {A} (l : list A) : bool :=
  match l with [] => false | _ => true end.

(** [x in l] on a list of strings. *)
Definition str_in (x : string) (l : list string) : bool := bool_decide (x ∈ l).

(** ** Configuration ([AllamoConfiguration], the fields the pipeline reads) *)

Record AllamoConfiguration : Type := {
  data_dir : string;
  dataset : string;
  dataset_train_files : string;
  dataset_validation_files : string;
  dataset_train_file_prefix : string;
  dataset_validation_file_prefix : string;
  dataset_train_processed_files_count : nat;
  block_size : nat;
  ignore_index : Z;
  pad_token_id : Z;
  weighted_loss : bool;
  training_type : string;
  batch_size : nat;
  batch_size_schedule : bool;
  batch_size_initial : nat;
  dataset_seq_train : bool;
  dataset_seq_train_start : option nat;
  dataset_buffer : bool
}.

(** ** Arrays and numbers *)

(** The element type of an integer tensor or numpy array.  The model
    covers the signed integer types; [torch.from_numpy] keeps the element
    type of the array it wraps. *)
Inductive Dtype : Type := int8 | int16 | int32 | int64.

Definition dtype_bits (dt : Dtype) : Z :=
  match dt with
  | int8 => 8 | int16 => 16 | int32 => 32 | int64 => 64
  end%Z.

(** Whether the Python integer [v] converts to the element type [dt]
    without overflow. *)
Definition fits (dt : Dtype) (v : Z) : bool :=
  (- 2 ^ (dtype_bits dt - 1) <=? v)%Z && (v <? 2 ^ (dtype_bits dt - 1))%Z.

(** [torch.promote_types] on the signed integer types. *)
Definition promote (a b : Dtype) : Dtype :=
  if (dtype_bits a <? dtype_bits b)%Z then b else a.

(** A one-dimensional integer tensor (or numpy array). *)
Record Array : Type := array {
  dtype : Dtype;
  items : list Z
}.

(** [len(x)], [x[lo:hi]], [x[:n]], [x[n:]] *)
Definition a_len (x : Array) : nat := length (items x).
Definition a_slice (lo hi : nat) (x : Array) : Array :=
  {| dtype := dtype x; items := slice lo hi (items x) |}.
Definition a_take (n : nat) (x : Array) : Array :=
  {| dtype := dtype x; items := take n (items x) |}.
Definition a_drop (n : nat) (x : Array) : Array :=
  {| dtype := dtype x; items := drop n (items x) |}.

(** [torch.full((n,), v)] with a Python integer [v]: an [int64] tensor; a
    value outside [int64] is refused. *)
Definition torch_full (n : nat) (v : Z) : res Array :=
  if fits int64 v then Ok {| dtype := int64; items := replicate n v |}
  else Raise RuntimeError.

(** [torch.cat([x, y])] / [torch.concat((x, y))]: the element types are
    promoted. *)
Definition torch_cat (x y : Array) : Array :=
  {| dtype := promote (dtype x) (dtype y); items := items x ++ items y |}.

(** [F.pad(x, (0, n), value=v)]: the result has the element type of [x];
    a value that does not fit it is refused. *)
Definition F_pad (x : Array) (n : nat) (v : Z) : res Array :=
  if fits (dtype x) v
  then Ok {| dtype := dtype x; items := items x ++ replicate n v |}
  else Raise RuntimeError.

(** [x == v] with a Python integer [v]. *)
Definition eq_scalar (x : Array) (v : Z) : list bool :=
  (fun y => (y =? v)%Z) <$> items x.

(** [torch.where(mask, 0, 1)]: an [int64] tensor. *)
Definition torch_where_0_1 (mask : list bool) : Array :=
  {| dtype := int64;
     items := (fun b : bool => if b then 0%Z else 1%Z) <$> mask |}.

(** [x.masked_fill(mask, v)]: the result has the element type of [x]; a
    value that does not fit it is refused. *)
Definition masked_fill (x : Array) (mask : list bool) (v : Z) : res Array :=
  if fits (dtype x) v
  then Ok {| dtype := dtype x;
             items := zip_with (fun y (m : bool) => if m then v else y)
                        (items x) mask |}
  else Raise RuntimeError.

(** Rounding to [float32] (round to nearest, ties to even): of an integer,
    and of a float. *)
Definition to_float32 (z : Z) : spec_float :=
  binary_normalize 24 128 z 0 false.

Definition round_float32 (x : spec_float) : spec_float :=
  match x with
  | S754_finite s m e => binary_round 24 128 s m e
  | _ => x
  end.

(** A number: a Python [int] or [float] in a stored sample, a
    zero-dimensional [int64] or [float32] tensor in a materialised one. *)
Inductive Num : Type :=
  | IntNum (z : Z)
  | FloatNum (x : spec_float).

(** [torch.tensor(x)] of a Python number: an [int] gives an [int64]
    tensor, a [float] is rounded to the default element type
    [float32]. *)
Definition torch_tensor (x : Num) : res Num :=
  match x with
  | IntNum z => if fits int64 z then Ok (IntNum z) else Raise RuntimeError
  | FloatNum f => Ok (FloatNum (round_float32 f))
  end.

(** [x.to(torch.float32)] of a zero-dimensional tensor. *)
Definition num_to_float32 (x : Num) : spec_float :=
  match x with
  | IntNum z => to_float32 z
  | FloatNum f => round_float32 f
  end.

(** ** Samples, file contents and the environment *)

(** A structured sample (a Python dict).  [keys] lists all keys of the
    dict in insertion order; the fields give the values of the keys the
    pipeline reads or writes, [None] meaning that the key is absent. *)
Record Dict : Type := {
  keys : list string;
  input_ids : option Array;
  target_ids : option Array;
  target_weights : option Array;
  seq_lens : option (list nat);
  input_pos : option (list nat);
  attn_mask : option (list (list bool));
  chosen_input_ids : option Array;
  chosen_target_ids : option Array;
  rejected_input_ids : option Array;
  rejected_target_ids : option Array;
  reference_chosen_logps : option Num;
  reference_rejected_logps : option Num
}.

Definition empty_dict : Dict :=
  {| keys := [];
     input_ids := None; target_ids := None; target_weights := None;
     seq_lens := None; input_pos := None; attn_mask := None;
     chosen_input_ids := None; chosen_target_ids := None;
     rejected_input_ids := None; rejected_target_ids := None;
     reference_chosen_logps := None; reference_rejected_logps := None |}.

(** A sample is a token window (continuous format) or a dict. *)
Inductive Sample : Type :=
  | Tensor (t : Array)
  | DictSample (d : Dict).

(** What [torch.load] / [joblib.load] can return. *)
Inductive PyObject : Type :=
  | PyTensor (t : Array)
  | PyList (l : list Sample)
  | PyOther.

(** The outside world: directory listing and the three file readers.
    [np_fromfile] returns the raw [uint16] values. *)
Record Env : Type := {
  glob : string -> list string;
  np_fromfile : string -> res (list Z);
  torch_load : string -> res PyObject;
  joblib_load : string -> res PyObject
}.

(** [.astype(np.int16)] applied to a [uint16] value: two's-complement
    reinterpretation. *)
Definition astype_int16 (z : Z) : Z := ((z + 32768) mod 65536 - 32768)%Z.

(** [torch.from_numpy(np.fromfile(f, dtype=np.uint16).astype(np.int16))] *)
Definition int16_tensor (raw : list Z) : Array :=
  {| dtype := int16; items := astype_int16 <$> raw |}.

(** ** [AllamoDataset] *)

Record AllamoDataset : Type := {
  rank : nat;
  world_size : nat;
  config : AllamoConfiguration;
  data : option (list Sample);
  data_in_alm_format : bool;
  dataset_files : list string;
  processed_files : list string
}.

Definition set_data (self : AllamoDataset) (d : option (list Sample)) (alm : bool)
  : AllamoDataset :=
  {| rank := rank self; world_size := world_size self; config := config self;
     data := d; data_in_alm_format := alm;
     dataset_files := dataset_files self;
     processed_files := processed_files self |}.

Definition set_processed_files (self : AllamoDataset) (p : list string)
  : AllamoDataset :=
  {| rank := rank self; world_size := world_size self; config := config self;
     data := data self; data_in_alm_format := data_in_alm_format self;
     dataset_files := dataset_files self;
     processed_files := p |}.

(** [self.sample_size = config.block_size + 1] *)
Definition sample_size (self : AllamoDataset) : nat := block_size (config self) + 1.

Definition is_file_type_supported (dataset_file : string) : bool :=
  endswith dataset_file ".bin" || endswith dataset_file ".pt"
  || endswith dataset_file ".alm".

(** The local [dataset_files] of [get_dataset_files] before it is sorted:
    an explicit comma-separated list, or the supported files of the
    dataset directory whose base name starts with the split's prefix. *)
Definition resolve_dataset_files (env : Env) (config : AllamoConfiguration)
    (train_split : bool) : list string :=
  if train_split && str_truthy (dataset_train_files config) then
    split ","%char (dataset_train_files config)
  else if negb train_split && str_truthy (dataset_validation_files config) then
    split ","%char (dataset_validation_files config)
  else if str_truthy (dataset config) then
    let dataset_dir := path_join (data_dir config) (dataset config) in
    let prefix := if train_split then dataset_train_file_prefix config
                  else dataset_validation_file_prefix config in
    List.filter
      (fun dataset_file =>
         is_file_type_supported dataset_file
         && startswith (basename dataset_file) prefix)
      (glob env (path_join dataset_dir "*.*"))
  else [].

Definition get_dataset_files (env : Env) (config : AllamoConfiguration)
    (train_split : bool) : res (list string) :=
  let dataset_files := resolve_dataset_files env config train_split in
  if list_truthy dataset_files then Ok (sorted dataset_files)
  else if train_split then Raise (Exception "Training dataset files not found!")
  else Ok [].

Definition align_data_to_step_size {A} (data : list A) (step_size : nat)
  : res (list A) :=
  if step_size =? 0 then Raise ZeroDivisionError
  else
    let target_length := ((length data + step_size - 1) / step_size) * step_size in
    let padding_length := target_length - length data in
    if 0 <? padding_length then Ok (data ++ take padding_length data)
    else Ok data.

(** [range(0, n, step)] for [step >= 1]. *)
Definition range_step (n step : nat) : list nat :=
  (fun k => k * step) <$> seq 0 ((n + step - 1) / step).

Definition transform_continuous_data_to_samples (self : AllamoDataset)
    (data : Array) : list Sample :=
  (fun i => Tensor (a_slice i (i + sample_size self) data))
    <$> range_step (a_len data) (sample_size self).

Definition limit_samples_to_rank {A} (self : AllamoDataset) (samples : list A)
  : list A :=
  if 1 <? world_size self then stride (rank self) (world_size self) samples
  else samples.

(** [torch.where(t == ignore_index, 0, 1)] *)
Definition where_not_ignored (ignore : Z) (t : Array) : Array :=
  torch_where_0_1 (eq_scalar t ignore).

(** The truncate-or-pad step that [pad_or_truncate_to_block_size] applies in
    turn to ['input_ids'], ['target_ids'] and ['target_weights'] of a dict
    sample; [fill] is the value handed to [torch.full] for that field. *)
Definition fit_field (self : AllamoDataset) (fill : Z) (x : Array)
  : res Array :=
  if sample_size self <=? a_len x then Ok (a_take (sample_size self - 1) x)
  else if (0 <=? pad_token_id (config self))%Z
          && (a_len x <? sample_size self - 1)
  then
    padding ← torch_full (sample_size self - 1 - a_len x) fill;
    Ok (torch_cat x padding)
  else Ok x.

(** The message of the exception raised for a dict without
    ['input_ids']. *)
Definition input_ids_not_found (d : Dict) : string :=
  "'input_ids' field not found in sample! Available keys: "
  +:+ String.concat ", " (keys d).

(** The keys of a dict after [d[key] = ...] and after [del d[key]]. *)
Definition keys_set (key : string) (ks : list string) : list string :=
  if bool_decide (key ∈ ks) then ks else ks ++ [key].
Definition keys_del (key : string) (ks : list string) : list string :=
  List.filter (fun k => negb (String.eqb k key)) ks.

Definition pad_or_truncate_sample (self : AllamoDataset) (s : Sample)
  : res Sample :=
  let ignore := ignore_index (config self) in
  match s with
  | DictSample d =>
      input ← match input_ids d with
              | None => Raise (Exception (input_ids_not_found d))
              | Some x => Ok x
              end;
      let ks := keys d in
      let '(target, ks) :=
        match target_ids d with
        | None => (a_drop 1 input, keys_set "target_ids" ks)
        | Some t => (t, ks)
        end in
      let '(weights, ks) :=
        if weighted_loss (config self) then
          match target_weights d with
          | None => (Some (where_not_ignored ignore target),
                     keys_set "target_weights" ks)
          | Some w => (Some w, ks)
          end
        else
          match target_weights d with
          | None => (None, ks)
          | Some _ => (None, keys_del "target_weights" ks)
          end in
      input ← fit_field self ignore input;
      target ← fit_field self ignore target;
      weights ← match weights with
                | Some w => w ← fit_field self 0%Z w; Ok (Some w)
                | None => Ok None
                end;
      _ ← assert (a_len input =? a_len target) "";
      _ ← match weights with
          | Some w => assert (a_len input =? a_len w) ""
          | None => Ok tt
          end;
      Ok (DictSample
            {| keys := ks;
               input_ids := Some input; target_ids := Some target;
               target_weights := weights;
               seq_lens := seq_lens d; input_pos := input_pos d;
               attn_mask := attn_mask d;
               chosen_input_ids := chosen_input_ids d;
               chosen_target_ids := chosen_target_ids d;
               rejected_input_ids := rejected_input_ids d;
               rejected_target_ids := rejected_target_ids d;
               reference_chosen_logps := reference_chosen_logps d;
               reference_rejected_logps := reference_rejected_logps d |})
  | Tensor t =>
      let t := if sample_size self <? a_len t then a_take (sample_size self) t
               else t in
      if (0 <=? pad_token_id (config self))%Z then
        t ← (if a_len t <? sample_size self
             then
               padding ← torch_full (sample_size self - a_len t) ignore;
               Ok (torch_cat t padding)
             else Ok t);
        let input := a_take (a_len t - 1) t in
        let target := a_drop 1 t in
        let weights := where_not_ignored ignore target in
        input ← masked_fill input (eq_scalar input ignore)
                  (pad_token_id (config self));
        Ok (DictSample
              {| keys := ["input_ids"; "target_ids"; "target_weights"];
                 input_ids := Some input; target_ids := Some target;
                 target_weights := Some weights;
                 seq_lens := None; input_pos := None; attn_mask := None;
                 chosen_input_ids := None; chosen_target_ids := None;
                 rejected_input_ids := None; rejected_target_ids := None;
                 reference_chosen_logps := None;
                 reference_rejected_logps := None |})
      else Ok (Tensor t)
  end.

(** The list is updated slot by slot.  Alignment can place one dict object
    in two slots, but never in two slots of the same rank's shard, so the
    in-place update is a plain map. *)
Definition pad_or_truncate_to_block_size (self : AllamoDataset)
    (data : list Sample) : res (list Sample) :=
  mapM (pad_or_truncate_sample self) data.

(** Returns [None] for Python's [None]. *)
Definition align_and_limit_to_rank (self : AllamoDataset) (new_data : PyObject)
  : res (option (list Sample)) :=
  match new_data with
  | PyList l =>
      if length l <? world_size self then Ok None
      else
        l ← align_data_to_step_size l (world_size self);
        Ok (Some (limit_samples_to_rank self l))
  | _ => Ok None
  end.

(** Tokens of a continuous file turned into this rank's samples; [None]
    stands for the early [return False].  The wrap-around of
    [align_data_to_step_size] is a [torch.concat] of the tensor with its
    own beginning and keeps the element type. *)
Definition load_continuous (self : AllamoDataset) (new_data : Array)
  : res (option (list Sample)) :=
  let step_size := world_size self * sample_size self in
  if a_len new_data <? step_size then Ok None
  else
    aligned ← align_data_to_step_size (items new_data) step_size;
    let new_data := {| dtype := dtype new_data; items := aligned |} in
    Ok (Some (limit_samples_to_rank self
                (transform_continuous_data_to_samples self new_data))).

(** The format dispatch of [load_dataset_file]: the value of [new_data]
    when the final test is reached ([None] also stands for the early
    [return False]). *)
Definition read_dataset_file (env : Env) (self : AllamoDataset)
    (load_dataset_file : string) : res (option (list Sample)) :=
  if endswith load_dataset_file ".bin" then
    _ ← assert (String.eqb (training_type (config self)) "pre")
          "NumPy format is supported only for pre-training";
    raw ← np_fromfile env load_dataset_file;
    load_continuous self (int16_tensor raw)
  else if endswith load_dataset_file ".pt" then
    _ ← assert (negb (String.eqb (training_type (config self)) "dpo"))
          "DPO training only supports the ALM format";
    new_data ← torch_load env load_dataset_file;
    match new_data with
    | PyTensor t => load_continuous self t
    | _ =>
        new_data ← align_and_limit_to_rank self new_data;
        match new_data with
        | Some l =>
            if list_truthy l
            then l ← pad_or_truncate_to_block_size self l; Ok (Some l)
            else Ok (Some l)
        | None => Ok None
        end
    end
  else if endswith load_dataset_file ".alm" then
    new_data ← joblib_load env load_dataset_file;
    align_and_limit_to_rank self new_data
  else Ok None.

Definition load_dataset_file (env : Env) (self : AllamoDataset)
    (load_dataset_file : string) : res (bool * AllamoDataset) :=
  let self := set_processed_files self (processed_files self ++ [load_dataset_file]) in
  new_data ← read_dataset_file env self load_dataset_file;
  match new_data with
  | Some (x :: l) =>
      Ok (true, set_data self (Some (x :: l)) (endswith load_dataset_file ".alm"))
  | _ => Ok (false, self)
  end.

(** The loop of [load_next_dataset] over the remaining catalogue entries;
    [processed_files] grows while the loop runs. *)
Fixpoint load_next_loop (env : Env) (files : list string) (self : AllamoDataset)
  : res (bool * AllamoDataset) :=
  match files with
  | [] => Ok (false, self)
  | ds_file :: rest =>
      if str_in ds_file (processed_files self) then load_next_loop env rest self
      else
        '(loaded, self') ← load_dataset_file env self ds_file;
        if loaded : bool then Ok (true, self')
        else load_next_loop env rest self'
  end.

Definition load_next_dataset (env : Env) (self : AllamoDataset)
  : res (bool * AllamoDataset) :=
  let self := set_data self None (data_in_alm_format self) in
  load_next_loop env (dataset_files self) self.

(** [AllamoDataset.__init__] *)
Definition new_dataset (env : Env) (config : AllamoConfiguration)
    (train_split : bool) (rank world_size : nat) : res AllamoDataset :=
  dataset_files ← get_dataset_files env config train_split;
  let processed :=
    if 0 <? dataset_train_processed_files_count config
    then take (dataset_train_processed_files_count config) dataset_files
    else [] in
  let self :=
    {| rank := rank; world_size := world_size; config := config;
       data := None; data_in_alm_format := false;
       dataset_files := dataset_files; processed_files := processed |} in
  '(_, self) ← load_next_dataset env self;
  Ok self.

Definition has_data (self : AllamoDataset) : bool :=
  match data self with
  | Some l => 0 <? length l
  | None => false
  end.

(** [__len__] *)
Definition len (self : AllamoDataset) : nat :=
  match data self with
  | Some l => length l
  | None => 0
  end.

(** *** Materialisation of ALM samples *)

(** [sample[key]]: [KeyError] when the key is absent. *)
Definition getkey {A} (key : string) (v : option A) : res A :=
  match v with
  | Some x => Ok x
  | None => Raise (KeyError key)
  end.

(** [torch.tril(torch.ones(n, n, dtype=torch.bool))] *)
Definition tril_ones (n : nat) : list (list bool) :=
  (fun i => (fun j => bool_decide (j <= i)) <$> seq 0 n) <$> seq 0 n.

(** [torch.eye(n, n, dtype=torch.bool)] *)
Definition eye (n : nat) : list (list bool) :=
  (fun i => (fun j => bool_decide (i = j)) <$> seq 0 n) <$> seq 0 n.

(** Number of columns of a matrix given by its rows. *)
Definition ncols (m : list (list bool)) : nat :=
  match m with
  | [] => 0
  | r :: _ => length r
  end.

Fixpoint block_diag_rows (ms : list (list (list bool))) : list (list bool) :=
  match ms with
  | [] => []
  | m :: rest =>
      let r := block_diag_rows rest in
      ((fun row => row ++ replicate (ncols r) false) <$> m)
        ++ ((fun row => replicate (ncols m) false ++ row) <$> r)
  end.

(** [torch.block_diag] of the blocks [ms]: without arguments the result
    has shape (1, 0). *)
Definition block_diag (ms : list (list (list bool))) : list (list bool) :=
  match ms with
  | [] => [[]]
  | _ => block_diag_rows ms
  end.

(** The guarded padding of one field in [prepare_alm_sample] and
    [prepare_alm_dpo_sample]: with a pad token configured, a field shorter
    than [block_size] is extended by [F.pad] with the value [v]. *)
Definition pad_to_block (self : AllamoDataset) (v : Z) (x : Array) : res Array :=
  if (0 <=? pad_token_id (config self))%Z
     && (a_len x <? block_size (config self))
  then F_pad x (block_size (config self) - a_len x) v
  else Ok x.

(** A sample that is not a dict (an array or a tensor) refuses the string
    index with an [IndexError]. *)
Definition prepare_alm_dpo_sample (self : AllamoDataset) (sample : Sample)
  : res Sample :=
  match sample with
  | Tensor _ => Raise IndexError
  | DictSample sample =>
      ci ← getkey "chosen_input_ids" (chosen_input_ids sample);
      ct ← getkey "chosen_target_ids" (chosen_target_ids sample);
      ri ← getkey "rejected_input_ids" (rejected_input_ids sample);
      rt ← getkey "rejected_target_ids" (rejected_target_ids sample);
      '(rc, rr) ←
        match reference_chosen_logps sample, reference_rejected_logps sample with
        | Some c, Some r =>
            c ← torch_tensor c; r ← torch_tensor r; Ok (Some c, Some r)
        | _, _ => Ok (None, None)
        end;
      let pad := pad_token_id (config self) in
      let ignore := ignore_index (config self) in
      ci ← pad_to_block self pad ci;
      ct ← pad_to_block self ignore ct;
      ri ← pad_to_block self pad ri;
      rt ← pad_to_block self ignore rt;
      Ok (DictSample
            {| keys := ["chosen_input_ids"; "chosen_target_ids";
                        "rejected_input_ids"; "rejected_target_ids"]
                       ++ match rc with
                          | Some _ => ["reference_chosen_logps";
                                       "reference_rejected_logps"]
                          | None => []
                          end;
               input_ids := None; target_ids := None; target_weights := None;
               seq_lens := None; input_pos := None; attn_mask := None;
               chosen_input_ids := Some ci;
               chosen_target_ids := Some ct;
               rejected_input_ids := Some ri;
               rejected_target_ids := Some rt;
               reference_chosen_logps := rc;
               reference_rejected_logps := rr |})
  end.

(** The loop over the sample's [seq_lens]: running total, causal blocks
    and positions. *)
Definition seq_lens_loop (lens : list nat)
  : nat * list (list (list bool)) * list nat :=
  foldl (fun '(total_seq_len, block_attn_masks, sample_input_pos) seq_len =>
           (total_seq_len + seq_len,
            block_attn_masks ++ [tril_ones seq_len],
            sample_input_pos ++ range 0 seq_len))
        (0, [], []) lens.

(** The body of the [seq_lens] branch of [prepare_alm_sample]: positions
    and attention mask of a packed sample whose (padded) ['input_ids'] has
    [n] entries. *)
Definition packed_layout (lens : list nat) (n : nat)
  : res (list nat * list (list bool)) :=
  let '(total_seq_len, block_attn_masks, sample_input_pos) := seq_lens_loop lens in
  if total_seq_len <? n then
    last_pos ← last_item sample_input_pos;
    let new_pos := last_pos + 1 in
    let num_pad := n - total_seq_len in
    Ok (sample_input_pos ++ range new_pos (new_pos + num_pad),
        block_diag (block_attn_masks ++ [eye num_pad]))
  else Ok (sample_input_pos, block_diag block_attn_masks).

Definition prepare_alm_sample (self : AllamoDataset) (sample : Sample)
  : res Sample :=
  if String.eqb (training_type (config self)) "dpo"
  then prepare_alm_dpo_sample self sample
  else
    match sample with
    | Tensor _ => Raise IndexError
    | DictSample sample =>
        let pad := pad_token_id (config self) in
        let ignore := ignore_index (config self) in
        input ← getkey "input_ids" (input_ids sample);
        target ← getkey "target_ids" (target_ids sample);
        let weights :=
          if weighted_loss (config self) then
            Some (match target_weights sample with
                  | Some w => w
                  | None => where_not_ignored ignore target
                  end)
          else None in
        input ← pad_to_block self pad input;
        target ← pad_to_block self ignore target;
        weights ← match weights with
                  | Some w => w ← pad_to_block self 0%Z w; Ok (Some w)
                  | None => Ok None
                  end;
        '(pos, mask) ←
          match seq_lens sample with
          | Some lens =>
              '(pos, mask) ← packed_layout lens (a_len input);
              Ok (Some pos, Some mask)
          | None => Ok (None, None)
          end;
        Ok (DictSample
              {| keys := ["input_ids"; "target_ids"]
                         ++ match weights with
                            | Some _ => ["target_weights"]
                            | None => []
                            end
                         ++ match pos with
                            | Some _ => ["input_pos"; "attn_mask"]
                            | None => []
                            end;
                 input_ids := Some input; target_ids := Some target;
                 target_weights := weights;
                 seq_lens := None; input_pos := pos; attn_mask := mask;
                 chosen_input_ids := None; chosen_target_ids := None;
                 rejected_input_ids := None; rejected_target_ids := None;
                 reference_chosen_logps := None;
                 reference_rejected_logps := None |})
    end.

(** [__getitem__] with a slice [lo:hi]. *)
Definition getitem_slice (self : AllamoDataset) (lo hi : nat)
  : res (list Sample) :=
  match data self with
  | None => Raise TypeError
  | Some d =>
      let result := slice lo hi d in
      if data_in_alm_format self then mapM (prepare_alm_sample self) result
      else Ok result
  end.

(** [__getitem__] with an integer index; [Ok None] is Python's [None]. *)
Definition getitem (self : AllamoDataset) (idx : nat) : res (option Sample) :=
  if idx <? len self then
    match data self with
    | None => Raise TypeError
    | Some d =>
        result ← item idx d;
        if data_in_alm_format self
        then r ← prepare_alm_sample self result; Ok (Some r)
        else Ok (Some result)
    end
  else Ok None.

(** ** [AllamoDataLoader] *)

(** A collated batch: the dict returned by [prepare_samples] or by
    [prepare_dpo_samples]. *)
Inductive Batch : Type :=
  | Collated (b_input_ids b_target_ids : list (list Z))
             (b_target_weights : option (list (list spec_float)))
             (b_attn_mask : option (list (list (list bool))))
             (b_input_pos : option (list (list nat)))
  | CollatedDpo (b_chosen_input_ids b_chosen_target_ids
                 b_rejected_input_ids b_rejected_target_ids : list (list Z))
                (b_reference_chosen_logps b_reference_rejected_logps
                 : option (list spec_float)).

(** Worker threads are identified by a number.  [alive] lists the threads
    that were started and have not ended (those whose [is_alive()] is
    true); [next_thread] is the number of the next thread. *)
Record AllamoDataLoader : Type := {
  dl_config : AllamoConfiguration;
  epoch : nat;
  dl_rank : nat;
  dl_world_size : nat;
  dl_batch_size : nat;
  dataset_offset : nat;
  train_dataset : AllamoDataset;
  val_dataset : option AllamoDataset;
  splits : list string;
  buffer : option (Batch * nat);
  buffer_thread : option nat;
  alive : list nat;
  next_thread : nat
}.

Definition set_dataset_offset (self : AllamoDataLoader) (o : nat) : AllamoDataLoader :=
  {| dl_config := dl_config self; epoch := epoch self; dl_rank := dl_rank self;
     dl_world_size := dl_world_size self; dl_batch_size := dl_batch_size self;
     dataset_offset := o;
     train_dataset := train_dataset self; val_dataset := val_dataset self;
     splits := splits self; buffer := buffer self;
     buffer_thread := buffer_thread self; alive := alive self;
     next_thread := next_thread self |}.

Definition set_epoch (self : AllamoDataLoader) (e : nat) : AllamoDataLoader :=
  {| dl_config := dl_config self; epoch := e; dl_rank := dl_rank self;
     dl_world_size := dl_world_size self; dl_batch_size := dl_batch_size self;
     dataset_offset := dataset_offset self;
     train_dataset := train_dataset self; val_dataset := val_dataset self;
     splits := splits self; buffer := buffer self;
     buffer_thread := buffer_thread self; alive := alive self;
     next_thread := next_thread self |}.

Definition set_train_dataset (self : AllamoDataLoader) (d : AllamoDataset)
  : AllamoDataLoader :=
  {| dl_config := dl_config self; epoch := epoch self; dl_rank := dl_rank self;
     dl_world_size := dl_world_size self; dl_batch_size := dl_batch_size self;
     dataset_offset := dataset_offset self;
     train_dataset := d; val_dataset := val_dataset self;
     splits := splits self; buffer := buffer self;
     buffer_thread := buffer_thread self; alive := alive self;
     next_thread := next_thread self |}.

Definition set_buffer (self : AllamoDataLoader) (b : option (Batch * nat))
  : AllamoDataLoader :=
  {| dl_config := dl_config self; epoch := epoch self; dl_rank := dl_rank self;
     dl_world_size := dl_world_size self; dl_batch_size := dl_batch_size self;
     dataset_offset := dataset_offset self;
     train_dataset := train_dataset self; val_dataset := val_dataset self;
     splits := splits self; buffer := b;
     buffer_thread := buffer_thread self; alive := alive self;
     next_thread := next_thread self |}.

Definition set_threads (self : AllamoDataLoader) (handle : option nat)
    (running : list nat) (next : nat) : AllamoDataLoader :=
  {| dl_config := dl_config self; epoch := epoch self; dl_rank := dl_rank self;
     dl_world_size := dl_world_size self; dl_batch_size := dl_batch_size self;
     dataset_offset := dataset_offset self;
     train_dataset := train_dataset self; val_dataset := val_dataset self;
     splits := splits self; buffer := buffer self;
     buffer_thread := handle; alive := running;
     next_thread := next |}.

(** [torch.stack]: a non-empty list of tensors of one shape. *)
Definition stack {A} (same_shape : A -> A -> bool) (rows : list A)
  : res (list A) :=
  match rows with
  | [] => Raise RuntimeError
  | r :: rest =>
      if forallb (same_shape r) rest then Ok rows else Raise RuntimeError
  end.

Definition same_length {A} (a b : list A) : bool := length a =? length b.
Definition same_len (a b : Array) : bool := a_len a =? a_len b.
Definition same_shape2 (a b : list (list bool)) : bool :=
  (length a =? length b) && (ncols a =? ncols b).

(** [.to(torch.int64)] and [.to(torch.float32)] of a stack of integer
    tensors: the first keeps every value, the second rounds. *)
Definition to_int64 (rows : list Array) : list (list Z) := items <$> rows.
Definition rows_to_float32 (rows : list Array) : list (list spec_float) :=
  (fun row => to_float32 <$> items row) <$> rows.
Definition nums_to_float32 (c : list Num) : list spec_float :=
  num_to_float32 <$> c.

(** [[sample[key] for sample in samples]]: a sample that is not a dict
    refuses the string index with an [IndexError]. *)
Definition column {A} (key : string) (field : Dict -> option A)
    (samples : list Sample) : res (list A) :=
  mapM (fun sample =>
          match sample with
          | DictSample d => getkey key (field d)
          | Tensor _ => Raise IndexError
          end) samples.

Definition prepare_dpo_samples (samples : list Sample) : res Batch :=
  ci ← column "chosen_input_ids" chosen_input_ids samples;
  ci ← stack same_len ci;
  ct ← column "chosen_target_ids" chosen_target_ids samples;
  ct ← stack same_len ct;
  ri ← column "rejected_input_ids" rejected_input_ids samples;
  ri ← stack same_len ri;
  rt ← column "rejected_target_ids" rejected_target_ids samples;
  rt ← stack same_len rt;
  first ← item 0 samples;
  let has (field : Dict -> option Num) :=
    match first with
    | DictSample d => bool_decide (is_Some (field d))
    | Tensor _ => false
    end in
  rc ← (if has reference_chosen_logps then
          c ← column "reference_chosen_logps" reference_chosen_logps samples;
          c ← stack (fun _ _ => true) c; Ok (Some (nums_to_float32 c))
        else Ok None);
  rr ← (if has reference_rejected_logps then
          c ← column "reference_rejected_logps" reference_rejected_logps samples;
          c ← stack (fun _ _ => true) c; Ok (Some (nums_to_float32 c))
        else Ok None);
  Ok (CollatedDpo (to_int64 ci) (to_int64 ct) (to_int64 ri) (to_int64 rt) rc rr).

(** Device transfer does not change the values and is left out. *)
Definition prepare_samples (config : AllamoConfiguration)
    (samples : list Sample) : res Batch :=
  if String.eqb (training_type config) "dpo" then prepare_dpo_samples samples
  else
    first ← item 0 samples;
    match first with
    | DictSample d0 =>
        input ← column "input_ids" input_ids samples;
        input ← stack same_len input;
        target ← column "target_ids" target_ids samples;
        target ← stack same_len target;
        weights ← (if bool_decide (is_Some (target_weights d0)) then
                     w ← column "target_weights" target_weights samples;
                     w ← stack same_len w; Ok (Some (rows_to_float32 w))
                   else Ok None);
        mask ← (if bool_decide (is_Some (attn_mask d0)) then
                  m ← column "attn_mask" attn_mask samples;
                  m ← stack same_shape2 m; Ok (Some m)
                else Ok None);
        pos ← (if bool_decide (is_Some (input_pos d0)) then
                 p ← column "input_pos" input_pos samples;
                 p ← stack same_length p; Ok (Some p)
               else Ok None);
        Ok (Collated (to_int64 input) (to_int64 target) weights mask pos)
    | Tensor _ =>
        rows ← mapM (fun sample =>
                       match sample with
                       | Tensor t => Ok t
                       | DictSample _ => Raise TypeError
                       end) samples;
        input ← stack same_len ((fun t => a_take (a_len t - 1) t) <$> rows);
        target ← stack same_len (a_drop 1 <$> rows);
        Ok (Collated (to_int64 input) (to_int64 target) None None None)
    end.

Definition reload_buffer (self : AllamoDataLoader) : AllamoDataLoader :=
  let self := set_buffer self None in
  if dataset_offset self + dl_batch_size self <=? len (train_dataset self) then
    set_threads self (Some (next_thread self))
      (alive self ++ [next_thread self]) (S (next_thread self))
  else set_threads self None (alive self) (next_thread self).

Definition get_batch_from_buffer (self : AllamoDataLoader)
  : res (Batch * AllamoDataLoader) :=
  '(batch, offset) ← match buffer self with
                     | Some b => Ok b
                     | None => Raise TypeError
                     end;
  let self := set_dataset_offset self offset in
  _ ← assert (match buffer_thread self with
              | None => true
              | Some t => negb (bool_decide (t ∈ alive self))
              end) "";
  Ok (batch, reload_buffer self).

(** [reload_dataset(dataset)], called with the training dataset. *)
Definition reload_dataset (env : Env) (self : AllamoDataLoader)
  : res AllamoDataLoader :=
  let dataset := train_dataset self in
  if 1 <? length (dataset_files dataset) then
    '(loaded, dataset) ← load_next_dataset env dataset;
    if loaded : bool then
      Ok (set_dataset_offset (set_train_dataset self dataset) 0)
    else
      let dataset := set_processed_files dataset [] in
      '(loaded, dataset) ← load_next_dataset env dataset;
      _ ← assert loaded
            "Something very bad has happend and we are unable to reload dataset";
      let self := set_dataset_offset (set_train_dataset self dataset) 0 in
      Ok (set_epoch self (epoch self + 1))
  else
    let self := set_dataset_offset self 0 in
    Ok (set_epoch self (epoch self + 1)).

(** The sample-by-sample loop of [get_batch]; [n] iterations remain.  A
    [None] drawn from an empty dataset makes [prepare_samples] fail with a
    [TypeError] whatever else the batch holds, which is raised here. *)
Fixpoint draw_one_by_one (env : Env) (n : nat) (self : AllamoDataLoader)
    (samples : list Sample) : res (list Sample * AllamoDataLoader) :=
  match n with
  | 0 => Ok (samples, self)
  | S n =>
      self ← (if len (train_dataset self) <=? dataset_offset self
              then reload_dataset env self else Ok self);
      s ← getitem (train_dataset self) (dataset_offset self);
      match s with
      | None => Raise TypeError
      | Some s =>
          draw_one_by_one env n
            (set_dataset_offset self (dataset_offset self + 1))
            (samples ++ [s])
      end
  end.

(** The samples of the next sequential training batch, assembled
    synchronously (the [elif] and [else] arms of [get_batch]). *)
Definition next_samples (env : Env) (self : AllamoDataLoader)
  : res (list Sample * AllamoDataLoader) :=
  let dataset := train_dataset self in
  if dataset_offset self + dl_batch_size self <=? len dataset then
    samples ← getitem_slice dataset (dataset_offset self)
                (dataset_offset self + dl_batch_size self);
    Ok (samples, set_dataset_offset self (dataset_offset self + dl_batch_size self))
  else draw_one_by_one env (dl_batch_size self) self [].

(** [torch.randint(high, (n,))]: [rng] is the stream of raw random
    numbers. *)
Definition randint (rng : nat -> nat) (high n : nat) : res (list nat) :=
  if high =? 0 then Raise RuntimeError
  else Ok ((fun k => rng k mod high) <$> seq 0 n).

(** The samples of a randomly drawn batch from [dataset]. *)
Definition random_samples_of (rng : nat -> nat) (self : AllamoDataLoader)
    (dataset : AllamoDataset) : res (list Sample) :=
  idx_batch ← randint rng (len dataset) (dl_batch_size self);
  mapM (fun i =>
          s ← getitem dataset i;
          match s with
          | Some s => Ok s
          | None => Raise TypeError
          end) idx_batch.

Definition get_batch (env : Env) (rng : nat -> nat) (self : AllamoDataLoader)
    (split : string) (random_samples : bool) : res (Batch * AllamoDataLoader) :=
  let dataset :=
    if String.eqb split "train" then train_dataset self
    else match val_dataset self with
         | None => train_dataset self
         | Some v => v
         end in
  if negb random_samples && String.eqb split "train"
     && dataset_seq_train (dl_config self) then
    if dataset_buffer (dl_config self) && bool_decide (is_Some (buffer self))
    then get_batch_from_buffer self
    else
      '(samples, self) ← next_samples env self;
      let self := reload_buffer self in
      batch ← prepare_samples (dl_config self) samples;
      Ok (batch, self)
  else
    samples ← random_samples_of rng self dataset;
    batch ← prepare_samples (dl_config self) samples;
    Ok (batch, self).

(** ** The prefetch worker

    A worker thread runs [update_buffer(dataset)], [dataset] being the
    training dataset object.  The interpreter can switch threads between
    any two accesses to the loader, so the body is a sequence of steps;
    [WorkerPc] tells how far a worker has come and what it holds in its
    local values. *)
Inductive WorkerPc : Type :=
  | Started                              (* before [with self.buffer_lock] *)
  | Locked                               (* the lock is acquired *)
  | SliceStart (lo : nat)                (* [self.dataset_offset] was read *)
  | SliceStop (lo hi : nat)              (* ... and [self.dataset_offset + self.batch_size] *)
  | Sliced (raw : list Sample)           (* [self.data[idx]] in [__getitem__] *)
  | Materialized (samples : list Sample) (* [dataset[lo:hi]] has returned *)
  | Prepared (batch : Batch)             (* [prepare_samples] has returned *)
  | Entry (batch : Batch) (offset : nat) (* the dict for the slot is built *)
  | Leaving                              (* at the end of the [with] block *)
  | Finishing.                           (* the lock is released *)

(** The loader with its lock and its worker threads: [buffer_lock] is the
    worker that holds the lock, [pcs] tells where the workers stand.  A
    live worker without an entry in [pcs] has not taken a step. *)
Record World : Type := {
  loader : AllamoDataLoader;
  buffer_lock : option nat;
  pcs : list (nat * WorkerPc)
}.

Definition with_loader (w : World) (l : AllamoDataLoader) : World :=
  {| loader := l; buffer_lock := buffer_lock w; pcs := pcs w |}.

(** A loader whose workers, if any, have not taken a step. *)
Definition idle (l : AllamoDataLoader) : World :=
  {| loader := l; buffer_lock := None; pcs := [] |}.

Fixpoint pc_of (tid : nat) (l : list (nat * WorkerPc)) : WorkerPc :=
  match l with
  | [] => Started
  | (t, pc) :: rest => if t =? tid then pc else pc_of tid rest
  end.

Definition drop_pc (tid : nat) (l : list (nat * WorkerPc))
  : list (nat * WorkerPc) :=
  List.filter (fun p => negb (fst p =? tid)) l.

Definition at_pc (tid : nat) (pc : WorkerPc) (w : World) : World :=
  {| loader := loader w; buffer_lock := buffer_lock w;
     pcs := (tid, pc) :: drop_pc tid (pcs w) |}.

(** One step of the worker [tid].  A worker that waits for the lock, and
    a thread that is not alive, do not move.  An exception in the body
    leaves the [with] block, which releases the lock, and ends the thread;
    the slot is then not assigned. *)
Definition worker_step (tid : nat) (w : World) : World :=
  let self := loader w in
  let dataset := train_dataset self in
  if bool_decide (tid ∈ alive self) then
    match pc_of tid (pcs w) with
    | Started =>
        match buffer_lock w with
        | None => {| loader := self; buffer_lock := Some tid;
                     pcs := (tid, Locked) :: drop_pc tid (pcs w) |}
        | Some _ => w
        end
    | Locked => at_pc tid (SliceStart (dataset_offset self)) w
    | SliceStart lo =>
        at_pc tid (SliceStop lo (dataset_offset self + dl_batch_size self)) w
    | SliceStop lo hi =>
        match data dataset with
        | Some d => at_pc tid (Sliced (slice lo hi d)) w
        | None => at_pc tid Leaving w
        end
    | Sliced raw =>
        match (if data_in_alm_format dataset
               then mapM (prepare_alm_sample dataset) raw else Ok raw) with
        | Ok samples => at_pc tid (Materialized samples) w
        | Raise _ => at_pc tid Leaving w
        end
    | Materialized samples =>
        match prepare_samples (dl_config self) samples with
        | Ok batch => at_pc tid (Prepared batch) w
        | Raise _ => at_pc tid Leaving w
        end
    | Prepared batch =>
        at_pc tid (Entry batch (dataset_offset self + dl_batch_size self)) w
    | Entry batch offset =>
        at_pc tid Leaving (with_loader w (set_buffer self (Some (batch, offset))))
    | Leaving =>
        {| loader := self; buffer_lock := None;
           pcs := (tid, Finishing) :: drop_pc tid (pcs w) |}
    | Finishing =>
        {| loader := set_threads self (buffer_thread self)
                       (List.filter (fun t => negb (t =? tid)) (alive self))
                       (next_thread self);
           buffer_lock := buffer_lock w;
           pcs := drop_pc tid (pcs w) |}
    end
  else w.



(** [AllamoDataLoader.__init__] with [load_datasets]; [rank] and
    [world_size] are [None] or a number. *)
Definition new_loader (env : Env) (config : AllamoConfiguration)
    (rank world_size : option nat) : res AllamoDataLoader :=
  let rank := default 0 rank in
  let world_size := default 1 world_size in
  let batch := if batch_size_schedule config then batch_size_initial config
               else batch_size config in
  let offset := if dataset_seq_train config
                then default 0 (dataset_seq_train_start config) else 0 in
  train ← new_dataset env config true rank world_size;
  val ← new_dataset env config false rank world_size;
  let has_val := has_data val in
  Ok {| dl_config := config; epoch := 0; dl_rank := rank;
        dl_world_size := world_size; dl_batch_size := batch;
        dataset_offset := offset;
        train_dataset := train;
        val_dataset := if has_val then Some val else None;
        splits := if has_val then ["train"; "val"] else ["train"];
        buffer := None; buffer_thread := None; alive := [];
        next_thread := 0 |}.

(** ** Checkpoints ([train.py]) *)

(** The data-loader fields of the trainer's checkpoint dict. *)
Record Checkpoint : Type := {
  allamo_dataloader_train_processed_files : option (list string);
  allamo_dataloader_dataset_offset : option nat;
  allamo_dataloader_epoch : option nat
}.

(** [save_checkpoint], restricted to the data-loader fields. *)
Definition save_checkpoint (data_loader : AllamoDataLoader) : Checkpoint :=
  {| allamo_dataloader_train_processed_files :=
       Some (processed_files (train_dataset data_loader));
     allamo_dataloader_dataset_offset := Some (dataset_offset data_loader);
     allamo_dataloader_epoch := Some (epoch data_loader) |}.

(** The resume branch of [__init_training], restricted to the data
    loader: [data_loader] is the loader that [__init__] has just built. *)
Definition resume (env : Env) (config_checkpoint : Checkpoint)
    (data_loader : AllamoDataLoader) : res AllamoDataLoader :=
  data_loader ←
    match allamo_dataloader_train_processed_files config_checkpoint with
    | Some files =>
        let train := set_processed_files (train_dataset data_loader) files in
        if 0 <? length files then
          let train := set_processed_files train (removelast files) in
          '(_, train) ← load_next_dataset env train;
          Ok (set_train_dataset data_loader train)
        else Ok (set_train_dataset data_loader train)
    | None => Ok data_loader
    end;
  let data_loader :=
    match allamo_dataloader_dataset_offset config_checkpoint with
    | Some o => set_dataset_offset data_loader o
    | None => data_loader
    end in
  let data_loader :=
    match allamo_dataloader_epoch config_checkpoint with
    | Some e => set_epoch data_loader e
    | None => data_loader
    end in
  Ok data_loader.

(** ** Specification-side vocabulary *)

(** The same dataset object as seen by another rank of the job. *)
Definition on_rank (self : AllamoDataset) (r : nat) : AllamoDataset :=
  {| rank := r; world_size := world_size self; config := config self;
     data := data self; data_in_alm_format := data_in_alm_format self;
     dataset_files := dataset_files self;
     processed_files := processed_files self |}.

(** The positions of an [n]-element sample list that rank [r] keeps. *)
Definition kept_indices (self : AllamoDataset) (r n : nat) : list nat :=
  limit_samples_to_rank (on_rank self r) (seq 0 n).


(** An [n] by [n] matrix. *)
Definition square (n : nat) (m : list (list bool)) : Prop :=
  length m = n /\ Forall (fun row => length row = n) m.

(** Two dataset objects of the same job: same rank, world size,
    configuration and catalogue. *)
Definition same_job (d d' : AllamoDataset) : Prop :=
  rank d = rank d' /\ world_size d = world_size d'
  /\ config d = config d' /\ dataset_files d = dataset_files d'.

(** The cursor has drawn [c] samples in all: [c] is the epoch count times
    the file size plus the offset. *)
Record cursor_at (cfg : AllamoConfiguration) (d : AllamoDataset) (b c : nat)
    (st : AllamoDataLoader) : Prop := {
  cur_config : dl_config st = cfg;
  cur_dataset : train_dataset st = d;
  cur_batch : dl_batch_size st = b;
  cur_drawn : epoch st * len d + dataset_offset st = c;
  cur_bound : dataset_offset st <= len d
}.

(** A dataset object of the given configuration with nothing loaded. *)
Definition blank_dataset (config : AllamoConfiguration) (rank world_size : nat)
  : AllamoDataset :=
  {| rank := rank; world_size := world_size; config := config;
     data := None; data_in_alm_format := false;
     dataset_files := []; processed_files := [] |}.

(** The dataset object holds a file in progress: it is as a successful
    [load_next_dataset] leaves it.  Every dataset state with loaded data
    arises this way (construction, file change, epoch rollover, resume). *)
Definition file_in_progress (env : Env) (d : AllamoDataset) : Prop :=
  exists d0, load_next_dataset env d0 = Ok (true, d).

(** The first catalogue file that is not in the ledger. *)
Definition first_unprocessed (catalogue ledger : list string) : option string :=
  List.find (fun f => negb (str_in f ledger)) catalogue.

#[global] Instance Sample_inhabited : Inhabited Sample :=
  populate (Tensor (array int64 [])).

(** The whole loaded file as [__getitem__] hands it out
    ([dataset[0:len(dataset)]]). *)
Definition materialized (d : AllamoDataset) : res (list Sample) :=
  getitem_slice d 0 (len d).

(** The samples drawn by [n] successive sequential training batches,
    assembled synchronously: what [n] calls of [get_batch] select before
    collation. *)
Fixpoint train_samples (env : Env) (n : nat) (self : AllamoDataLoader)
  : res (list (list Sample) * AllamoDataLoader) :=
  match n with
  | 0 => Ok ([], self)
  | S n =>
      '(samples, self) ← next_samples env self;
      '(rest, self) ← train_samples env n (reload_buffer self);
      Ok (samples :: rest, self)
  end.

(** [n] successive calls [get_batch('train')]. *)
Fixpoint train_batches (env : Env) (rng : nat -> nat) (n : nat)
    (self : AllamoDataLoader) : res (list Batch * AllamoDataLoader) :=
  match n with
  | 0 => Ok ([], self)
  | S n =>
      '(batch, self) ← get_batch env rng self "train" false;
      '(rest, self) ← train_batches env rng n self;
      Ok (batch :: rest, self)
  end.

(** The [k]-th window of [b] samples of the endless repetition of [ms]. *)
Definition cyclic_window (ms : list Sample) (b k : nat) : list Sample :=
  (fun i => ms !!! ((k * b + i) mod length ms)) <$> seq 0 b.

(** Entry [(i, j)] of a matrix given by its rows. *)
Definition entry (m : list (list bool)) (i j : nat) : option bool :=
  row ← m !! i; row !! j.

(** The first position of the block that holds position [i]: the start of
    its packed sub-sequence, or [i] itself in the pad region that follows
    the sub-sequences. *)
Fixpoint block_start (lens : list nat) (i : nat) : nat :=
  match lens with
  | [] => i
  | n :: rest => if i <? n then 0 else n + block_start rest (i - n)
  end.

(** ** Worked configurations *)

(** Pre-training on explicit file lists: [block_size = 4], pad token 0,
    sequential training with batch size 2, no prefetch. *)
Definition config_of_files (train_files validation_files : string)
  : AllamoConfiguration :=
  {| data_dir := "data"; dataset := EmptyString;
     dataset_train_files := train_files;
     dataset_validation_files := validation_files;
     dataset_train_file_prefix := "train";
     dataset_validation_file_prefix := "val";
     dataset_train_processed_files_count := 0;
     block_size := 4; ignore_index := (-100)%Z; pad_token_id := 0%Z;
     weighted_loss := true; training_type := "pre";
     batch_size := 2; batch_size_schedule := false; batch_size_initial := 1;
     dataset_seq_train := true; dataset_seq_train_start := None;
     dataset_buffer := false |}.

(** An environment without any file. *)
Definition empty_env : Env :=
  {| glob := fun _ => [];
     np_fromfile := fun _ => Raise IOError;
     torch_load := fun _ => Raise IOError;
     joblib_load := fun _ => Raise IOError |}.

(** Instruction tuning on one ALM file. *)
Definition config_sft (block : nat) (pad : Z) (weighted : bool)
  : AllamoConfiguration :=
  {| data_dir := "data"; dataset := EmptyString;
     dataset_train_files := "train.alm";
     dataset_validation_files := EmptyString;
     dataset_train_file_prefix := "train";
     dataset_validation_file_prefix := "val";
     dataset_train_processed_files_count := 0;
     block_size := block; ignore_index := (-100)%Z; pad_token_id := pad;
     weighted_loss := weighted; training_type := "sft";
     batch_size := 2; batch_size_schedule := false; batch_size_initial := 1;
     dataset_seq_train := true; dataset_seq_train_start := None;
     dataset_buffer := false |}.

(** A raw structured sample as stored in a file. *)
Definition raw_sample (input target : Array) (weights : option Array)
    (lens : option (list nat)) : Dict :=
  {| keys := ["input_ids"; "target_ids"]
             ++ match weights with Some _ => ["target_weights"] | None => [] end
             ++ match lens with Some _ => ["seq_lens"] | None => [] end;
     input_ids := Some input; target_ids := Some target;
     target_weights := weights; seq_lens := lens;
     input_pos := None; attn_mask := None;
     chosen_input_ids := None; chosen_target_ids := None;
     rejected_input_ids := None; rejected_target_ids := None;
     reference_chosen_logps := None; reference_rejected_logps := None |}.

(** [lookup f files]: the content stored under the path [f]. *)
Fixpoint stored {A} (f : string) (files : list (string * A)) : res A :=
  match files with
  | [] => Raise IOError
  | (g, c) :: rest => if String.eqb f g then Ok c else stored f rest
  end.

(** An environment holding the given token files and pickled objects. *)
Definition env_of (bins : list (string * list Z))
    (objects : list (string * PyObject)) : Env :=
  {| glob := fun _ => (fst <$> bins) ++ (fst <$> objects);
     np_fromfile := fun f => stored f bins;
     torch_load := fun f => stored f objects;
     joblib_load := fun f => stored f objects |}.

Definition from_ok {A} (default : A) (r : res A) : A :=
  match r with
  | Ok a => a
  | Raise _ => default
  end.

(** A loader with nothing loaded, used as a placeholder. *)
Definition blank_loader (config : AllamoConfiguration) : AllamoDataLoader :=
  {| dl_config := config; epoch := 0; dl_rank := 0; dl_world_size := 1;
     dl_batch_size := batch_size config; dataset_offset := 0;
     train_dataset := blank_dataset config 0 1; val_dataset := None;
     splits := ["train"]; buffer := None; buffer_thread := None;
     alive := []; next_thread := 0 |}.

(** Two token files of two samples each (ten tokens, [block_size = 4]). *)
Definition two_file_env : Env :=
  env_of [("a.bin", Z.of_nat <$> seq 1 10); ("b.bin", Z.of_nat <$> seq 11 10)] [].

Definition two_file_config : AllamoConfiguration :=
  config_of_files "a.bin,b.bin" EmptyString.

(** The loader as constructed, in the first file. *)
Definition two_file_fresh : AllamoDataLoader := Eval vm_compute in
  from_ok (blank_loader two_file_config)
    (new_loader two_file_env two_file_config None None).

(** The loader one sample into the second file. *)
Definition two_file_saved : AllamoDataLoader := Eval vm_compute in
  set_dataset_offset
    (from_ok (blank_loader two_file_config)
       (reload_dataset two_file_env two_file_fresh)) 1.

(** The loader at the end of the second file. *)
Definition two_file_done : AllamoDataLoader := Eval vm_compute in
  set_dataset_offset two_file_saved 2.

(** A single token file of four samples, and the same path holding three
    tokens only (too few for one sample). *)
Definition one_file_env : Env :=
  env_of [("train.bin", Z.of_nat <$> seq 1 20)] [].

Definition short_file_env : Env :=
  env_of [("train.bin", [1; 2; 3]%Z)] [].

Definition one_file_config : AllamoConfiguration :=
  config_of_files "train.bin" EmptyString.

Definition one_file_fresh : AllamoDataLoader := Eval vm_compute in
  from_ok (blank_loader one_file_config)
    (new_loader one_file_env one_file_config None None).

(** The single-file loader with the cursor at the end of the file. *)
Definition one_file_done : AllamoDataLoader := Eval vm_compute in
  set_dataset_offset one_file_fresh 4.

(** The loader built on the three-token file: nothing could be loaded. *)
Definition short_file_fresh : AllamoDataLoader := Eval vm_compute in
  from_ok (blank_loader one_file_config)
    (new_loader short_file_env one_file_config None None).

(** The same configuration with the prefetch buffer switched on. *)
Definition buffered (c : AllamoConfiguration) : AllamoConfiguration :=
  {| data_dir := data_dir c; dataset := dataset c;
     dataset_train_files := dataset_train_files c;
     dataset_validation_files := dataset_validation_files c;
     dataset_train_file_prefix := dataset_train_file_prefix c;
     dataset_validation_file_prefix := dataset_validation_file_prefix c;
     dataset_train_processed_files_count := dataset_train_processed_files_count c;
     block_size := block_size c; ignore_index := ignore_index c;
     pad_token_id := pad_token_id c; weighted_loss := weighted_loss c;
     training_type := training_type c;
     batch_size := batch_size c; batch_size_schedule := batch_size_schedule c;
     batch_size_initial := batch_size_initial c;
     dataset_seq_train := dataset_seq_train c;
     dataset_seq_train_start := dataset_seq_train_start c;
     dataset_buffer := true |}.


(** ** Further vocabulary *)

(** Reading the file [f] succeeds but gives no sample: the file is
    skipped. *)
Definition no_samples (env : Env) (d : AllamoDataset) (f : string) : Prop :=
  read_dataset_file env d f = Ok None \/ read_dataset_file env d f = Ok (Some []).

(** The tokens of a continuous sample. *)
Definition tokens_of (s : Sample) : list Z :=
  match s with
  | Tensor t => items t
  | DictSample _ => []
  end.

(** Preference training on one ALM file. *)
Definition config_dpo (block : nat) (pad : Z) : AllamoConfiguration :=
  {| data_dir := "data"; dataset := EmptyString;
     dataset_train_files := "train.alm";
     dataset_validation_files := EmptyString;
     dataset_train_file_prefix := "train";
     dataset_validation_file_prefix := "val";
     dataset_train_processed_files_count := 0;
     block_size := block; ignore_index := (-100)%Z; pad_token_id := pad;
     weighted_loss := false; training_type := "dpo";
     batch_size := 2; batch_size_schedule := false; batch_size_initial := 1;
     dataset_seq_train := true; dataset_seq_train_start := None;
     dataset_buffer := false |}.

(** A raw preference sample as stored in a file. *)
Definition raw_dpo_sample (ci ct ri rt : Array) (rc rr : option Num) : Dict :=
  {| keys := ["chosen_input_ids"; "chosen_target_ids";
              "rejected_input_ids"; "rejected_target_ids"]
             ++ match rc with Some _ => ["reference_chosen_logps"] | None => [] end
             ++ match rr with Some _ => ["reference_rejected_logps"] | None => [] end;
     input_ids := None; target_ids := None; target_weights := None;
     seq_lens := None; input_pos := None; attn_mask := None;
     chosen_input_ids := Some ci; chosen_target_ids := Some ct;
     rejected_input_ids := Some ri; rejected_target_ids := Some rt;
     reference_chosen_logps := rc; reference_rejected_logps := rr |}.


(** The batch column of an optional key: the first sample [d0] decides
    whether the batch has it; if it does, every sample of the batch
    contributes its value, in order, and the column is their conversion
    [conv] to the element type of the batch. *)
Definition optional_column {A B} (field : Dict -> option A)
    (conv : list A -> B) (d0 : Dict) (ds : list Dict) (col : option B)
  : Prop :=
  match field d0 with
  | Some _ => exists c, col = Some (conv c) /\ field <$> ds = Some <$> c
  | None => col = None
  end.

(** The dataset a request for [split] is served from. *)
Definition dataset_of_split (self : AllamoDataLoader) (split : string)
  : AllamoDataset :=
  if String.eqb split "train" then train_dataset self
  else default (train_dataset self) (val_dataset self).

(** Number of rows of a collated batch. *)
Definition batch_rows (b : Batch) : nat :=
  match b with
  | Collated input _ _ _ _ => length input
  | CollatedDpo chosen _ _ _ _ _ => length chosen
  end.

(** The set-up of a loader that drawing batches must not touch:
    configuration, rank, world size, batch size, validation dataset and
    splits, and the training dataset's job. *)
Definition same_setup (self self' : AllamoDataLoader) : Prop :=
  dl_config self' = dl_config self
  /\ dl_rank self' = dl_rank self
  /\ dl_world_size self' = dl_world_size self
  /\ dl_batch_size self' = dl_batch_size self
  /\ val_dataset self' = val_dataset self
  /\ splits self' = splits self
  /\ same_job (train_dataset self') (train_dataset self).

(** A training file and a validation file of two samples each. *)
Definition val_file_env : Env :=
  env_of [("train.bin", Z.of_nat <$> seq 1 10);
          ("val.bin", Z.of_nat <$> seq 101 10)] [].

Definition val_file_config : AllamoConfiguration :=
  config_of_files "train.bin" "val.bin".

Definition val_file_fresh : AllamoDataLoader := Eval vm_compute in
  from_ok (blank_loader val_file_config)
    (new_loader val_file_env val_file_config None None).

(** [c in s] for a character [c]. *)
Fixpoint str_contains (c : ascii) (s : string) : bool :=
  match s with
  | EmptyString => false
  | String x s' => Ascii.eqb x c || str_contains c s'
  end.

(** The explicit file list and the file-name prefix configured for a
    split. *)
Definition explicit_files (config : AllamoConfiguration) (train_split : bool)
  : string :=
  if train_split then dataset_train_files config
  else dataset_validation_files config.

Definition split_prefix (config : AllamoConfiguration) (train_split : bool)
  : string :=
  if train_split then dataset_train_file_prefix config
  else dataset_validation_file_prefix config.

(** A dataset directory scanned by prefix: no explicit file lists. *)
Definition scan_env : Env :=
  env_of [("data/corpus/train-1.bin", Z.of_nat <$> seq 1 10);
          ("data/corpus/val-1.bin", Z.of_nat <$> seq 101 10);
          ("data/corpus/train-notes.txt", [])] [].

Definition scan_config : AllamoConfiguration :=
  {| data_dir := "data"; dataset := "corpus";
     dataset_train_files := EmptyString;
     dataset_validation_files := EmptyString;
     dataset_train_file_prefix := "train";
     dataset_validation_file_prefix := "val";
     dataset_train_processed_files_count := 0;
     block_size := 4; ignore_index := (-100)%Z; pad_token_id := 0%Z;
     weighted_loss := true; training_type := "pre";
     batch_size := 2; batch_size_schedule := false; batch_size_initial := 1;
     dataset_seq_train := true; dataset_seq_train_start := None;
     dataset_buffer := false |}.

(** A token file with values above the signed 16-bit range. *)
Definition wide_token_env : Env :=
  env_of [("train.bin", [1; 40000; 3; 65535; 5; 6; 32768; 8; 32767; 10]%Z)] [].

(** The length of a field after the guarded padding of the
    materialisation. *)
Definition padded_length (self : AllamoDataset) (x : Array) : nat :=
  if (0 <=? pad_token_id (config self))%Z
  then a_len x `max` block_size (config self)
  else a_len x.

(** The field [x] extended with the value [v] to its padded length. *)
Definition padded (self : AllamoDataset) (v : Z) (x : Array) : Array :=
  {| dtype := dtype x;
     items := items x ++ replicate (padded_length self x - a_len x) v |}.

(** The field [x] has to be extended and its element type cannot hold the
    value [v]. *)
Definition unpaddable (self : AllamoDataset) (v : Z) (x : Array) : bool :=
  (a_len x <? padded_length self x) && negb (fits (dtype x) v).

(** A single token file of seven samples, read with the prefetch buffer
    on. *)
Definition seven_env : Env :=
  env_of [("train.bin", Z.of_nat <$> seq 1 35)] [].

Definition seven_fresh : AllamoDataLoader := Eval vm_compute in
  from_ok (blank_loader (buffered one_file_config))
    (new_loader seven_env (buffered one_file_config) None None).

(** The loader after one call of [get_batch]. *)
Definition after_call (env : Env) (l : AllamoDataLoader) : AllamoDataLoader :=
  snd (from_ok (Collated [] [] None None None, l)
         (get_batch env (fun _ => 0) l "train" false)).


(* ================================================================== *)
(** * Properties *)
(* ================================================================== *)

Arguments fit_field : simpl never.
Arguments pad_to_block : simpl never.
Arguments packed_layout : simpl never.
Arguments where_not_ignored : simpl never.

(** ** Strided slices *)

Section StrideFacts.
Context {A : Type}.
Implicit Types l : list A.

Lemma stride_lookup skip step l k :
  0 < step -> stride skip step l !! k = l !! (skip + k * step).
Proof.
  intros Hstep. revert skip k.
  induction l as [|x t IH]; intros skip k; [done|].
  destruct skip as [|s]; simpl.
  - destruct k as [|k]; [done|]. simpl. rewrite IH.
    replace (step + k * step) with (S (step - 1 + k * step)) by lia. done.
  - apply IH.
Qed.

Lemma stride_sublist skip step l : stride skip step l `sublist_of` l.
Proof.
  revert skip. induction l as [|x t IH]; intros skip; [done|].
  destruct skip; simpl.
  - apply sublist_skip, IH.
  - apply sublist_cons, IH.
Qed.

Lemma stride_fmap {B} (f : A -> B) skip step l :
  stride skip step (f <$> l) = f <$> stride skip step l.
Proof.
  revert skip. induction l as [|x t IH]; intros skip; [done|].
  destruct skip; simpl; by rewrite IH.
Qed.

Lemma stride_length skip step l m :
  0 < step -> skip < step -> length l = m * step ->
  length (stride skip step l) = m.
Proof.
  intros Hstep Hskip Hlen.
  destruct (decide (length (stride skip step l) < m)) as [Hlt|Hge].
  - assert (stride skip step l !! length (stride skip step l) = None) as Hn
      by (apply lookup_ge_None; lia).
    rewrite stride_lookup in Hn by done.
    apply lookup_ge_None in Hn. nia.
  - destruct (decide (length (stride skip step l) = m)) as [|Hne]; [done|].
    assert (is_Some (stride skip step l !! m)) as Hs
      by (apply lookup_lt_is_Some; lia).
    rewrite stride_lookup in Hs by done.
    apply lookup_lt_is_Some in Hs. nia.
Qed.

(** The shards of all starting positions together hold every element
    once, whatever the length of the list. *)
Lemma stride_all_Permutation step l :
  0 < step ->
  concat ((fun r => stride r step l) <$> seq 0 step) ≡ₚ l.
Proof.
  destruct step as [|w]; [lia|]. intros _.
  induction l as [|x t IH].
  - induction (seq 0 (S w)) as [|? ? IHs]; [done|]. simpl. by rewrite IHs.
  - cbn [seq fmap list_fmap concat stride].
    rewrite <- seq_shift, <- list_fmap_compose. simpl.
    replace (w - 0) with w by lia.
    rewrite seq_S, fmap_app, concat_app in IH. simpl in IH.
    rewrite app_nil_r in IH.
    apply Permutation_skip. rewrite <- IH at 2.
    apply Permutation_app_comm.
Qed.
End StrideFacts.

Lemma elem_of_stride_seq skip step n i :
  0 < step -> skip < step ->
  i ∈ stride skip step (seq 0 n) -> i < n /\ i mod step = skip.
Proof.
  intros Hstep Hskip [k Hk]%list_elem_of_lookup.
  rewrite stride_lookup in Hk by done.
  apply lookup_seq in Hk as [Hi Hlt]. simpl in Hi. subst i. split; [lia|].
  rewrite Nat.Div0.mod_add. by apply Nat.mod_small.
Qed.

Lemma fmap_lookup_seq {A} (l : list A) :
  Some <$> l = (fun i => l !! i) <$> seq 0 (length l).
Proof.
  apply list_eq. intros i. rewrite !list_lookup_fmap.
  destruct (decide (i < length l)) as [Hi|Hi].
  - rewrite lookup_seq_lt by done. simpl.
    by destruct (lookup_lt_is_Some_2 l i Hi) as [x ->].
  - rewrite lookup_seq_ge by lia.
    by rewrite (lookup_ge_None_2 l i) by lia.
Qed.

(** ** Rank sharding *)

(** C1.  For every world size [w >= 1] and every sample list whose length
    is [m * w], the shard of rank [r < w] has exactly [m] samples, its
    [k]-th sample is the one at index [r + k * w], and it is the original
    list read at the kept indices; every shard is a subsequence of the
    list (order is preserved); the index sets kept by two different ranks
    are disjoint; and the shards of all [w] ranks together are a
    permutation of the list (each sample exactly once). *)
Theorem limit_samples_to_rank_partition {A} (self : AllamoDataset)
    (samples : list A) (m : nat) :
  1 <= world_size self ->
  length samples = m * world_size self ->
  let w := world_size self in
  let shard r := limit_samples_to_rank (on_rank self r) samples in
  (forall r, r < w ->
     length (shard r) = m
     /\ (forall k, shard r !! k = samples !! (r + k * w))
     /\ Some <$> shard r = (fun i => samples !! i) <$> kept_indices self r (length samples)
     /\ shard r `sublist_of` samples)
  /\ (forall r1 r2 i, r1 < w -> r2 < w -> r1 <> r2 ->
        i ∈ kept_indices self r1 (length samples) ->
        i ∉ kept_indices self r2 (length samples))
  /\ concat (shard <$> seq 0 w) ≡ₚ samples.
Proof.
  intros Hw Hlen w shard. subst shard.
  unfold kept_indices, limit_samples_to_rank. simpl. fold w.
  destruct (1 <? w) eqn:Hmulti.
  - apply Nat.ltb_lt in Hmulti. repeat split.
    + apply stride_length; lia.
    + intros k. apply stride_lookup. lia.
    + rewrite <- !stride_fmap. f_equal. apply fmap_lookup_seq.
    + apply stride_sublist.
    + intros r1 r2 i Hr1 Hr2 Hne H1 H2.
      apply elem_of_stride_seq in H1 as [_ H1]; [|lia..].
      apply elem_of_stride_seq in H2 as [_ H2]; [|lia..].
      congruence.
    + apply stride_all_Permutation. lia.
  - apply Nat.ltb_ge in Hmulti. assert (w = 1) as Hw1 by lia.
    rewrite Hw1 in *. repeat split.
    + lia.
    + intros k. f_equal. lia.
    + apply fmap_lookup_seq.
    + done.
    + intros r1 r2 i Hr1 Hr2 Hne. lia.
    + simpl. by rewrite app_nil_r.
Qed.

Lemma limit_samples_to_rank_partition_witness :
  let self := blank_dataset two_file_config 0 2 in
  let samples := [10; 11; 12; 13] in
  1 <= world_size self
  /\ length samples = 2 * world_size self
  /\ limit_samples_to_rank (on_rank self 0) samples = [10; 12]
  /\ limit_samples_to_rank (on_rank self 1) samples = [11; 13]
  /\ concat ((fun r => limit_samples_to_rank (on_rank self r) samples)
               <$> seq 0 (world_size self)) ≡ₚ samples.
Proof.
  intros self samples.
  assert (1 <= world_size self) as Hw by (simpl; lia).
  assert (length samples = 2 * world_size self) as Hlen by reflexivity.
  split; [exact Hw|]. split; [exact Hlen|].
  split; [reflexivity|]. split; [reflexivity|].
  exact (proj2 (proj2 (limit_samples_to_rank_partition self samples 2 Hw Hlen))).
Defined.

(** [block_size = 4] and two ranks: a continuous file needs ten tokens.
    Nine tokens are too few and the file is skipped; eleven tokens are
    padded cyclically to twenty, which gives four samples of five tokens,
    two per rank. *)
Example continuous_file_two_ranks :
  load_continuous (blank_dataset two_file_config 0 2)
    (array int16 (Z.of_nat <$> seq 1 9))
    = Ok None
  /\ load_continuous (blank_dataset two_file_config 0 2)
       (array int16 (Z.of_nat <$> seq 1 11))
    = Ok (Some [Tensor (array int16 [1; 2; 3; 4; 5]%Z);
                Tensor (array int16 [11; 1; 2; 3; 4]%Z)])
  /\ load_continuous (blank_dataset two_file_config 1 2)
       (array int16 (Z.of_nat <$> seq 1 11))
    = Ok (Some [Tensor (array int16 [6; 7; 8; 9; 10]%Z);
                Tensor (array int16 [5; 6; 7; 8; 9]%Z)]).
Proof. repeat split; reflexivity. Qed.

(** The sample lists that reach the sharding step have a length that is
    a multiple of the world size. *)
Lemma align_data_to_step_size_length {A} (data : list A) step :
  0 < step -> step <= length data ->
  exists aligned m,
    align_data_to_step_size data step = Ok aligned
    /\ data `prefix_of` aligned
    /\ length aligned = m * step.
Proof.
  intros Hstep Hlen. unfold align_data_to_step_size.
  assert ((step =? 0) = false) as -> by (apply Nat.eqb_neq; lia).
  set (m := (length data + step - 1) / step).
  assert (length data <= m * step < length data + step) as [Hlo Hhi].
  { subst m. pose proof (Nat.div_mod_eq (length data + step - 1) step).
    pose proof (Nat.mod_upper_bound (length data + step - 1) step).
    nia. }
  destruct (0 <? m * step - length data) eqn:Hpad.
  - exists (data ++ take (m * step - length data) data), m.
    split; [done|]. split; [by apply prefix_app_r|].
    rewrite length_app, length_take. lia.
  - apply Nat.ltb_ge in Hpad. exists data, m. split; [done|].
    split; [done|lia].
Qed.

Lemma transform_continuous_data_to_samples_length self data m :
  a_len data = m * sample_size self ->
  length (transform_continuous_data_to_samples self data) = m.
Proof.
  intros Hlen. unfold transform_continuous_data_to_samples, range_step.
  rewrite !length_fmap, length_seq, Hlen.
  unfold sample_size. symmetry.
  apply (Nat.div_unique _ _ _ (block_size (config self))); lia.
Qed.

(** ** File catalogue *)

Lemma sorted_Sorted l : Sorted String.le (sorted l).
Proof. apply (Sorted_merge_sort String.le). Qed.

Lemma sorted_Permutation l : sorted l ≡ₚ l.
Proof. apply merge_sort_Permutation. Qed.

Lemma list_truthy_false {A} (l : list A) : list_truthy l = false <-> l = [].
Proof. by destruct l. Qed.

(** C8, as stated, fails: a file named twice in an explicit list is kept
    twice. *)
Lemma get_dataset_files_keeps_duplicates :
  get_dataset_files empty_env (config_of_files "b.bin,a.bin,b.bin" EmptyString) true
    = Ok ["a.bin"; "b.bin"; "b.bin"]
  /\ ~ NoDup ["a.bin"; "b.bin"; "b.bin"].
Proof.
  split; [vm_compute; reflexivity|].
  intros H. apply NoDup_cons in H as [_ H]. apply NoDup_cons in H as [H _].
  apply H. left.
Qed.

(** C8 (amended).  The catalogue is the resolved file list in
    non-decreasing lexicographic order, with the multiplicities of the
    resolved list (so it is duplicate-free exactly when the resolved list
    is); the call raises if and only if the training split resolves to no
    file, and a validation split that resolves to no file yields the
    empty list. *)
Theorem get_dataset_files_sorted (env : Env) (config : AllamoConfiguration)
    (train_split : bool) :
  let resolved := resolve_dataset_files env config train_split in
  match get_dataset_files env config train_split with
  | Ok files =>
      StronglySorted String.le files
      /\ files ≡ₚ resolved
      /\ (NoDup files <-> NoDup resolved)
      /\ (train_split = true -> resolved <> [])
  | Raise e =>
      e = Exception "Training dataset files not found!"
      /\ train_split = true /\ resolved = []
  end.
Proof.
  intros resolved. unfold get_dataset_files. fold resolved.
  destruct (list_truthy resolved) eqn:Ht.
  - repeat split.
    + apply Sorted_StronglySorted; [apply _|apply sorted_Sorted].
    + apply sorted_Permutation.
    + intros H. by rewrite <- (sorted_Permutation resolved).
    + intros H. by rewrite (sorted_Permutation resolved).
    + intros _ ->. done.
  - apply list_truthy_false in Ht. destruct train_split.
    + done.
    + rewrite Ht. repeat split; try done. constructor.
Qed.

(** ** Packed sequences: positions and attention mask *)

Lemma ncols_square n m : square n m -> ncols m = n.
Proof.
  intros [Hl Hr]. destruct m as [|r m]; [done|].
  simpl. by apply Forall_cons in Hr as [? _].
Qed.

Lemma square_tril_ones n : square n (tril_ones n).
Proof.
  unfold square, tril_ones. rewrite length_fmap, length_seq. split; [done|].
  apply Forall_fmap, Forall_forall. intros i _. simpl.
  by rewrite length_fmap, length_seq.
Qed.

Lemma square_eye n : square n (eye n).
Proof.
  unfold square, eye. rewrite length_fmap, length_seq. split; [done|].
  apply Forall_fmap, Forall_forall. intros i _. simpl.
  by rewrite length_fmap, length_seq.
Qed.

Lemma entry_tril_ones n i j :
  i < n -> j < n -> entry (tril_ones n) i j = Some (bool_decide (j <= i)).
Proof.
  intros Hi Hj. unfold entry, tril_ones.
  rewrite list_lookup_fmap, lookup_seq_lt by done. simpl.
  by rewrite list_lookup_fmap, lookup_seq_lt by done.
Qed.

Lemma entry_eye n i j :
  i < n -> j < n -> entry (eye n) i j = Some (bool_decide (i = j)).
Proof.
  intros Hi Hj. unfold entry, eye.
  rewrite list_lookup_fmap, lookup_seq_lt by done. simpl.
  by rewrite list_lookup_fmap, lookup_seq_lt by done.
Qed.

Lemma square_block_diag_cons n k m r :
  square n m -> square k r ->
  square (n + k)
    (((fun row => row ++ replicate k false) <$> m)
       ++ ((fun row => replicate n false ++ row) <$> r)).
Proof.
  intros [Hm Hmr] [Hr Hrr]. split.
  - rewrite length_app, !length_fmap. lia.
  - apply Forall_app. split; apply Forall_fmap.
    + eapply Forall_impl; [exact Hmr|]. intros row Hrow. simpl in *.
      rewrite length_app, length_replicate. lia.
    + eapply Forall_impl; [exact Hrr|]. intros row Hrow. simpl in *.
      rewrite length_app, length_replicate. lia.
Qed.

Lemma entry_block_diag_cons n k m r i j :
  square n m -> square k r -> i < n + k -> j < n + k ->
  entry (((fun row => row ++ replicate k false) <$> m)
           ++ ((fun row => replicate n false ++ row) <$> r)) i j
  = if i <? n then (if j <? n then entry m i j else Some false)
    else (if j <? n then Some false else entry r (i - n) (j - n)).
Proof.
  intros [Hm Hmr] [Hr Hrr] Hi Hj. unfold entry.
  destruct (i <? n) eqn:Hin.
  - apply Nat.ltb_lt in Hin.
    rewrite lookup_app_l by (rewrite length_fmap; lia).
    rewrite list_lookup_fmap.
    destruct (lookup_lt_is_Some_2 m i) as [row Hrow]; [lia|].
    rewrite Hrow. simpl.
    assert (length row = n) as Hlen
      by (eapply Forall_lookup_1 in Hmr; eauto).
    destruct (j <? n) eqn:Hjn.
    + apply Nat.ltb_lt in Hjn. by rewrite lookup_app_l by lia.
    + apply Nat.ltb_ge in Hjn. rewrite lookup_app_r by lia.
      apply lookup_replicate_2. lia.
  - apply Nat.ltb_ge in Hin.
    rewrite lookup_app_r by (rewrite length_fmap; lia).
    rewrite length_fmap, Hm, list_lookup_fmap.
    destruct (lookup_lt_is_Some_2 r (i - n)) as [row Hrow]; [lia|].
    rewrite Hrow. simpl.
    destruct (j <? n) eqn:Hjn.
    + apply Nat.ltb_lt in Hjn. rewrite lookup_app_l by (rewrite length_replicate; lia).
      apply lookup_replicate_2. lia.
    + apply Nat.ltb_ge in Hjn.
      rewrite lookup_app_r by (rewrite length_replicate; lia).
      by rewrite length_replicate.
Qed.

Lemma block_diag_rows_cons m rest :
  block_diag_rows (m :: rest)
  = ((fun row => row ++ replicate (ncols (block_diag_rows rest)) false) <$> m)
      ++ ((fun row => replicate (ncols m) false ++ row) <$> block_diag_rows rest).
Proof. reflexivity. Qed.

Lemma square_block_diag_rows ns ms :
  Forall2 square ns ms -> square (sum_list ns) (block_diag_rows ms).
Proof.
  induction 1 as [|n m ns ms Hm _ IH]; simpl.
  - by split.
  - rewrite (ncols_square _ _ IH), (ncols_square _ _ Hm).
    by apply square_block_diag_cons.
Qed.

Lemma causal_blocks_square lens p :
  Forall2 square (lens ++ [p]) ((tril_ones <$> lens) ++ [eye p]).
Proof.
  apply Forall2_app.
  - apply Forall2_fmap_r, Forall_Forall2_diag, Forall_forall.
    intros n _. apply square_tril_ones.
  - repeat constructor; apply square_eye.
Qed.

Lemma sum_list_snoc l p : sum_list (l ++ [p]) = sum_list l + p.
Proof. rewrite sum_list_with_app. simpl. lia. Qed.

(** Row [r] of the mask attends exactly to the columns from the start
    of its own block up to [r]. *)
Lemma entry_causal_blocks lens p r c :
  r < sum_list lens + p -> c < sum_list lens + p ->
  entry (block_diag_rows ((tril_ones <$> lens) ++ [eye p])) r c
  = Some (bool_decide (block_start lens r <= c <= r)).
Proof.
  revert r c. induction lens as [|n rest IH]; intros r c Hr Hc.
  - simpl in *. rewrite app_nil_r.
    replace ((fun row : list bool => row ++ []) <$> eye p) with (eye p).
    + rewrite entry_eye by done. f_equal. apply bool_decide_ext. lia.
    + rewrite <- (list_fmap_id (eye p)) at 1. apply list_fmap_ext.
      intros _ row _. by rewrite app_nil_r.
  - pose proof (square_block_diag_rows _ _ (causal_blocks_square rest p)) as Hsq.
    rewrite sum_list_snoc in Hsq.
    rewrite fmap_cons, <- app_comm_cons, block_diag_rows_cons.
    cbn [sum_list_with block_start] in *. change (id n) with n in *.
    rewrite (ncols_square _ _ Hsq), (ncols_square _ _ (square_tril_ones n)).
    rewrite (entry_block_diag_cons n (sum_list rest + p))
      by (done || apply square_tril_ones || lia).
    destruct (r <? n) eqn:Hrn.
    + apply Nat.ltb_lt in Hrn. destruct (c <? n) eqn:Hcn.
      * apply Nat.ltb_lt in Hcn. rewrite entry_tril_ones by done.
        f_equal. apply bool_decide_ext. lia.
      * apply Nat.ltb_ge in Hcn. f_equal. symmetry.
        apply bool_decide_eq_false. lia.
    + apply Nat.ltb_ge in Hrn. destruct (c <? n) eqn:Hcn.
      * apply Nat.ltb_lt in Hcn. f_equal. symmetry.
        apply bool_decide_eq_false. lia.
      * apply Nat.ltb_ge in Hcn. rewrite IH by lia.
        f_equal. apply bool_decide_ext. lia.
Qed.

Lemma seq_lens_loop_eq lens :
  seq_lens_loop lens
  = (sum_list lens, tril_ones <$> lens, concat (seq 0 <$> lens)).
Proof.
  unfold seq_lens_loop.
  enough (forall a ms ps,
    foldl (fun '(total_seq_len, block_attn_masks, sample_input_pos) seq_len =>
             (total_seq_len + seq_len,
              block_attn_masks ++ [tril_ones seq_len],
              sample_input_pos ++ range 0 seq_len)) (a, ms, ps) lens
    = (a + sum_list lens, ms ++ (tril_ones <$> lens),
       ps ++ concat (seq 0 <$> lens))) as H by apply (H 0 [] []).
  induction lens as [|n rest IH]; intros a ms ps; simpl.
  - by rewrite Nat.add_0_r, !app_nil_r.
  - rewrite IH. unfold range. rewrite Nat.sub_0_r, <- !app_assoc.
    rewrite Nat.add_assoc. reflexivity.
Qed.

Lemma positions_last lens l :
  last (filter (fun x => x <> 0) lens) = Some l ->
  last (concat (seq 0 <$> lens)) = Some (l - 1).
Proof.
  induction lens as [|n rest IH] using rev_ind; [done|].
  rewrite filter_app, fmap_app, concat_app. simpl. rewrite app_nil_r.
  destruct n as [|n].
  - rewrite filter_cons_False by lia. rewrite filter_nil, !app_nil_r. apply IH.
  - rewrite filter_cons_True by lia. rewrite filter_nil, last_snoc.
    intros [= <-]. rewrite seq_S, app_assoc, last_snoc. f_equal. simpl. lia.
Qed.

Lemma positions_lookup lens k :
  k < sum_list lens ->
  concat (seq 0 <$> lens) !! k = Some (k - block_start lens k).
Proof.
  revert k. induction lens as [|n rest IH]; intros k Hk; simpl in *; [lia|].
  destruct (k <? n) eqn:Hkn.
  - apply Nat.ltb_lt in Hkn.
    rewrite lookup_app_l by (rewrite length_seq; lia).
    rewrite lookup_seq_lt by done. f_equal. lia.
  - apply Nat.ltb_ge in Hkn.
    rewrite lookup_app_r by (rewrite length_seq; lia).
    rewrite length_seq, IH by lia. f_equal. lia.
Qed.

Lemma packed_layout_ok lens n l :
  sum_list lens < n ->
  last (filter (fun x => x <> 0) lens) = Some l ->
  packed_layout lens n
  = Ok (concat (seq 0 <$> lens) ++ seq l (n - sum_list lens),
        block_diag ((tril_ones <$> lens) ++ [eye (n - sum_list lens)])).
Proof.
  intros Hlt Hlast. unfold packed_layout. rewrite seq_lens_loop_eq.
  apply Nat.ltb_lt in Hlt as Hlt'. rewrite Hlt'.
  unfold last_item. rewrite (positions_last _ _ Hlast). simpl.
  assert (l <> 0) as Hl.
  { apply last_Some_elem_of, list_elem_of_filter in Hlast. tauto. }
  unfold range. replace (l - 1 + 1) with l by lia.
  replace (l + (n - sum_list lens) - l) with (n - sum_list lens) by lia.
  reflexivity.
Qed.

Lemma packed_layout_no_token lens n :
  sum_list lens < n ->
  filter (fun x => x <> 0) lens = [] ->
  packed_layout lens n = Raise IndexError.
Proof.
  intros Hlt Hnil. unfold packed_layout. rewrite seq_lens_loop_eq.
  apply Nat.ltb_lt in Hlt as Hlt'. rewrite Hlt'.
  assert (concat (seq 0 <$> lens) = []) as ->; [|done].
  clear Hlt Hlt'. induction lens as [|x rest IH]; [done|].
  destruct x as [|x].
  - rewrite filter_cons_False in Hnil by lia. simpl. by apply IH.
  - rewrite filter_cons_True in Hnil by lia. done.
Qed.

Lemma block_diag_snoc ms m : block_diag (ms ++ [m]) = block_diag_rows (ms ++ [m]).
Proof. by destruct ms. Qed.

Lemma not_dpo self :
  training_type (config self) <> "dpo" ->
  String.eqb (training_type (config self)) "dpo" = false.
Proof. intros H. by apply String.eqb_neq. Qed.

(** *** Padding and element types *)

Lemma fits_0 dt : fits dt 0 = true.
Proof. by destruct dt. Qed.

Lemma array_eta x : array (dtype x) (items x) = x.
Proof. by destruct x. Qed.

(** Whenever the guarded padding of a field returns, the field has its
    element type and its items, followed by the padding. *)
Lemma pad_to_block_inv self v x x' :
  pad_to_block self v x = Ok x' ->
  x' = array (dtype x)
         (items x ++ replicate (padded_length self x - a_len x) v).
Proof.
  unfold pad_to_block, padded_length, F_pad.
  destruct (0 <=? pad_token_id (config self))%Z; simpl.
  - destruct (a_len x <? block_size (config self)) eqn:Hlt.
    + apply Nat.ltb_lt in Hlt. destruct (fits (dtype x) v); [|done].
      intros [= <-]. do 3 f_equal. lia.
    + apply Nat.ltb_ge in Hlt. intros [= <-].
      replace (a_len x `max` block_size (config self) - a_len x) with 0 by lia.
      by rewrite app_nil_r, array_eta.
  - intros [= <-]. rewrite Nat.sub_diag. by rewrite app_nil_r, array_eta.
Qed.

(** It returns when the value fits the element type of the field, and
    also when there is nothing to pad. *)
Lemma pad_to_block_fits self v x :
  fits (dtype x) v = true ->
  pad_to_block self v x
  = Ok (array (dtype x)
          (items x ++ replicate (padded_length self x - a_len x) v)).
Proof.
  intros Hfits.
  destruct (pad_to_block self v x) as [x'|e] eqn:Hrun.
  - by rewrite (pad_to_block_inv _ _ _ _ Hrun).
  - unfold pad_to_block, F_pad in Hrun. rewrite Hfits in Hrun.
    by destruct (_ && _).
Qed.

Lemma pad_to_block_full self v x :
  padded_length self x = a_len x -> pad_to_block self v x = Ok x.
Proof.
  unfold pad_to_block, padded_length.
  destruct (0 <=? pad_token_id (config self))%Z; simpl; [|done].
  intros Hlen.
  by assert ((a_len x <? block_size (config self)) = false) as ->
    by (apply Nat.ltb_ge; lia).
Qed.

(** It raises when the field has to be padded with a value that does not
    fit its element type. *)
Lemma pad_to_block_overflow self v x :
  a_len x < padded_length self x -> fits (dtype x) v = false ->
  pad_to_block self v x = Raise RuntimeError.
Proof.
  unfold pad_to_block, padded_length, F_pad.
  destruct (0 <=? pad_token_id (config self))%Z; simpl; [|lia].
  intros Hlt ->.
  by assert ((a_len x <? block_size (config self)) = true) as ->
    by (apply Nat.ltb_lt; lia).
Qed.

Lemma padded_length_ge self x : a_len x <= padded_length self x.
Proof. unfold padded_length. destruct (_ <=? _)%Z; lia. Qed.

Lemma padded_length_pad self x :
  (0 <= pad_token_id (config self))%Z ->
  padded_length self x = a_len x `max` block_size (config self).
Proof.
  intros Hpad. unfold padded_length. apply Z.leb_le in Hpad. by rewrite Hpad.
Qed.

Lemma where_not_ignored_items ignore t :
  items (where_not_ignored ignore t)
  = (fun x => if (x =? ignore)%Z then 0%Z else 1%Z) <$> items t.
Proof.
  unfold where_not_ignored, torch_where_0_1, eq_scalar. simpl.
  by rewrite <- list_fmap_compose.
Qed.

Lemma where_not_ignored_length ignore t :
  a_len (where_not_ignored ignore t) = a_len t.
Proof. unfold a_len. by rewrite where_not_ignored_items, length_fmap. Qed.

Lemma where_not_ignored_lookup ignore t k x :
  items t !! k = Some x ->
  items (where_not_ignored ignore t) !! k
  = Some (if decide (x = ignore) then 0%Z else 1%Z).
Proof.
  intros Hk. rewrite where_not_ignored_items, list_lookup_fmap, Hk. simpl.
  f_equal. destruct (Z.eqb_spec x ignore); by case_decide.
Qed.

(** The packed layout of a materialised sample is the last step: once
    the fields are padded, materialisation returns exactly when the layout
    does. *)
Lemma prepare_alm_sample_padded self d i t i' t' :
  training_type (config self) <> "dpo" ->
  input_ids d = Some i -> target_ids d = Some t ->
  pad_to_block self (pad_token_id (config self)) i = Ok i' ->
  pad_to_block self (ignore_index (config self)) t = Ok t' ->
  exists w',
    (if weighted_loss (config self) then
       let w := default (where_not_ignored (ignore_index (config self)) t)
                  (target_weights d) in
       w' = Some (array (dtype w)
                    (items w ++ replicate (padded_length self w - a_len w) 0%Z))
     else w' = None)
    /\ prepare_alm_sample self (DictSample d)
       = ('(pos, mask) ←
            match seq_lens d with
            | Some lens =>
                '(pos, mask) ← packed_layout lens (a_len i');
                Ok (Some pos, Some mask)
            | None => Ok (None, None)
            end;
          Ok (DictSample
                {| keys := ["input_ids"; "target_ids"]
                           ++ match w' with
                              | Some _ => ["target_weights"]
                              | None => []
                              end
                           ++ match pos with
                              | Some _ => ["input_pos"; "attn_mask"]
                              | None => []
                              end;
                   input_ids := Some i'; target_ids := Some t';
                   target_weights := w';
                   seq_lens := None; input_pos := pos; attn_mask := mask;
                   chosen_input_ids := None; chosen_target_ids := None;
                   rejected_input_ids := None; rejected_target_ids := None;
                   reference_chosen_logps := None;
                   reference_rejected_logps := None |})).
Proof.
  intros Hdpo Hi Ht Hi' Ht'.
  unfold prepare_alm_sample. rewrite (not_dpo _ Hdpo), Hi, Ht.
  cbn [getkey mbind res_bind]. rewrite Hi', Ht'. cbn [mbind res_bind].
  destruct (weighted_loss (config self)).
  - set (w := match target_weights d with
              | Some w => w
              | None => where_not_ignored (ignore_index (config self)) t
              end).
    assert (default (where_not_ignored (ignore_index (config self)) t)
              (target_weights d) = w) as ->
      by (subst w; by destruct (target_weights d)).
    eexists. split; [reflexivity|].
    rewrite (pad_to_block_fits self 0%Z w (fits_0 _)).
    reflexivity.
  - exists None. split; reflexivity.
Qed.

(** C7, as stated, fails: a sample whose [seq_lens] holds no token makes
    materialisation raise. *)
Lemma prepare_alm_sample_empty_seq_lens :
  let self := blank_dataset (config_sft 4 0 false) 0 1 in
  let sample := raw_sample (array int64 [5; 6]%Z) (array int64 [6; 7]%Z) None
                  (Some []) in
  sum_list ([] : list nat) < padded_length self (array int64 [5; 6]%Z)
  /\ prepare_alm_sample self (DictSample sample) = Raise IndexError.
Proof. split; [vm_compute; lia|reflexivity]. Qed.

(** C7 (amended).  For every ALM sample carrying [seq_lens] with at least
    one non-empty sub-sequence and with a total below the padded input
    length [n], and with a pad token and an ignore sentinel that fit the
    element types of the stored ['input_ids'] and ['target_ids'],
    materialisation succeeds; [input_pos] is the concatenation
    of [0..len-1] over the sub-sequences, followed by positions that
    continue from the final position of the last non-empty sub-sequence;
    inside the sub-sequences the position is the distance to the start of
    the own sub-sequence; [attn_mask] is the block-diagonal matrix of one
    lower-triangular all-ones block per sub-sequence followed by an
    identity block over the pad region: an [n] by [n] matrix whose entry
    [(r, c)] is set exactly when [c] lies between the start of the block of
    [r] and [r].  When the input has to be padded and the pad token does
    not fit its element type, materialisation raises a [RuntimeError]
    instead. *)
Theorem packed_sample_layout (self : AllamoDataset) (d : Dict)
    (i t : Array) (lens : list nat) (l : nat) :
  training_type (config self) <> "dpo" ->
  input_ids d = Some i -> target_ids d = Some t -> seq_lens d = Some lens ->
  let n := padded_length self i in
  sum_list lens < n ->
  last (filter (fun x => x <> 0) lens) = Some l ->
  (fits (dtype i) (pad_token_id (config self)) = true ->
   fits (dtype t) (ignore_index (config self)) = true ->
   exists d' pos mask,
     prepare_alm_sample self (DictSample d) = Ok (DictSample d')
     /\ input_pos d' = Some pos /\ attn_mask d' = Some mask
     /\ pos = concat (seq 0 <$> lens) ++ seq l (n - sum_list lens)
     /\ (forall k, k < sum_list lens -> pos !! k = Some (k - block_start lens k))
     /\ mask = block_diag ((tril_ones <$> lens) ++ [eye (n - sum_list lens)])
     /\ length mask = n
     /\ (forall r c, r < n -> c < n ->
           entry mask r c = Some (bool_decide (block_start lens r <= c <= r))))
  /\ (a_len i < n -> fits (dtype i) (pad_token_id (config self)) = false ->
      prepare_alm_sample self (DictSample d) = Raise RuntimeError).
Proof.
  intros Hdpo Hi Ht Hlens n Hlt Hlast. split.
  - intros Hfi Hft.
    destruct (prepare_alm_sample_padded self d i t _ _ Hdpo Hi Ht
                (pad_to_block_fits _ _ _ Hfi) (pad_to_block_fits _ _ _ Hft))
      as (w' & _ & ->).
    assert (a_len (array (dtype i)
                     (items i ++ replicate (padded_length self i - a_len i)
                                   (pad_token_id (config self)))) = n) as Hn.
    { pose proof (padded_length_ge self i) as Hge. unfold a_len in *.
      cbn [items]. rewrite length_app, length_replicate. subst n. lia. }
    rewrite Hlens, Hn.
    rewrite (packed_layout_ok _ _ _ Hlt Hlast). cbn [mbind res_bind].
    eexists _, _, _. split; [reflexivity|]. cbn [input_pos attn_mask].
    split; [reflexivity|]. split; [reflexivity|]. split; [reflexivity|].
    split.
    { intros k Hk. rewrite lookup_app_l.
      - by apply positions_lookup.
      - apply lookup_lt_is_Some. rewrite positions_lookup by done. eauto. }
    split; [reflexivity|].
    rewrite block_diag_snoc.
    pose proof (square_block_diag_rows _ _
                  (causal_blocks_square lens (n - sum_list lens))) as [Hlen _].
    rewrite sum_list_snoc in Hlen. split; [lia|].
    intros r c Hr Hc. apply entry_causal_blocks; lia.
  - intros Hshort Hover.
    unfold prepare_alm_sample. rewrite (not_dpo _ Hdpo), Hi, Ht.
    cbn [getkey mbind res_bind].
    by rewrite (pad_to_block_overflow _ _ _ Hshort Hover).
Qed.

(** The spec's instance: [seq_lens = [3; 2]] in a block of 8, on [int16]
    arrays. *)
Lemma packed_sample_layout_witness :
  let self := blank_dataset (config_sft 8 0 false) 0 1 in
  let sample := raw_sample (array int16 [11; 12; 13; 21; 22]%Z)
                  (array int16 [12; 13; 0; 22; 0]%Z) None (Some [3; 2]) in
  exists d' pos mask,
    prepare_alm_sample self (DictSample sample) = Ok (DictSample d')
    /\ input_pos d' = Some pos /\ attn_mask d' = Some mask
    /\ pos = [0; 1; 2; 0; 1; 2; 3; 4]
    /\ mask = [[true; false; false; false; false; false; false; false];
               [true; true; false; false; false; false; false; false];
               [true; true; true; false; false; false; false; false];
               [false; false; false; true; false; false; false; false];
               [false; false; false; true; true; false; false; false];
               [false; false; false; false; false; true; false; false];
               [false; false; false; false; false; false; true; false];
               [false; false; false; false; false; false; false; true]].
Proof.
  intros self sample.
  assert (training_type (config self) <> "dpo") as Hdpo by discriminate.
  assert (sum_list [3; 2]
          < padded_length self (array int16 [11; 12; 13; 21; 22]%Z)) as Hlt
    by (vm_compute; lia).
  destruct (proj1 (packed_sample_layout self sample
                     (array int16 [11; 12; 13; 21; 22]%Z)
                     (array int16 [12; 13; 0; 22; 0]%Z) [3; 2] 2
                     Hdpo eq_refl eq_refl eq_refl Hlt eq_refl)
              eq_refl eq_refl)
    as (d' & pos & mask & Hrun & Hpos & Hmask & Hp & _ & Hm & _).
  exists d', pos, mask. repeat split; assumption.
Defined.

(** ** Materialised field lengths *)

Lemma fit_field_Ok self fill x y :
  fit_field self fill x = Ok y ->
  fit_field self fill y = Ok y
  /\ ((0 <= pad_token_id (config self))%Z ->
      a_len y = block_size (config self)
      /\ take (a_len x `min` block_size (config self)) (items y)
         = take (block_size (config self)) (items x)).
Proof.
  unfold fit_field, torch_full, sample_size, a_len.
  set (bs := block_size (config self)).
  destruct (bs + 1 <=? length (items x)) eqn:Hlong.
  - apply Nat.leb_le in Hlong. intros [= <-]. cbn [a_take items].
    assert (length (take (bs + 1 - 1) (items x)) = bs) as Hl
      by (rewrite length_take; lia).
    rewrite Hl.
    assert ((bs + 1 <=? bs) = false) as -> by (apply Nat.leb_gt; lia).
    assert ((bs <? bs + 1 - 1) = false) as -> by (apply Nat.ltb_ge; lia).
    rewrite andb_false_r. split; [done|]. intros _. split; [done|].
    rewrite take_take. f_equal. lia.
  - pose proof Hlong as Hlong'. apply Nat.leb_gt in Hlong'.
    destruct ((0 <=? pad_token_id (config self))%Z
              && (length (items x) <? bs + 1 - 1)) eqn:Hpad.
    + apply andb_true_iff in Hpad as [Hp Hshort]. apply Nat.ltb_lt in Hshort.
      destruct (fits int64 fill); [|done]. cbn [mbind res_bind].
      intros [= <-]. cbn [torch_cat items].
      assert (length (items x ++ replicate (bs + 1 - 1 - length (items x)) fill)
              = bs) as Hl
        by (rewrite length_app, length_replicate; lia).
      rewrite Hl.
      assert ((bs + 1 <=? bs) = false) as -> by (apply Nat.leb_gt; lia).
      assert ((bs <? bs + 1 - 1) = false) as -> by (apply Nat.ltb_ge; lia).
      rewrite andb_false_r. split; [done|]. intros _. split; [done|].
      replace (length (items x) `min` bs) with (length (items x)) by lia.
      rewrite take_app_length. symmetry. apply take_ge. lia.
    + intros [= <-]. rewrite Hlong, Hpad. split; [done|]. intros Hp.
      apply Z.leb_le in Hp. rewrite Hp in Hpad. simpl in Hpad.
      apply Nat.ltb_ge in Hpad. split; [lia|]. f_equal. lia.
Qed.

Lemma fit_field_fits self fill x :
  fits int64 fill = true -> exists y, fit_field self fill x = Ok y.
Proof.
  intros Hfits. unfold fit_field, torch_full. rewrite Hfits.
  destruct (_ <=? _); [by eexists|]. destruct (_ && _); by eexists.
Qed.

Lemma fit_field_spec self fill x :
  (0 <= pad_token_id (config self))%Z -> fits int64 fill = true ->
  exists y,
    fit_field self fill x = Ok y
    /\ a_len y = block_size (config self)
    /\ take (a_len x `min` block_size (config self)) (items y)
       = take (block_size (config self)) (items x).
Proof.
  intros Hpad Hfits. destruct (fit_field_fits self fill x Hfits) as [y Hy].
  exists y. split; [done|]. by apply (fit_field_Ok self fill x y Hy).
Qed.

(** C5, as stated, fails: the lazy materialisation of an ALM sample does
    not truncate a field that is longer than [block_size]. *)
Lemma prepare_alm_sample_keeps_long_fields :
  let self := blank_dataset (config_sft 4 0 true) 0 1 in
  let sample := raw_sample (array int64 [1; 2; 3; 4; 5; 6]%Z)
                  (array int64 [2; 3; 4; 5; 6; 7]%Z) None None in
  exists d',
    prepare_alm_sample self (DictSample sample) = Ok (DictSample d')
    /\ input_ids d' = Some (array int64 [1; 2; 3; 4; 5; 6]%Z)
    /\ a_len (array int64 [1; 2; 3; 4; 5; 6]%Z) <> block_size (config self).
Proof.
  eexists. split; [reflexivity|]. split; [reflexivity|]. vm_compute. lia.
Qed.

(** C5 (amended).  With a pad token configured ([pad_token_id >= 0]) and a
    structured sample that has ['input_ids']:
    - the load-time normalisation of a [.pt] sample list
      ([pad_or_truncate_to_block_size]), with an ignore sentinel inside
      [int64], succeeds and brings ['input_ids'],
      ['target_ids'] (derived from the input shifted by one when absent)
      and, under weighted loss, ['target_weights'] to length exactly
      [block_size], truncating a longer field to its first [block_size]
      entries and keeping the entries of a shorter one in front of the
      padding; without weighted loss ['target_weights'] is removed;
    - the lazy materialisation of an ALM sample ([prepare_alm_sample])
      never truncates: each field is extended up to [block_size] with the
      pad token (input), the ignore sentinel (targets) or zero (weights),
      keeping its element type, and a field of [block_size] or more
      entries is left as it is.  It raises a [RuntimeError] when a field
      that must be extended has an element type that cannot hold the
      value: the pad token for a short input, the ignore sentinel for
      short targets.  When both values fit, a sample without [seq_lens]
      is always materialised. *)
Theorem materialized_field_lengths (self : AllamoDataset) (d : Dict)
    (i : Array) :
  (0 <= pad_token_id (config self))%Z ->
  input_ids d = Some i ->
  let bs := block_size (config self) in
  let pad := pad_token_id (config self) in
  let ignore := ignore_index (config self) in
  (fits int64 ignore = true ->
   let t := default (a_drop 1 i) (target_ids d) in
   exists d' i' t',
     pad_or_truncate_sample self (DictSample d) = Ok (DictSample d')
     /\ input_ids d' = Some i' /\ target_ids d' = Some t'
     /\ a_len i' = bs /\ a_len t' = bs
     /\ take (a_len i `min` bs) (items i') = take bs (items i)
     /\ take (a_len t `min` bs) (items t') = take bs (items t)
     /\ (if weighted_loss (config self)
         then exists w', target_weights d' = Some w' /\ a_len w' = bs
         else target_weights d' = None))
  /\ (forall t,
        training_type (config self) <> "dpo" -> target_ids d = Some t ->
        (a_len i < bs -> fits (dtype i) pad = false ->
         prepare_alm_sample self (DictSample d) = Raise RuntimeError)
        /\ (bs <= a_len i \/ fits (dtype i) pad = true ->
            a_len t < bs -> fits (dtype t) ignore = false ->
            prepare_alm_sample self (DictSample d) = Raise RuntimeError)
        /\ (fits (dtype i) pad = true -> fits (dtype t) ignore = true ->
            seq_lens d = None ->
            is_ok (prepare_alm_sample self (DictSample d)) = true)
        /\ (forall r, prepare_alm_sample self (DictSample d) = Ok r ->
            exists d', r = DictSample d'
              /\ input_ids d'
                 = Some (array (dtype i)
                           (items i ++ replicate (bs - a_len i) pad))
              /\ target_ids d'
                 = Some (array (dtype t)
                           (items t ++ replicate (bs - a_len t) ignore))
              /\ (if weighted_loss (config self)
                  then
                    let w := default (where_not_ignored ignore t)
                               (target_weights d) in
                    target_weights d'
                    = Some (array (dtype w)
                              (items w ++ replicate (bs - a_len w) 0%Z))
                  else target_weights d' = None))).
Proof.
  intros Hpad Hi bs pad ignore. split.
  - intros Hfits t. unfold pad_or_truncate_sample. rewrite Hi.
    cbn [mbind res_bind]. fold ignore.
    assert (forall ks,
              (match target_ids d with
               | Some t => (t, ks)
               | None => (a_drop 1 i, keys_set "target_ids" ks)
               end) = (t, match target_ids d with
                          | Some _ => ks
                          | None => keys_set "target_ids" ks
                          end)) as ->
      by (intros ks; subst t; by destruct (target_ids d)).
    destruct (fit_field_spec self ignore i Hpad Hfits) as (i' & -> & Hli & Hti).
    destruct (fit_field_spec self ignore t Hpad Hfits) as (t' & -> & Hlt & Htt).
    fold bs in Hli, Hti, Hlt, Htt. cbn [mbind res_bind].
    destruct (weighted_loss (config self)).
    + set (w := default (where_not_ignored ignore t) (target_weights d)).
      destruct (fit_field_spec self 0%Z w Hpad eq_refl) as (w' & Hw' & Hlw & _).
      fold bs in Hlw.
      destruct (target_weights d) as [w0|] eqn:Hw0; simpl in w; subst w;
        rewrite Hw'; cbn [mbind res_bind];
        rewrite Hli, Hlt, Hlw, Nat.eqb_refl; cbn [assert mbind res_bind];
        (eexists _, _, _; split; [reflexivity|]);
        cbn [input_ids target_ids target_weights];
        (repeat split; try done); by eexists.
    + destruct (target_weights d) as [w0|]; cbn [mbind res_bind];
        rewrite Hli, Hlt, Nat.eqb_refl; cbn [assert mbind res_bind];
        (eexists _, _, _; split; [reflexivity|]);
        cbn [input_ids target_ids target_weights]; by repeat split.
  - intros t Hdpo Ht.
    assert (forall x, padded_length self x - a_len x = bs - a_len x) as Hpl.
    { intros x. rewrite padded_length_pad by done. fold bs. lia. }
    split; [|split; [|split]].
    + intros Hshort Hover.
      unfold prepare_alm_sample. rewrite (not_dpo _ Hdpo), Hi, Ht.
      cbn [getkey mbind res_bind]. fold pad.
      rewrite (pad_to_block_overflow self pad i); [done| |done].
      rewrite padded_length_pad by done. fold bs. lia.
    + intros Hin Hshort Hover.
      unfold prepare_alm_sample. rewrite (not_dpo _ Hdpo), Hi, Ht.
      cbn [getkey mbind res_bind]. fold pad ignore.
      assert (exists i', pad_to_block self pad i = Ok i') as [i' ->].
      { destruct Hin as [Hlong|Hfits].
        - exists i. apply pad_to_block_full.
          rewrite padded_length_pad by done. fold bs. lia.
        - eexists. by apply pad_to_block_fits. }
      cbn [mbind res_bind].
      rewrite (pad_to_block_overflow self ignore t); [done| |done].
      rewrite padded_length_pad by done. fold bs. lia.
    + intros Hfi Hft Hnone.
      destruct (prepare_alm_sample_padded self d i t _ _ Hdpo Hi Ht
                  (pad_to_block_fits _ _ _ Hfi) (pad_to_block_fits _ _ _ Hft))
        as (w' & _ & ->).
      by rewrite Hnone.
    + intros r Hr.
      destruct (pad_to_block self pad i) as [i'|e] eqn:Hi'.
      2:{ unfold prepare_alm_sample in Hr.
          rewrite (not_dpo _ Hdpo), Hi, Ht in Hr.
          cbn [getkey mbind res_bind] in Hr. fold pad in Hr.
          by rewrite Hi' in Hr. }
      destruct (pad_to_block self ignore t) as [t'|e] eqn:Ht'.
      2:{ unfold prepare_alm_sample in Hr.
          rewrite (not_dpo _ Hdpo), Hi, Ht in Hr.
          cbn [getkey mbind res_bind] in Hr. fold pad ignore in Hr.
          rewrite Hi' in Hr. cbn [mbind res_bind] in Hr.
          by rewrite Ht' in Hr. }
      destruct (prepare_alm_sample_padded self d i t _ _ Hdpo Hi Ht Hi' Ht')
        as (w' & Hw' & Hrun).
      rewrite Hrun in Hr.
      destruct (match seq_lens d with
                | Some lens =>
                    x ← packed_layout lens (a_len i');
                    (let '(pos, mask) := x in Ok (Some pos, Some mask))
                | None => Ok (None, None)
                end) as [[pos mask]|e] eqn:Hlayout;
        cbn [mbind res_bind] in Hr; [|done].
      injection Hr as <-. eexists. split; [reflexivity|].
      cbn [input_ids target_ids target_weights].
      apply pad_to_block_inv in Hi', Ht'. rewrite Hpl in Hi', Ht'.
      split; [by rewrite Hi'|]. split; [by rewrite Ht'|].
      destruct (weighted_loss (config self)); [|done].
      simpl in Hw'. fold ignore in Hw'. rewrite Hpl in Hw'. by rewrite Hw'.
Qed.

(** The load-time normalisation pads ['input_ids'] with the ignore
    sentinel, where its tensor branch and [prepare_alm_sample] put the pad
    token. *)
Example pad_or_truncate_sample_input_fill :
  let self := blank_dataset (config_sft 4 0 false) 0 1 in
  pad_or_truncate_sample self
    (DictSample (raw_sample (array int64 [1; 2]%Z) (array int64 [2; 3]%Z)
                   None None))
    = Ok (DictSample (raw_sample (array int64 [1; 2; -100; -100]%Z)
                        (array int64 [2; 3; -100; -100]%Z) None None))
  /\ pad_or_truncate_sample self (Tensor (array int64 [1; 2; 3]%Z))
    = Ok (DictSample (raw_sample (array int64 [1; 2; 3; 0]%Z)
                        (array int64 [2; 3; -100; -100]%Z)
                        (Some (array int64 [1; 1; 0; 0]%Z)) None))
  /\ prepare_alm_sample self
       (DictSample (raw_sample (array int64 [1; 2]%Z) (array int64 [2; 3]%Z)
                      None None))
    = Ok (DictSample (raw_sample (array int64 [1; 2; 0; 0]%Z)
                        (array int64 [2; 3; -100; -100]%Z) None None)).
Proof. repeat split; reflexivity. Qed.

Lemma materialized_field_lengths_witness :
  let self := blank_dataset (config_sft 4 0 true) 0 1 in
  let sample := raw_sample (array int16 [1; 2]%Z) (array int16 [2; 3]%Z)
                  None None in
  (0 <= pad_token_id (config self))%Z
  /\ input_ids sample = Some (array int16 [1; 2]%Z)
  /\ exists d' i' t',
       pad_or_truncate_sample self (DictSample sample) = Ok (DictSample d')
       /\ input_ids d' = Some i' /\ target_ids d' = Some t'
       /\ a_len i' = 4 /\ a_len t' = 4.
Proof.
  intros self sample.
  assert (0 <= pad_token_id (config self))%Z as Hpad by (simpl; lia).
  assert (input_ids sample = Some (array int16 [1; 2]%Z)) as Hi by reflexivity.
  split; [exact Hpad|]. split; [exact Hi|].
  destruct (proj1 (materialized_field_lengths self sample _ Hpad Hi) eq_refl)
    as (d' & i' & t' & Hrun & Hi' & Ht' & Hli & Hlt & _).
  exists d', i', t'. repeat split; assumption.
Defined.

(** ** Materialisation round trip *)

(** C6, as stated, fails: weights that the sample brings along are used as
    they are, here weight 1 on an ignored target. *)
Lemma prepare_alm_sample_keeps_given_weights :
  let self := blank_dataset (config_sft 4 0 true) 0 1 in
  let sample := raw_sample (array int64 [5; 6]%Z) (array int64 [-100; 7]%Z)
                  (Some (array int64 [1; 1]%Z)) None in
  exists d' t' w',
    prepare_alm_sample self (DictSample sample) = Ok (DictSample d')
    /\ target_ids d' = Some t' /\ target_weights d' = Some w'
    /\ items t' !! 0 = Some (ignore_index (config self))
    /\ items w' !! 0 = Some 1%Z.
Proof. eexists _, _, _. repeat split; reflexivity. Qed.

(** C6 (amended).  For an ALM sample that brings no ['target_weights'] of
    its own and whose ['input_ids'] is shorter than [block_size],
    materialised with [pad_token_id >= 0] and weighted loss, and whose
    stored arrays can hold the padding values (the pad token fits the
    element type of ['input_ids'], the ignore sentinel that of
    ['target_ids']): the input is padded to [block_size] with the pad
    token; the targets are extended with the ignore sentinel up to
    [block_size] (exactly [block_size] long when the sample's targets are
    no longer than that); the weights have the length of the targets and
    are 0 where the target is the ignore sentinel and 1 elsewhere, hence 0
    throughout the padded region.  Weights that the sample brings along
    are not covered.  If the pad token does not fit the element type of
    the input, materialisation raises a [RuntimeError] instead. *)
Theorem alm_round_trip (self : AllamoDataset) (d : Dict) (i t : Array) :
  (0 <= pad_token_id (config self))%Z ->
  weighted_loss (config self) = true ->
  training_type (config self) <> "dpo" ->
  input_ids d = Some i -> target_ids d = Some t -> target_weights d = None ->
  a_len i < block_size (config self) ->
  let bs := block_size (config self) in
  let pad := pad_token_id (config self) in
  let ignore := ignore_index (config self) in
  (fits (dtype i) pad = false ->
   prepare_alm_sample self (DictSample d) = Raise RuntimeError)
  /\ (fits (dtype i) pad = true -> fits (dtype t) ignore = true ->
      seq_lens d = None ->
      is_ok (prepare_alm_sample self (DictSample d)) = true)
  /\ (fits (dtype t) ignore = true ->
      forall r, prepare_alm_sample self (DictSample d) = Ok r ->
      exists d' i' t' w',
        r = DictSample d'
        /\ input_ids d' = Some i' /\ target_ids d' = Some t'
        /\ target_weights d' = Some w'
        /\ i' = array (dtype i) (items i ++ replicate (bs - a_len i) pad)
        /\ a_len i' = bs
        /\ t' = array (dtype t) (items t ++ replicate (bs - a_len t) ignore)
        /\ (a_len t <= bs -> a_len t' = bs)
        /\ a_len w' = a_len t'
        /\ (forall k x, items t' !! k = Some x ->
              items w' !! k = Some (if decide (x = ignore) then 0%Z else 1%Z))
        /\ (forall k, a_len t <= k < a_len t' ->
              items t' !! k = Some ignore /\ items w' !! k = Some 0%Z)).
Proof.
  intros Hpad Hw Hdpo Hi Ht Hnow Hshort bs pad ignore.
  assert (forall x, padded_length self x - a_len x = bs - a_len x) as Hpl.
  { intros x. rewrite padded_length_pad by done. fold bs. lia. }
  split; [|split].
  - intros Hover.
    unfold prepare_alm_sample. rewrite (not_dpo _ Hdpo), Hi, Ht.
    cbn [getkey mbind res_bind]. fold pad.
    rewrite (pad_to_block_overflow self pad i); [done| |done].
    rewrite padded_length_pad by done. fold bs. lia.
  - intros Hfi Hft Hnone.
    destruct (prepare_alm_sample_padded self d i t _ _ Hdpo Hi Ht
                (pad_to_block_fits _ _ _ Hfi) (pad_to_block_fits _ _ _ Hft))
      as (w' & _ & ->).
    by rewrite Hnone.
  - intros _ r Hr.
    destruct (pad_to_block self pad i) as [i'|e] eqn:Hi'.
    2:{ unfold prepare_alm_sample in Hr.
        rewrite (not_dpo _ Hdpo), Hi, Ht in Hr.
        cbn [getkey mbind res_bind] in Hr. fold pad in Hr.
        by rewrite Hi' in Hr. }
    destruct (pad_to_block self ignore t) as [t'|e] eqn:Ht'.
    2:{ unfold prepare_alm_sample in Hr.
        rewrite (not_dpo _ Hdpo), Hi, Ht in Hr.
        cbn [getkey mbind res_bind] in Hr. fold pad ignore in Hr.
        rewrite Hi' in Hr. cbn [mbind res_bind] in Hr.
        by rewrite Ht' in Hr. }
    destruct (prepare_alm_sample_padded self d i t _ _ Hdpo Hi Ht Hi' Ht')
      as (w' & Hw' & Hrun).
    rewrite Hrun in Hr. rewrite Hw, Hnow in Hw'. cbn [from_option id] in Hw'.
    fold ignore in Hw'.
    destruct (match seq_lens d with
              | Some lens =>
                  x ← packed_layout lens (a_len i');
                  (let '(pos, mask) := x in Ok (Some pos, Some mask))
              | None => Ok (None, None)
              end) as [[pos mask]|e] eqn:Hlayout;
      cbn [mbind res_bind] in Hr; [|done].
    injection Hr as <-. subst w'.
    apply pad_to_block_inv in Hi', Ht'. rewrite Hpl in Hi', Ht'.
    rewrite Hpl, where_not_ignored_length.
    eexists _, i', t', _. split; [reflexivity|].
    cbn [input_ids target_ids target_weights].
    split; [reflexivity|]. split; [reflexivity|]. split; [reflexivity|].
    split; [done|].
    split; [subst i'; unfold a_len; cbn [items];
            rewrite length_app, length_replicate; fold (a_len i); lia|].
    split; [done|].
    assert (a_len t' = a_len t + (bs - a_len t)) as Hlt'.
    { subst t'. unfold a_len. cbn [items].
      by rewrite length_app, length_replicate. }
    split; [lia|].
    split.
    { unfold a_len at 1. cbn [items].
      rewrite length_app, length_replicate. fold (a_len (where_not_ignored ignore t)).
      rewrite where_not_ignored_length. lia. }
    assert (forall k x, items t' !! k = Some x ->
              (items (where_not_ignored ignore t)
                 ++ replicate (bs - a_len t) 0%Z) !! k
              = Some (if decide (x = ignore) then 0%Z else 1%Z)) as Hweights.
    { intros k x. subst t'. cbn [items].
      destruct (decide (k < a_len t)) as [Hk|Hk].
      - rewrite lookup_app_l by done. intros Hx.
        rewrite lookup_app_l
          by (fold (a_len (where_not_ignored ignore t));
              by rewrite where_not_ignored_length).
        by apply where_not_ignored_lookup.
      - rewrite lookup_app_r by (unfold a_len in Hk; lia).
        intros [-> Hlt]%lookup_replicate.
        rewrite lookup_app_r
          by (fold (a_len (where_not_ignored ignore t));
              rewrite where_not_ignored_length; unfold a_len in *; lia).
        fold (a_len (where_not_ignored ignore t)).
        rewrite where_not_ignored_length.
        rewrite decide_True by done.
        apply lookup_replicate_2. unfold a_len in *. lia. }
    split; [exact Hweights|].
    intros k [Hk1 Hk2].
    assert (items t' !! k = Some ignore) as Hk.
    { subst t'. cbn [items]. rewrite lookup_app_r by (unfold a_len in *; lia).
      apply lookup_replicate_2. unfold a_len in *. lia. }
    split; [done|]. cbn [items].
    rewrite (Hweights k ignore Hk). by rewrite decide_True.
Qed.

Lemma alm_round_trip_witness :
  let self := blank_dataset (config_sft 4 0 true) 0 1 in
  let sample := raw_sample (array int16 [5; 6]%Z) (array int16 [6; -100]%Z)
                  None None in
  (0 <= pad_token_id (config self))%Z
  /\ weighted_loss (config self) = true
  /\ training_type (config self) <> "dpo"
  /\ a_len (array int16 [5; 6]%Z) < block_size (config self)
  /\ is_ok (prepare_alm_sample self (DictSample sample)) = true.
Proof.
  intros self sample.
  assert (0 <= pad_token_id (config self))%Z as Hpad by (simpl; lia).
  assert (weighted_loss (config self) = true) as Hw by reflexivity.
  assert (training_type (config self) <> "dpo") as Hdpo by discriminate.
  assert (a_len (array int16 [5; 6]%Z) < block_size (config self)) as Hlen
    by (vm_compute; lia).
  repeat (split; [assumption|]).
  destruct (alm_round_trip self sample (array int16 [5; 6]%Z)
              (array int16 [6; -100]%Z)
              Hpad Hw Hdpo eq_refl eq_refl eq_refl Hlen) as (_ & Hok & _).
  exact (Hok eq_refl eq_refl eq_refl).
Defined.

(** ** The processed-files ledger *)

(** Membership in a list built from conses and appends. *)
Ltac list_mem :=
  solve [rewrite ?elem_of_app, ?elem_of_cons, ?elem_of_nil; intuition (subst; auto)].

Arguments read_dataset_file : simpl never.

(** Loading a file depends on the rank, the world size and the
    configuration only, not on what the dataset object currently holds. *)
Lemma read_dataset_file_params env self self' f :
  rank self = rank self' -> world_size self = world_size self' ->
  config self = config self' ->
  read_dataset_file env self f = read_dataset_file env self' f.
Proof.
  destruct self, self'. simpl. intros -> -> ->. reflexivity.
Qed.

Lemma load_dataset_file_eq env self f :
  load_dataset_file env self f
  = (new_data ← read_dataset_file env self f;
     match new_data with
     | Some (x :: l) =>
         Ok (true,
             set_data (set_processed_files self (processed_files self ++ [f]))
               (Some (x :: l)) (endswith f ".alm"))
     | _ => Ok (false, set_processed_files self (processed_files self ++ [f]))
     end).
Proof.
  unfold load_dataset_file.
  by rewrite (read_dataset_file_params env _ self).
Qed.

Lemma str_in_true x l : str_in x l = true <-> x ∈ l.
Proof. unfold str_in. apply bool_decide_eq_true. Qed.

Lemma str_in_false x l : str_in x l = false <-> x ∉ l.
Proof. unfold str_in. apply bool_decide_eq_false. Qed.

(** What a successful pass of the loop looks like: the files in front of
    the loaded one are all in the final ledger, the loaded file is its
    last entry and was not in it before. *)
Lemma load_next_loop_success env files self self' :
  load_next_loop env files self = Ok (true, self') ->
  exists skipped f rest ledger x l,
    files = skipped ++ f :: rest
    /\ processed_files self' = ledger ++ [f]
    /\ (forall g, g ∈ processed_files self -> g ∈ ledger)
    /\ (forall g, g ∈ skipped -> g ∈ ledger)
    /\ (f ∉ ledger)
    /\ read_dataset_file env self f = Ok (Some (x :: l))
    /\ self' = set_data (set_processed_files self (ledger ++ [f]))
                 (Some (x :: l)) (endswith f ".alm").
Proof.
  revert self. induction files as [|g files IH]; intros self Hrun; [done|].
  simpl in Hrun. destruct (str_in g (processed_files self)) eqn:Hin.
  - apply str_in_true in Hin.
    destruct (IH _ Hrun) as (sk & f & rest & ledger & x & l & -> & ? & Hsub & ? & ? & ? & ?).
    exists (g :: sk), f, rest, ledger, x, l. repeat split; try done.
    intros h [->|?]%elem_of_cons; auto.
  - apply str_in_false in Hin. rewrite load_dataset_file_eq in Hrun.
    destruct (read_dataset_file env self g) as [[[|x l]|]|e] eqn:Hread;
      simpl in Hrun; try done.
    + destruct (IH _ Hrun) as (sk & f & rest & ledger & x & l & -> & Hp & Hsub & Hsk & Hf & Hr & ->).
      simpl in *.
      exists (g :: sk), f, rest, ledger, x, l.
      split; [done|]. split; [done|].
      split; [intros h Hh; apply Hsub; list_mem|].
      split; [intros h [->|?]%elem_of_cons; [apply Hsub; list_mem|auto]|].
      split; [done|]. split; [|done].
      by rewrite <- Hr.
    + injection Hrun as <-.
      exists [], g, files, (processed_files self), x, l.
      repeat split; try done. intros h Hh. by apply elem_of_nil in Hh.
    + destruct (IH _ Hrun) as (sk & f & rest & ledger & x & l & -> & Hp & Hsub & Hsk & Hf & Hr & ->).
      simpl in *.
      exists (g :: sk), f, rest, ledger, x, l.
      split; [done|]. split; [done|].
      split; [intros h Hh; apply Hsub; list_mem|].
      split; [intros h [->|?]%elem_of_cons; [apply Hsub; list_mem|auto]|].
      split; [done|]. split; [|done].
      by rewrite <- Hr.
Qed.

(** Replaying the loop from a ledger that holds the skipped files and not
    the file in progress loads that file again. *)
Lemma load_next_loop_replay env skipped f rest self x l :
  (forall g, g ∈ skipped -> g ∈ processed_files self) ->
  f ∉ processed_files self ->
  read_dataset_file env self f = Ok (Some (x :: l)) ->
  load_next_loop env (skipped ++ f :: rest) self
  = Ok (true,
        set_data (set_processed_files self (processed_files self ++ [f]))
          (Some (x :: l)) (endswith f ".alm")).
Proof.
  intros Hsk Hf Hread. induction skipped as [|g sk IH]; simpl.
  - apply str_in_false in Hf. rewrite Hf, load_dataset_file_eq, Hread. done.
  - assert (str_in g (processed_files self) = true) as ->
      by (apply str_in_true, Hsk; list_mem).
    apply IH. intros h Hh. apply Hsk. list_mem.
Qed.

(** With every catalogue file in the ledger the loop loads nothing and
    leaves the ledger as it is. *)
Lemma load_next_loop_all_processed env files self :
  (forall g, g ∈ files -> g ∈ processed_files self) ->
  load_next_loop env files self = Ok (false, self).
Proof.
  induction files as [|g files IH]; intros Hall; [done|]. simpl.
  assert (str_in g (processed_files self) = true) as ->
    by (apply str_in_true, Hall; list_mem).
  apply IH. intros h Hh. apply Hall. list_mem.
Qed.

Lemma first_unprocessed_app skipped f rest ledger :
  (forall g, g ∈ skipped -> g ∈ ledger) -> f ∉ ledger ->
  first_unprocessed (skipped ++ f :: rest) ledger = Some f.
Proof.
  intros Hsk Hf. unfold first_unprocessed.
  induction skipped as [|g sk IH]; simpl.
  - apply str_in_false in Hf. by rewrite Hf.
  - assert (str_in g ledger = true) as -> by (apply str_in_true, Hsk; list_mem).
    simpl. apply IH. intros h Hh. apply Hsk. list_mem.
Qed.

(** ** Resume from a checkpoint *)

(** C2.  For a checkpoint saved while a file is in progress, the saved
    ledger is non-empty; resuming on a freshly built loader of the same
    job removes the ledger's last entry, and the first catalogue file that
    is not in the shortened ledger is exactly that entry; it is loaded
    again, so that the resumed training dataset (ledger and loaded
    samples) is the one at save time, and offset and epoch are restored
    verbatim. *)
Theorem resume_restores_cursor (env : Env) (saved fresh : AllamoDataLoader) :
  file_in_progress env (train_dataset saved) ->
  same_job (train_dataset fresh) (train_dataset saved) ->
  let d := train_dataset saved in
  exists ledger f,
    processed_files d = ledger ++ [f]
    /\ removelast (processed_files d) = ledger
    /\ first_unprocessed (dataset_files d) ledger = Some f
    /\ exists resumed,
         resume env (save_checkpoint saved) fresh = Ok resumed
         /\ train_dataset resumed = d
         /\ dataset_offset resumed = dataset_offset saved
         /\ epoch resumed = epoch saved.
Proof.
  intros [d0 Hload] (Hrank & Hws & Hcfg & Hfiles) d. fold d in Hload.
  unfold load_next_dataset in Hload.
  apply load_next_loop_success in Hload
    as (skipped & f & rest & ledger & x & l & Hcat & Hled & _ & Hsk & Hf & Hread & Hd).
  simpl in Hcat.
  assert (dataset_files d = skipped ++ f :: rest) as Hdcat
    by (rewrite Hd; simpl; exact Hcat).
  exists ledger, f. split; [exact Hled|].
  split; [rewrite Hled; apply removelast_last|].
  split; [rewrite Hdcat; by apply first_unprocessed_app|].
  unfold resume, save_checkpoint. cbn [allamo_dataloader_train_processed_files
    allamo_dataloader_dataset_offset allamo_dataloader_epoch].
  fold d. rewrite Hled.
  assert ((0 <? length (ledger ++ [f])) = true) as ->
    by (apply Nat.ltb_lt; rewrite length_app; simpl; lia).
  rewrite removelast_last. unfold load_next_dataset.
  cbn [dataset_files set_data set_processed_files].
  fold d in Hfiles. rewrite Hfiles, Hdcat.
  rewrite (load_next_loop_replay env skipped f rest _ x l); first last.
  - rewrite <- Hread. apply read_dataset_file_params; simpl; try done.
    + rewrite Hrank. subst d. by rewrite Hd.
    + rewrite Hws. subst d. by rewrite Hd.
    + rewrite Hcfg. subst d. by rewrite Hd.
  - done.
  - done.
  - simpl. eexists. split; [reflexivity|]. simpl. split; [|done].
    rewrite Hd. unfold set_data, set_processed_files. simpl.
    fold d in Hrank, Hws, Hcfg. rewrite Hrank, Hws, Hcfg, Hfiles, Hdcat.
    rewrite Hd. simpl. by rewrite Hcat.
Qed.

Lemma resume_restores_cursor_witness :
  file_in_progress two_file_env (train_dataset two_file_saved)
  /\ same_job (train_dataset two_file_fresh) (train_dataset two_file_saved)
  /\ processed_files (train_dataset two_file_saved) = ["a.bin"; "b.bin"]
  /\ dataset_offset two_file_saved = 1
  /\ exists resumed,
       resume two_file_env (save_checkpoint two_file_saved) two_file_fresh
       = Ok resumed
       /\ train_dataset resumed = train_dataset two_file_saved
       /\ dataset_offset resumed = dataset_offset two_file_saved
       /\ epoch resumed = epoch two_file_saved.
Proof.
  assert (file_in_progress two_file_env (train_dataset two_file_saved)) as Hprog
    by (exists (train_dataset two_file_fresh); vm_compute; reflexivity).
  assert (same_job (train_dataset two_file_fresh) (train_dataset two_file_saved))
    as Hjob by (repeat split; reflexivity).
  split; [exact Hprog|]. split; [exact Hjob|].
  split; [reflexivity|]. split; [reflexivity|].
  destruct (resume_restores_cursor two_file_env two_file_saved two_file_fresh
              Hprog Hjob) as (ledger & f & _ & _ & _ & resumed & Hres).
  exists resumed. exact Hres.
Defined.

(** ** Epoch rollover *)

Lemma load_next_dataset_all_processed env d :
  (forall g, g ∈ dataset_files d -> g ∈ processed_files d) ->
  load_next_dataset env d = Ok (false, set_data d None (data_in_alm_format d)).
Proof.
  intros Hall. unfold load_next_dataset.
  by apply load_next_loop_all_processed.
Qed.

Lemma load_next_dataset_reset env d o :
  load_next_dataset env
    (set_processed_files (set_data d o (data_in_alm_format d)) [])
  = load_next_dataset env (set_processed_files d []).
Proof. reflexivity. Qed.

(** C3, as stated, fails on a single-file corpus: the ledger is not
    cleared and nothing is reloaded, so no failure arises where reloading
    would yield no usable data.  First an empty corpus (the only file is
    too short), then a file that became too short after it was loaded. *)
Lemma reload_dataset_single_file_never_reloads :
  (new_loader short_file_env one_file_config None None = Ok short_file_fresh
   /\ (forall f, f ∈ dataset_files (train_dataset short_file_fresh) ->
                 f ∈ processed_files (train_dataset short_file_fresh))
   /\ len (train_dataset short_file_fresh) <= dataset_offset short_file_fresh
   /\ fst <$> load_next_dataset short_file_env
                (set_processed_files (train_dataset short_file_fresh) [])
      = Ok false
   /\ exists after,
        reload_dataset short_file_env short_file_fresh = Ok after
        /\ epoch after = 1
        /\ processed_files (train_dataset after) = ["train.bin"])
  /\ (has_data (train_dataset one_file_done) = true
      /\ (forall f, f ∈ dataset_files (train_dataset one_file_done) ->
                    f ∈ processed_files (train_dataset one_file_done))
      /\ len (train_dataset one_file_done) <= dataset_offset one_file_done
      /\ fst <$> load_next_dataset short_file_env
                   (set_processed_files (train_dataset one_file_done) [])
         = Ok false
      /\ exists after,
           reload_dataset short_file_env one_file_done = Ok after
           /\ epoch after = 1
           /\ train_dataset after = train_dataset one_file_done).
Proof.
  split.
  - split; [vm_compute; reflexivity|].
    split; [intros f Hf; exact Hf|].
    split; [vm_compute; lia|].
    split; [vm_compute; reflexivity|].
    eexists. split; [vm_compute; reflexivity|]. split; reflexivity.
  - split; [reflexivity|].
    split; [intros f Hf; exact Hf|].
    split; [vm_compute; lia|].
    split; [vm_compute; reflexivity|].
    eexists. split; [vm_compute; reflexivity|]. split; reflexivity.
Qed.

(** C3 (amended).  Let the cursor have exhausted the loaded file with no
    unprocessed file left in the catalogue.  With more than one catalogue
    file, rollover clears the ledger and loads from the full file set
    again; it fails with the assertion when that yields no usable data and
    otherwise resets the offset and increments the epoch by exactly one.
    With a single catalogue file, rollover resets the offset and
    increments the epoch by exactly one and leaves ledger and loaded
    samples untouched.  In every state, a successful rollover resets the
    offset, and it leaves the epoch unchanged exactly when the catalogue
    has several files and a next unprocessed file was loaded; otherwise the
    epoch grows by one. *)
Theorem reload_dataset_rollover (env : Env) (self : AllamoDataLoader) :
  let d := train_dataset self in
  ((forall f, f ∈ dataset_files d -> f ∈ processed_files d) ->
   if 1 <? length (dataset_files d) then
     match load_next_dataset env (set_processed_files d []) with
     | Ok (true, d') =>
         reload_dataset env self
         = Ok (set_epoch (set_dataset_offset (set_train_dataset self d') 0)
                 (epoch self + 1))
     | Ok (false, _) =>
         reload_dataset env self
         = Raise (AssertionError
                    "Something very bad has happend and we are unable to reload dataset")
     | Raise e => reload_dataset env self = Raise e
     end
   else
     reload_dataset env self
     = Ok (set_epoch (set_dataset_offset self 0) (epoch self + 1)))
  /\ (forall after, reload_dataset env self = Ok after ->
        dataset_offset after = 0
        /\ ((epoch after = epoch self
             /\ 1 < length (dataset_files d)
             /\ load_next_dataset env d = Ok (true, train_dataset after))
            \/ (epoch after = epoch self + 1
                /\ ~ (1 < length (dataset_files d)
                      /\ exists d', load_next_dataset env d = Ok (true, d'))))).
Proof.
  intros d. split.
  - intros Hall. unfold reload_dataset. fold d.
    destruct (1 <? length (dataset_files d)); [|done].
    rewrite (load_next_dataset_all_processed env d Hall). simpl.
    rewrite load_next_dataset_reset.
    destruct (load_next_dataset env (set_processed_files d []))
      as [[[] d']|e]; done.
  - intros after. unfold reload_dataset. fold d.
    destruct (1 <? length (dataset_files d)) eqn:Hmulti.
    + apply Nat.ltb_lt in Hmulti.
      destruct (load_next_dataset env d) as [[[] d1]|e] eqn:Hnext; simpl; [| |done].
      * intros [= <-]. simpl. split; [done|]. left. done.
      * destruct (load_next_dataset env (set_processed_files d1 []))
          as [[[] d2]|e]; simpl; [|done..].
        intros [= <-]. simpl. split; [done|]. right. split; [done|].
        intros [_ [d' Hd']]. done.
    + apply Nat.ltb_ge in Hmulti. intros [= <-]. simpl. split; [done|].
      right. split; [done|]. intros [Hlt _]. lia.
Qed.

Lemma reload_dataset_rollover_witness :
  (forall f, f ∈ dataset_files (train_dataset two_file_done) ->
             f ∈ processed_files (train_dataset two_file_done))
  /\ len (train_dataset two_file_done) <= dataset_offset two_file_done
  /\ exists after,
       reload_dataset two_file_env two_file_done = Ok after
       /\ epoch after = epoch two_file_done + 1
       /\ processed_files (train_dataset after) = ["a.bin"].
Proof.
  assert (forall f, f ∈ dataset_files (train_dataset two_file_done) ->
                    f ∈ processed_files (train_dataset two_file_done)) as Hall
    by (intros f Hf; exact Hf).
  split; [exact Hall|]. split; [vm_compute; lia|].
  pose proof (proj1 (reload_dataset_rollover two_file_env two_file_done) Hall)
    as Hroll.
  vm_compute in Hroll.
  eexists. split; [vm_compute; exact Hroll|]. split; reflexivity.
Defined.

(** ** The sequential cursor over a single file *)

Lemma mapM_Ok_Forall2 {A B} (f : A -> res B) l ms :
  mapM f l = Ok ms <-> Forall2 (fun x m => f x = Ok m) l ms.
Proof.
  revert ms. induction l as [|x l IH]; intros ms; simpl.
  - split.
    + intros [= <-]. constructor.
    + intros H. by inversion H.
  - split.
    + destruct (f x) as [y|e] eqn:Hfx; simpl; [|done].
      destruct (mapM f l) as [ys|e] eqn:Hl; simpl; [|done].
      intros [= <-]. constructor; [done|]. by apply IH.
    + intros H. inversion H as [|? m ? ms' Hfx Hrest]; subst.
      rewrite Hfx. simpl. apply IH in Hrest. rewrite Hrest. done.
Qed.

Section Materialized.
Context (d : AllamoDataset) (ms : list Sample).
Hypothesis Hms : materialized d = Ok ms.

Lemma materialized_length : length ms = len d.
Proof using Hms.
  unfold materialized, getitem_slice, len in *.
  destruct (data d) as [dd|]; [|done].
  unfold slice in Hms. rewrite Nat.sub_0_r, drop_0, firstn_all in Hms.
  destruct (data_in_alm_format d).
  - apply mapM_Ok_Forall2, Forall2_length in Hms. done.
  - by injection Hms as <-.
Qed.

Lemma getitem_slice_materialized lo hi :
  getitem_slice d lo hi = Ok (slice lo hi ms).
Proof using Hms.
  unfold materialized, getitem_slice, len in *.
  destruct (data d) as [dd|]; [|done].
  unfold slice in Hms. rewrite Nat.sub_0_r, drop_0, firstn_all in Hms.
  destruct (data_in_alm_format d).
  - apply mapM_Ok_Forall2. apply mapM_Ok_Forall2 in Hms.
    unfold slice. by apply Forall2_take, Forall2_drop.
  - by injection Hms as <-.
Qed.

Lemma getitem_materialized j :
  j < len d -> getitem d j = Ok (Some (ms !!! j)).
Proof using Hms.
  intros Hj. pose proof materialized_length as Hlen.
  unfold getitem. apply Nat.ltb_lt in Hj as Hj'. rewrite Hj'.
  unfold materialized, getitem_slice, len in *.
  destruct (data d) as [dd|]; [|done].
  unfold slice in Hms. rewrite Nat.sub_0_r, drop_0, firstn_all in Hms.
  destruct (lookup_lt_is_Some_2 dd j Hj) as [x Hx].
  unfold item. rewrite Hx. simpl.
  destruct (data_in_alm_format d).
  - apply mapM_Ok_Forall2 in Hms.
    destruct (Forall2_lookup_l _ _ _ _ _ Hms Hx) as (m & Hm & Hprep).
    rewrite Hprep. simpl. do 2 f_equal. symmetry.
    by apply list_lookup_total_correct.
  - injection Hms as <-. do 2 f_equal. symmetry.
    by apply list_lookup_total_correct.
Qed.
End Materialized.

Lemma take_drop_lookup_total (ms : list Sample) o b :
  o + b <= length ms ->
  take b (drop o ms) = (fun i => ms !!! (o + i)) <$> seq 0 b.
Proof.
  intros Hle. apply list_eq. intros i.
  rewrite list_lookup_fmap.
  destruct (decide (i < b)) as [Hi|Hi].
  - rewrite lookup_take_lt, lookup_drop, lookup_seq_lt by done. simpl.
    apply list_lookup_lookup_total_lt. lia.
  - rewrite lookup_take_ge, lookup_seq_ge by lia. done.
Qed.

Lemma cursor_at_reload_buffer cfg d b c st :
  cursor_at cfg d b c st -> cursor_at cfg d b c (reload_buffer st).
Proof.
  intros [H1 H2 H3 H4 H5]. unfold reload_buffer.
  destruct (_ <=? _); by constructor.
Qed.

Lemma reload_buffer_offset st :
  dataset_offset (reload_buffer st) = dataset_offset st.
Proof. unfold reload_buffer. by destruct (_ <=? _). Qed.

Section SingleFile.
Context (env : Env) (cfg : AllamoConfiguration) (d : AllamoDataset).
Context (ms : list Sample) (b : nat).
Hypothesis Hsingle : length (dataset_files d) <= 1.
Hypothesis Hms : materialized d = Ok ms.
Hypothesis Hdata : 0 < len d.

Local Abbreviation K := (len d).
Local Abbreviation drawn c n := ((fun i => ms !!! ((c + i) mod K)) <$> seq 0 n).

Lemma reload_dataset_single_file st :
  train_dataset st = d ->
  reload_dataset env st
  = Ok (set_epoch (set_dataset_offset st 0) (epoch st + 1)).
Proof using Hsingle.
  clear Hdata Hms. intros Hd. unfold reload_dataset. rewrite Hd.
  by assert ((1 <? length (dataset_files d)) = false) as ->
    by (apply Nat.ltb_ge; lia).
Qed.

Lemma drawn_S c n : drawn c (S n) = ms !!! (c mod K) :: drawn (c + 1) n.
Proof.
  cbn [seq fmap list_fmap]. rewrite Nat.add_0_r. f_equal.
  rewrite <- seq_shift, <- list_fmap_compose. apply list_fmap_ext.
  intros _ i _. simpl. do 2 f_equal. lia.
Qed.

Lemma draw_one_by_one_spec r st acc c :
  cursor_at cfg d b c st ->
  exists st',
    draw_one_by_one env r st acc = Ok (acc ++ drawn c r, st')
    /\ cursor_at cfg d b (c + r) st'
    /\ (0 < r -> 0 < dataset_offset st').
Proof using Hsingle Hms Hdata.
  revert st acc c. induction r as [|r IH]; intros st acc c Hcur.
  - exists st. simpl. rewrite app_nil_r, Nat.add_0_r. split; [done|].
    split; [done|lia].
  - destruct Hcur as [H1 H2 H3 H4 H5]. cbn [draw_one_by_one].
    rewrite drawn_S.
    set (st1 := if K <=? dataset_offset st
                then set_epoch (set_dataset_offset st 0) (epoch st + 1)
                else st).
    assert ((if len (train_dataset st) <=? dataset_offset st
             then reload_dataset env st else Ok st) = Ok st1) as ->.
    { rewrite H2. subst st1. destruct (K <=? dataset_offset st); [|done].
      by apply reload_dataset_single_file. }
    assert (cursor_at cfg d b c st1 /\ dataset_offset st1 < K) as [Hcur1 Hlt].
    { subst st1. destruct (K <=? dataset_offset st) eqn:Hend.
      - apply Nat.leb_le in Hend. split; [constructor; simpl; try done; lia|].
        simpl. lia.
      - apply Nat.leb_gt in Hend. split; [by constructor|done]. }
    destruct Hcur1 as [G1 G2 G3 G4 G5]. simpl.
    rewrite G2, (getitem_materialized d ms Hms _ Hlt). simpl.
    destruct (IH (set_dataset_offset st1 (dataset_offset st1 + 1))
                 (acc ++ [ms !!! dataset_offset st1]) (c + 1))
      as (st' & Hrun & Hcur' & Hpos).
    { constructor; simpl; try done; lia. }
    exists st'. rewrite Hrun, <- app_assoc. simpl.
    assert (c mod K = dataset_offset st1) as ->.
    { rewrite <- G4, Nat.add_comm, Nat.Div0.mod_add. by apply Nat.mod_small. }
    split; [done|].
    split; [by replace (c + S r) with (c + 1 + r) by lia|].
    intros _. destruct r as [|r]; [|apply Hpos; lia].
    simpl in Hrun. injection Hrun as _ <-. simpl. lia.
Qed.
Lemma next_samples_spec st c :
  cursor_at cfg d b c st ->
  exists st',
    next_samples env st = Ok (drawn c b, st')
    /\ cursor_at cfg d b (c + b) st'
    /\ (0 < b -> 0 < dataset_offset st').
Proof using Hsingle Hms Hdata.
  intros Hcur. unfold next_samples.
  destruct Hcur as [H1 H2 H3 H4 H5] eqn:Hc. rewrite H2, H3.
  destruct (dataset_offset st + b <=? K) eqn:Hfit.
  - apply Nat.leb_le in Hfit.
    rewrite (getitem_slice_materialized d ms Hms). simpl.
    eexists. split; [|split].
    + do 2 f_equal. unfold slice.
      replace (dataset_offset st + b - dataset_offset st) with b by lia.
      rewrite take_drop_lookup_total
        by (rewrite (materialized_length d ms Hms); lia).
      apply list_fmap_ext. intros j i [Hij Hi]%lookup_seq.
      simpl in Hij. subst i. simpl. f_equal.
      rewrite <- H4.
      replace (epoch st * K + dataset_offset st + j)
        with (dataset_offset st + j + epoch st * K) by lia.
      rewrite Nat.Div0.mod_add. symmetry. apply Nat.mod_small. lia.
    + constructor; simpl; try done; lia.
    + simpl. lia.
  - destruct (draw_one_by_one_spec b st [] c) as (st' & Hrun & Hcur' & Hpos);
      [by constructor|].
    by exists st'.
Qed.

Lemma train_samples_spec n st c :
  cursor_at cfg d b c st ->
  exists st',
    train_samples env n st
    = Ok ((fun k => drawn (c + k * b) b) <$> seq 0 n, st')
    /\ cursor_at cfg d b (c + n * b) st'
    /\ (0 < n * b -> 0 < dataset_offset st').
Proof using Hsingle Hms Hdata.
  revert st c. induction n as [|n IH]; intros st c Hcur.
  - exists st. simpl. rewrite Nat.add_0_r. split; [done|]. split; [done|lia].
  - cbn [train_samples].
    destruct (next_samples_spec st c Hcur) as (st1 & -> & Hcur1 & Hpos1).
    simpl.
    destruct (IH (reload_buffer st1) (c + b)) as (st' & Hrun' & Hcur' & Hpos');
      [by apply cursor_at_reload_buffer|].
    rewrite Hrun'. exists st'. simpl. split; [|split].
    + do 2 f_equal. cbn [seq fmap list_fmap]. f_equal.
      * simpl. by rewrite Nat.add_0_r.
      * rewrite <- seq_shift, <- list_fmap_compose. apply list_fmap_ext.
        intros _ k _. simpl.
        by replace (c + b + k * b) with (c + (b + k * b)) by lia.
    + by replace (c + (b + n * b)) with (c + b + n * b) by lia.
    + intros Hnb. assert (0 < b) as Hb by (destruct b; simpl in *; lia).
      destruct n as [|n].
      * simpl in Hrun'. injection Hrun' as <-.
        rewrite reload_buffer_offset. by apply Hpos1.
      * apply Hpos'. simpl. lia.
Qed.
End SingleFile.

Lemma get_batch_sequential env rng st :
  dataset_seq_train (dl_config st) = true ->
  dataset_buffer (dl_config st) = false ->
  get_batch env rng st "train" false
  = ('(samples, st1) ← next_samples env st;
     batch ← prepare_samples (dl_config (reload_buffer st1)) samples;
     Ok (batch, reload_buffer st1)).
Proof.
  intros Hseq Hbuf. unfold get_batch. rewrite Hseq, Hbuf. simpl.
  destruct (next_samples env st) as [[samples st1]|e]; done.
Qed.

Lemma train_batches_spec env rng cfg d ms b n :
  length (dataset_files d) <= 1 -> materialized d = Ok ms -> 0 < len d ->
  dataset_seq_train cfg = true -> dataset_buffer cfg = false ->
  forall st c ws st',
    cursor_at cfg d b c st ->
    train_samples env n st = Ok (ws, st') ->
    train_batches env rng n st
    = (bs ← mapM (prepare_samples cfg) ws; Ok (bs, st')).
Proof.
  intros Hsingle Hms Hdata Hseq Hbuf.
  induction n as [|n IH]; intros st c ws st' Hcur Hrun.
  - simpl in *. by injection Hrun as <- <-.
  - cbn [train_samples train_batches] in *.
    destruct (next_samples_spec env cfg d ms b Hsingle Hms Hdata st c Hcur)
      as (st1 & Hnext & Hcur1 & _).
    rewrite get_batch_sequential
      by (by rewrite (cur_config _ _ _ _ _ Hcur)).
    rewrite Hnext in *. simpl in *.
    apply cursor_at_reload_buffer in Hcur1.
    rewrite (cur_config _ _ _ _ _ Hcur1).
    destruct (train_samples env n (reload_buffer st1)) as [[rest st2]|e]
      eqn:Hrest; simpl in Hrun; [|done].
    injection Hrun as <- <-.
    cbn [mapM]. destruct (prepare_samples cfg _) as [batch|e]; simpl; [|done].
    rewrite (IH _ _ _ _ Hcur1 Hrest). simpl.
    destruct (mapM (prepare_samples cfg) rest) as [bs|e]; done.
Qed.

Lemma concat_cyclic_windows ms b n :
  concat (cyclic_window ms b <$> seq 0 n)
  = (fun j => ms !!! (j mod length ms)) <$> seq 0 (n * b).
Proof.
  induction n as [|n IH]; [done|].
  rewrite seq_S, fmap_app, concat_app, IH. simpl. rewrite app_nil_r.
  replace (b + n * b) with (n * b + b) by lia.
  rewrite seq_app, fmap_app. f_equal.
  unfold cyclic_window. simpl.
  assert (seq (n * b) b = Nat.add (n * b) <$> seq 0 b) as ->
    by (rewrite fmap_add_seq; f_equal; lia).
  by rewrite <- list_fmap_compose.
Qed.

Lemma first_pass_in_order (ms : list Sample) b n :
  length ms <= n * b ->
  take (length ms) (concat (cyclic_window ms b <$> seq 0 n)) = ms.
Proof.
  intros Hle. rewrite concat_cyclic_windows, <- fmap_take, take_seq.
  replace (length ms `min` (n * b)) with (length ms) by lia.
  apply list_eq. intros j. rewrite list_lookup_fmap.
  destruct (decide (j < length ms)) as [Hj|Hj].
  - rewrite lookup_seq_lt by done. simpl. rewrite Nat.mod_small by done.
    symmetry. by apply list_lookup_lookup_total_lt.
  - rewrite lookup_seq_ge by lia. symmetry. apply lookup_ge_None. lia.
Qed.

(** C4, as stated, fails: with four samples and batches of two, the two
    batches that consume the whole file leave the epoch counter at 0; it
    only moves when the third batch is fetched. *)
Lemma epoch_counter_lags_one_batch :
  materialized (train_dataset one_file_fresh)
    = Ok [Tensor (array int16 [1; 2; 3; 4; 5]%Z); Tensor (array int16 [6; 7; 8; 9; 10]%Z);
          Tensor (array int16 [11; 12; 13; 14; 15]%Z); Tensor (array int16 [16; 17; 18; 19; 20]%Z)]
  /\ dl_batch_size one_file_fresh = 2
  /\ (exists batches st,
        train_batches one_file_env (fun _ => 0) 2 one_file_fresh = Ok (batches, st)
        /\ epoch st = 0)
  /\ (exists batches st,
        train_batches one_file_env (fun _ => 0) 3 one_file_fresh = Ok (batches, st)
        /\ epoch st = 1)
  /\ (exists batches st,
        train_batches one_file_env (fun _ => 0) 4 one_file_fresh = Ok (batches, st)
        /\ epoch st = 1).
Proof.
  split; [reflexivity|]. split; [reflexivity|].
  repeat split; eexists _, _; (split; [vm_compute; reflexivity|reflexivity]).
Qed.

(** C4 (amended).  Sequential training over a single-file corpus of [K]
    samples with constant batch size [0 < B < K], from offset 0 and epoch
    0, prefetch disabled.  The [n] first batches are collated from the
    windows [k*B .. k*B+B-1] of the endless repetition of the file, every
    batch holding exactly [B] samples (a batch that reaches the end of
    the file wraps to its start); hence all [K] samples are drawn once, in
    file order, before any sample is drawn again.  The epoch counter moves
    lazily, when the first sample of the next pass is fetched: after [n]
    batches it is [(n*B - 1) / K]; when [K = m * B] it is [(n - 1) / m],
    that is 0 for the first [m] batches and one more every [m] batches
    from batch [m + 1] on. *)
Theorem sequential_single_file_epochs (env : Env) (rng : nat -> nat)
    (self : AllamoDataLoader) (ms : list Sample) :
  length (dataset_files (train_dataset self)) <= 1 ->
  dataset_seq_train (dl_config self) = true ->
  dataset_buffer (dl_config self) = false ->
  materialized (train_dataset self) = Ok ms ->
  0 < dl_batch_size self < len (train_dataset self) ->
  dataset_offset self = 0 -> epoch self = 0 ->
  let K := len (train_dataset self) in
  let B := dl_batch_size self in
  forall n,
    let windows := cyclic_window ms B <$> seq 0 n in
    exists st,
      train_samples env n self = Ok (windows, st)
      /\ train_batches env rng n self
         = (bs ← mapM (prepare_samples (dl_config self)) windows; Ok (bs, st))
      /\ Forall (fun w => length w = B) windows
      /\ (K <= n * B -> take K (concat windows) = ms)
      /\ epoch st = (n * B - 1) / K
      /\ (forall m, K = m * B -> epoch st = (n - 1) / m).
Proof.
  intros Hsingle Hseq Hbuf Hms [HB HBK] Hoff Hep K B n windows.
  assert (0 < K) as HK by (subst K B; lia).
  assert (cursor_at (dl_config self) (train_dataset self) B 0 self) as Hcur
    by (constructor; try done; rewrite ?Hoff, ?Hep; lia).
  destruct (train_samples_spec env _ _ ms B Hsingle Hms HK n self 0 Hcur)
    as (st & Hrun & Hcur' & Hpos).
  pose proof (materialized_length _ _ Hms) as Hlen. fold K in Hlen.
  assert ((fun k => (fun i => ms !!! ((0 + k * B + i) mod K)) <$> seq 0 B)
            <$> seq 0 n = windows) as Hw.
  { subst windows. unfold cyclic_window. by rewrite Hlen. }
  fold K in Hrun. rewrite Hw in Hrun.
  exists st. split; [exact Hrun|].
  split; [by apply (train_batches_spec env rng _ _ ms B n Hsingle Hms HK
                      Hseq Hbuf self 0)|].
  split.
  { subst windows. apply Forall_fmap, Forall_forall. intros k _. simpl.
    unfold cyclic_window. by rewrite length_fmap, length_seq. }
  split.
  { intros Hle. subst windows. rewrite <- Hlen. apply first_pass_in_order. lia. }
  destruct Hcur' as [_ _ _ Hdrawn Hbound]. fold K in Hdrawn, Hbound.
  simpl in Hdrawn.
  assert (epoch st = (n * B - 1) / K) as Hepoch.
  { destruct (decide (n * B = 0)) as [Hz|Hnz].
    - rewrite Hz in *. simpl. rewrite Nat.Div0.div_0_l. nia.
    - apply (Nat.div_unique _ _ _ (dataset_offset st - 1)); lia. }
  split; [exact Hepoch|].
  intros m HKm. rewrite Hepoch, HKm.
  rewrite (Nat.mul_comm m B), <- Nat.Div0.div_div. f_equal.
  destruct n as [|n]; [simpl; by rewrite Nat.Div0.div_0_l|].
  symmetry. apply (Nat.div_unique _ _ _ (B - 1)); [lia|]. simpl. nia.
Qed.

Lemma sequential_single_file_epochs_witness :
  length (dataset_files (train_dataset one_file_fresh)) <= 1
  /\ 0 < dl_batch_size one_file_fresh < len (train_dataset one_file_fresh)
  /\ exists st,
       train_samples one_file_env 3 one_file_fresh
       = Ok ([[Tensor (array int16 [1; 2; 3; 4; 5]%Z); Tensor (array int16 [6; 7; 8; 9; 10]%Z)];
              [Tensor (array int16 [11; 12; 13; 14; 15]%Z); Tensor (array int16 [16; 17; 18; 19; 20]%Z)];
              [Tensor (array int16 [1; 2; 3; 4; 5]%Z); Tensor (array int16 [6; 7; 8; 9; 10]%Z)]], st)
       /\ epoch st = 1.
Proof.
  assert (length (dataset_files (train_dataset one_file_fresh)) <= 1) as H1
    by (simpl; lia).
  assert (0 < dl_batch_size one_file_fresh < len (train_dataset one_file_fresh))
    as H2 by (vm_compute; lia).
  split; [exact H1|]. split; [exact H2|].
  destruct (sequential_single_file_epochs one_file_env (fun _ => 0)
              one_file_fresh
              [Tensor (array int16 [1; 2; 3; 4; 5]%Z); Tensor (array int16 [6; 7; 8; 9; 10]%Z);
               Tensor (array int16 [11; 12; 13; 14; 15]%Z); Tensor (array int16 [16; 17; 18; 19; 20]%Z)]
              H1 eq_refl eq_refl eq_refl H2 eq_refl eq_refl 3)
    as (st & Hrun & _ & _ & _ & Hepoch & _).
  exists st. split; [exact Hrun|exact Hepoch].
Defined.

(** ** The prefetch slot *)


Lemma get_batch_empty_slot env rng self :
  dataset_seq_train (dl_config self) = true ->
  buffer self = None ->
  get_batch env rng self "train" false
  = ('(samples, st1) ← next_samples env self;
     batch ← prepare_samples (dl_config (reload_buffer st1)) samples;
     Ok (batch, reload_buffer st1)).
Proof.
  intros Hseq Hslot. unfold get_batch. rewrite Hseq, Hslot. simpl.
  rewrite andb_false_r.
  destruct (next_samples env self) as [[samples st1]|e]; done.
Qed.

(** ** Validation split without validation data *)

Lemma random_samples_of_materialized rng self d ms :
  materialized d = Ok ms -> 0 < len d ->
  random_samples_of rng self d
  = Ok ((fun k => ms !!! (rng k mod len d)) <$> seq 0 (dl_batch_size self)).
Proof.
  intros Hms Hpos. unfold random_samples_of, randint.
  assert ((len d =? 0) = false) as -> by (apply Nat.eqb_neq; lia).
  simpl. apply mapM_Ok_Forall2.
  apply Forall2_fmap, Forall_Forall2_diag.
  apply Forall_forall. intros k _. simpl.
  rewrite (getitem_materialized d ms Hms); [done|].
  by apply Nat.mod_upper_bound, Nat.neq_0_lt_0.
Qed.

(** C10, as stated, fails: with no usable training sample either, the
    request for the validation split raises. *)
Lemma get_batch_val_raises_on_empty_corpus :
  new_loader short_file_env one_file_config None None = Ok short_file_fresh
  /\ val_dataset short_file_fresh = None
  /\ get_batch short_file_env (fun _ => 0) short_file_fresh "val" true
     = Raise RuntimeError.
Proof. repeat split; vm_compute; reflexivity. Qed.

(** C10 (amended).  When no validation data was loaded ([val_dataset] is
    [None]), a request for any split other than ['train'] is served as a
    random draw from the training dataset, exactly as
    [get_batch('train', True)]: with [K > 0] loaded training samples the
    call collates the [batch_size] training samples at the drawn indices
    and leaves the loader unchanged; it raises only where that training
    draw raises, in particular when the training dataset holds no
    sample. *)
Theorem get_batch_val_fallback (env : Env) (rng : nat -> nat)
    (self : AllamoDataLoader) (split : string) (random_samples : bool) :
  val_dataset self = None ->
  split <> "train" ->
  let d := train_dataset self in
  get_batch env rng self split random_samples
    = get_batch env rng self "train" true
  /\ get_batch env rng self split random_samples
     = (samples ← random_samples_of rng self d;
        batch ← prepare_samples (dl_config self) samples;
        Ok (batch, self))
  /\ (forall ms, materialized d = Ok ms -> 0 < len d ->
        get_batch env rng self split random_samples
        = (batch ← prepare_samples (dl_config self)
                     ((fun k => ms !!! (rng k mod len d))
                        <$> seq 0 (dl_batch_size self));
           Ok (batch, self)))
  /\ (len d = 0 ->
        get_batch env rng self split random_samples = Raise RuntimeError).
Proof.
  intros Hval Hsplit d.
  assert (String.eqb split "train" = false) as Hneq by by apply String.eqb_neq.
  assert (get_batch env rng self split random_samples
          = (samples ← random_samples_of rng self d;
             batch ← prepare_samples (dl_config self) samples;
             Ok (batch, self))) as Hdraw.
  { unfold get_batch. rewrite Hneq, Hval, andb_false_r. done. }
  split; [|split; [exact Hdraw|split]].
  - rewrite Hdraw. unfold get_batch. simpl. done.
  - intros ms Hms Hpos. rewrite Hdraw.
    by rewrite (random_samples_of_materialized rng self d ms Hms Hpos).
  - intros Hempty. rewrite Hdraw. unfold random_samples_of, randint.
    by rewrite Hempty.
Qed.

Lemma get_batch_val_fallback_witness :
  val_dataset one_file_fresh = None
  /\ get_batch one_file_env (fun k => k + 2) one_file_fresh "val" false
     = Ok (Collated [[11; 12; 13; 14]; [16; 17; 18; 19]]%Z
             [[12; 13; 14; 15]; [17; 18; 19; 20]]%Z None None None,
           one_file_fresh).
Proof.
  split; [reflexivity|].
  assert ("val" <> "train") as Hne by discriminate.
  destruct (get_batch_val_fallback one_file_env (fun k => k + 2)
              one_file_fresh "val" false eq_refl Hne) as (_ & _ & Hrun & _).
  rewrite (Hrun [Tensor (array int16 [1; 2; 3; 4; 5]%Z); Tensor (array int16 [6; 7; 8; 9; 10]%Z);
                 Tensor (array int16 [11; 12; 13; 14; 15]%Z); Tensor (array int16 [16; 17; 18; 19; 20]%Z)]
             eq_refl); [reflexivity|].
  vm_compute. lia.
Defined.

(** ** Where a file in progress comes from *)

Lemma load_next_loop_failure_data env files self self' :
  load_next_loop env files self = Ok (false, self') -> data self' = data self.
Proof.
  revert self. induction files as [|g files IH]; intros self Hrun.
  - by injection Hrun as <-.
  - simpl in Hrun. destruct (str_in g (processed_files self)); [by apply IH|].
    rewrite load_dataset_file_eq in Hrun.
    destruct (read_dataset_file env self g) as [[[|x l]|]|e]; simpl in Hrun;
      try done; by rewrite (IH _ Hrun).
Qed.

(** A dataset object that was constructed with data holds a file in
    progress. *)
Lemma new_dataset_file_in_progress env config train_split rank world_size d :
  new_dataset env config train_split rank world_size = Ok d ->
  has_data d = true -> file_in_progress env d.
Proof.
  unfold new_dataset. destruct (get_dataset_files env config train_split)
    as [files|e]; simpl; [|done].
  match goal with
  | |- context [load_next_dataset env ?d0] => set (start := d0)
  end.
  destruct (load_next_dataset env start) as [[[] d1]|e] eqn:Hload; simpl;
    [| |done].
  - intros [= <-] _. by exists start.
  - intros [= <-] Hdata. unfold load_next_dataset in Hload.
    apply load_next_loop_failure_data in Hload.
    unfold has_data in Hdata. by rewrite Hload in Hdata.
Qed.

(** File change and epoch rollover keep a file in progress. *)
Lemma reload_dataset_file_in_progress env self after :
  reload_dataset env self = Ok after ->
  file_in_progress env (train_dataset self) ->
  file_in_progress env (train_dataset after).
Proof.
  unfold reload_dataset. intros Hrun Hprog.
  destruct (1 <? length (dataset_files (train_dataset self))).
  - destruct (load_next_dataset env (train_dataset self))
      as [[[] d1]|e] eqn:Hnext; simpl in Hrun; [| |done].
    + injection Hrun as <-. simpl. by eexists.
    + destruct (load_next_dataset env (set_processed_files d1 []))
        as [[[] d2]|e] eqn:Hagain; simpl in Hrun; [|done..].
      injection Hrun as <-. simpl. by eexists.
  - by injection Hrun as <-.
Qed.

(* ================================================================== *)
(** * Further properties of the pipeline *)
(* ================================================================== *)

(** ** Loading the next file *)

Lemma same_job_refl d : same_job d d.
Proof. by repeat split. Qed.

Lemma same_job_trans d1 d2 d3 : same_job d1 d2 -> same_job d2 d3 -> same_job d1 d3.
Proof.
  intros (? & ? & ? & ?) (? & ? & ? & ?). repeat split; congruence.
Qed.

Lemma load_dataset_file_cases env self f loaded self' :
  load_dataset_file env self f = Ok (loaded, self') ->
  processed_files self' = processed_files self ++ [f]
  /\ same_job self' self
  /\ (if loaded
      then exists x l, read_dataset_file env self f = Ok (Some (x :: l))
                       /\ data self' = Some (x :: l)
                       /\ data_in_alm_format self' = endswith f ".alm"
      else no_samples env self f /\ data self' = data self
           /\ data_in_alm_format self' = data_in_alm_format self).
Proof.
  rewrite load_dataset_file_eq. unfold no_samples.
  destruct (read_dataset_file env self f) as [[[|x l]|]|e]; simpl; [| | |done];
    intros [= <- <-]; simpl; repeat split; eauto.
Qed.

(** The loop only ever appends catalogue files that were not in the ledger,
    each once and in catalogue order. *)
Lemma load_next_loop_ledger env files self loaded self' :
  load_next_loop env files self = Ok (loaded, self') ->
  exists added,
    processed_files self' = processed_files self ++ added
    /\ added `sublist_of` files
    /\ (forall f, f ∈ added -> f ∉ processed_files self)
    /\ NoDup added
    /\ same_job self' self.
Proof.
  revert self. induction files as [|g files IH]; intros self Hrun; simpl in Hrun.
  - injection Hrun as <- <-. exists []. rewrite app_nil_r.
    split; [done|]. split; [done|].
    split; [intros f Hf; by apply elem_of_nil in Hf|].
    split; [constructor|apply same_job_refl].
  - destruct (str_in g (processed_files self)) eqn:Hin.
    + destruct (IH _ Hrun) as (added & ? & ? & ? & ? & ?).
      exists added. split; [done|]. split; [by apply sublist_cons|].
      by repeat (split; [done|]).
    + apply str_in_false in Hin.
      destruct (load_dataset_file env self g) as [[b s1]|e] eqn:Hload;
        simpl in Hrun; [|done].
      apply load_dataset_file_cases in Hload as (Hled & Hjob & _).
      destruct b.
      * injection Hrun as <- <-. exists [g].
        split; [done|]. split; [apply sublist_skip, sublist_nil_l|].
        split; [by intros f ->%list_elem_of_singleton|].
        split; [apply NoDup_singleton|done].
      * destruct (IH _ Hrun) as (added & Hp & Hsub & Hnew & Hnd & Hjob').
        exists (g :: added). rewrite Hp, Hled, <- app_assoc.
        split; [done|]. split; [by apply sublist_skip|].
        split.
        { intros f [->|Hf]%elem_of_cons; [done|].
          intros Hold. apply (Hnew f Hf). rewrite Hled. apply elem_of_app. by left. }
        split; [|by eapply same_job_trans].
        apply NoDup_cons. split; [|done].
        intros Hg. apply (Hnew g Hg). rewrite Hled.
        apply elem_of_app. right. by apply list_elem_of_singleton.
Qed.

(** X1.  [load_next_dataset] only ever extends the processed-files ledger,
    by catalogue files that were not yet in it, each once and in catalogue
    order; a duplicate-free ledger stays duplicate-free; rank, world size,
    configuration and catalogue are never changed. *)
Theorem load_next_dataset_ledger (env : Env) (d d' : AllamoDataset)
    (loaded : bool) :
  load_next_dataset env d = Ok (loaded, d') ->
  exists added,
    processed_files d' = processed_files d ++ added
    /\ added `sublist_of` dataset_files d
    /\ (forall f, f ∈ added -> f ∉ processed_files d)
    /\ NoDup added
    /\ (NoDup (processed_files d) -> NoDup (processed_files d'))
    /\ same_job d' d.
Proof.
  unfold load_next_dataset. intros Hrun.
  apply load_next_loop_ledger in Hrun as (added & Hp & Hsub & Hnew & Hnd & Hjob).
  simpl in *. exists added.
  split; [done|]. split; [done|]. split; [done|]. split; [done|].
  split; [|exact Hjob].
  intros Hold. rewrite Hp. apply NoDup_app.
  split; [done|]. split; [|done].
  intros f Hf Hf'. by apply (Hnew f Hf').
Qed.

Lemma load_next_dataset_ledger_witness :
  exists d',
    load_next_dataset two_file_env (train_dataset two_file_fresh) = Ok (true, d')
    /\ processed_files d' = ["a.bin"; "b.bin"]
    /\ NoDup (processed_files d').
Proof.
  eexists. split; [vm_compute; reflexivity|]. split; [reflexivity|].
  destruct (load_next_dataset_ledger two_file_env (train_dataset two_file_fresh)
              _ true eq_refl) as (added & _ & _ & _ & _ & Hnd & _).
  apply Hnd. simpl. apply NoDup_singleton.
Defined.

Lemma read_dataset_file_same_job env d d' f :
  same_job d d' -> read_dataset_file env d f = read_dataset_file env d' f.
Proof. intros (? & ? & ? & _). by apply read_dataset_file_params. Qed.

Lemma no_samples_same_job env d d' f :
  same_job d d' -> no_samples env d f -> no_samples env d' f.
Proof.
  intros Hjob. unfold no_samples.
  by rewrite (read_dataset_file_same_job env d d' f Hjob).
Qed.

Lemma load_next_loop_choice env d files s loaded s' :
  same_job s d ->
  (forall h, h ∈ processed_files d -> h ∈ processed_files s) ->
  (forall h, h ∈ processed_files s -> h ∈ processed_files d \/ no_samples env d h) ->
  load_next_loop env files s = Ok (loaded, s') ->
  if loaded then
    exists skipped f rest x l,
      files = skipped ++ f :: rest
      /\ (forall g, g ∈ skipped -> g ∈ processed_files d \/ no_samples env d g)
      /\ (f ∉ processed_files d)
      /\ read_dataset_file env d f = Ok (Some (x :: l))
      /\ data s' = Some (x :: l)
      /\ data_in_alm_format s' = endswith f ".alm"
      /\ last (processed_files s') = Some f
  else
    data s' = data s
    /\ (forall g, g ∈ files -> g ∈ processed_files s')
    /\ (forall g, g ∈ files -> g ∈ processed_files d \/ no_samples env d g)
    /\ (forall h, h ∈ processed_files s -> h ∈ processed_files s').
Proof.
  revert s. induction files as [|g files IH]; intros s Hjob Hmono Hinv Hrun;
    simpl in Hrun.
  - injection Hrun as <- <-.
    split; [done|]. split; [intros g Hg; by apply elem_of_nil in Hg|].
    split; [intros g Hg; by apply elem_of_nil in Hg|done].
  - destruct (str_in g (processed_files s)) eqn:Hin.
    + apply str_in_true in Hin. specialize (IH s Hjob Hmono Hinv Hrun).
      destruct loaded.
      * destruct IH as (sk & f & rest & x & l & -> & Hsk & IH).
        exists (g :: sk), f, rest, x, l. split; [done|].
        split; [|exact IH].
        intros h [->|Hh]%elem_of_cons; [by apply Hinv|by apply Hsk].
      * destruct IH as (Hdata & Hall & Hwhy & Hkeep).
        split; [done|].
        split; [intros h [->|Hh]%elem_of_cons; [by apply Hkeep|by apply Hall]|].
        split; [|done].
        intros h [->|Hh]%elem_of_cons; [by apply Hinv|by apply Hwhy].
    + apply str_in_false in Hin.
      destruct (load_dataset_file env s g) as [[b s1]|e] eqn:Hload;
        simpl in Hrun; [|done].
      apply load_dataset_file_cases in Hload as (Hled & Hjob1 & Hcase).
      destruct b.
      * injection Hrun as <- <-.
        destruct Hcase as (x & l & Hread & Hdata & Halm).
        exists [], g, files, x, l. split; [done|].
        split; [intros h Hh; by apply elem_of_nil in Hh|].
        split; [intros Hg; by apply Hin, Hmono|].
        split; [by rewrite <- (read_dataset_file_same_job env s d g Hjob)|].
        split; [done|]. split; [done|]. by rewrite Hled, last_snoc.
      * destruct Hcase as (Hnone & Hdata & _).
        apply (no_samples_same_job env s d g Hjob) in Hnone.
        assert (forall h, h ∈ processed_files s1 ->
                          h ∈ processed_files d \/ no_samples env d h) as Hinv1.
        { intros h. rewrite Hled. intros [Hh| ->%list_elem_of_singleton]%elem_of_app;
            [by apply Hinv|by right]. }
        assert (forall h, h ∈ processed_files d -> h ∈ processed_files s1) as Hmono1.
        { intros h Hh. rewrite Hled. apply elem_of_app. left. by apply Hmono. }
        specialize (IH s1 (same_job_trans _ _ _ Hjob1 Hjob) Hmono1 Hinv1 Hrun).
        assert (g ∈ processed_files s1) as Hg1.
        { rewrite Hled. apply elem_of_app. right. by apply list_elem_of_singleton. }
        destruct loaded.
        -- destruct IH as (sk & f & rest & x & l & -> & Hsk & IH).
           exists (g :: sk), f, rest, x, l. split; [done|].
           split; [|exact IH].
           intros h [->|Hh]%elem_of_cons; [by right|by apply Hsk].
        -- destruct IH as (Hdata' & Hall & Hwhy & Hkeep).
           split; [by rewrite Hdata'|].
           split; [intros h [->|Hh]%elem_of_cons; [by apply Hkeep|by apply Hall]|].
           split; [intros h [->|Hh]%elem_of_cons; [by right|by apply Hwhy]|].
           intros h Hh. apply Hkeep. rewrite Hled. apply elem_of_app. by left.
Qed.

(** X2.  [load_next_dataset] loads the first catalogue file that is not in
    the ledger and yields at least one sample: every catalogue file in
    front of it was already processed or gave no sample, the loaded
    samples are the ones read from that file, and the file is the last
    ledger entry.  When it reports failure, nothing is loaded ([data] is
    [None]), every catalogue file is in the ledger, and each catalogue
    file was already processed or gave no sample. *)
Theorem load_next_dataset_first_loadable (env : Env) (d d' : AllamoDataset)
    (loaded : bool) :
  load_next_dataset env d = Ok (loaded, d') ->
  if loaded then
    exists skipped f rest x l,
      dataset_files d = skipped ++ f :: rest
      /\ (forall g, g ∈ skipped -> g ∈ processed_files d \/ no_samples env d g)
      /\ (f ∉ processed_files d)
      /\ read_dataset_file env d f = Ok (Some (x :: l))
      /\ data d' = Some (x :: l)
      /\ data_in_alm_format d' = endswith f ".alm"
      /\ last (processed_files d') = Some f
      /\ has_data d' = true
  else
    data d' = None /\ has_data d' = false /\ len d' = 0
    /\ (forall g, g ∈ dataset_files d -> g ∈ processed_files d')
    /\ (forall g, g ∈ dataset_files d ->
          g ∈ processed_files d \/ no_samples env d g).
Proof.
  unfold load_next_dataset. intros Hrun.
  apply (load_next_loop_choice env d) in Hrun; simpl; try done.
  - destruct loaded.
    + destruct Hrun as (sk & f & rest & x & l & H1 & H2 & H3 & H4 & H5 & H6 & H7).
      exists sk, f, rest, x, l. repeat (split; [done|]).
      unfold has_data. by rewrite H5.
    + destruct Hrun as (Hdata & Hall & Hwhy & _). simpl in Hdata.
      unfold has_data, len. rewrite Hdata. done.
  - auto.
Qed.

Lemma load_next_dataset_first_loadable_witness :
  exists d',
    load_next_dataset two_file_env (train_dataset two_file_fresh) = Ok (true, d')
    /\ last (processed_files d') = Some "b.bin"
    /\ has_data d' = true.
Proof.
  eexists. split; [vm_compute; reflexivity|].
  destruct (load_next_dataset_first_loadable two_file_env
              (train_dataset two_file_fresh) _ true eq_refl)
    as (sk & f & rest & x & l & _ & _ & _ & _ & _ & _ & Hlast & Hdata).
  split; [reflexivity|exact Hdata].
Defined.

(** ** Alignment, chunking and shard sizes *)

Lemma ceil_div_spec n step :
  0 < step ->
  let k := (step - n mod step) mod step in
  k < step
  /\ (n + step - 1) / step * step = n + k
  /\ (n + k) mod step = 0.
Proof.
  intros Hstep k.
  pose proof (Nat.div_mod_eq n step) as Hn.
  pose proof (Nat.mod_upper_bound n step ltac:(lia)) as Hr.
  set (q := n / step) in *. set (r := n mod step) in *.
  assert (k = if decide (r = 0) then 0 else step - r) as Hk.
  { subst k. case_decide as H0.
    - rewrite H0, Nat.sub_0_r. apply Nat.Div0.mod_same.
    - apply Nat.mod_small. lia. }
  assert ((n + step - 1) / step = if decide (r = 0) then q else S q) as Hc.
  { case_decide as H0.
    - symmetry. apply (Nat.div_unique _ _ _ (step - 1)); lia.
    - symmetry. apply (Nat.div_unique _ _ _ (r - 1)); lia. }
  split; [subst k; apply Nat.mod_upper_bound; lia|].
  split.
  - rewrite Hc, Hk. case_decide; lia.
  - rewrite Hk. case_decide as H0.
    + rewrite Nat.add_0_r. done.
    + replace (n + (step - r)) with (0 + S q * step) by lia.
      rewrite Nat.Div0.mod_add. apply Nat.Div0.mod_0_l.
Qed.

Lemma align_data_to_step_size_ok {A} (data : list A) step :
  0 < step -> step <= length data ->
  let k := (step - length data mod step) mod step in
  align_data_to_step_size data step = Ok (data ++ take k data)
  /\ length (data ++ take k data) = (length data + step - 1) / step * step.
Proof.
  intros Hstep Hlen k.
  destruct (ceil_div_spec (length data) step Hstep) as (Hk & Hceil & _).
  fold k in Hk, Hceil. unfold align_data_to_step_size.
  assert ((step =? 0) = false) as -> by (apply Nat.eqb_neq; lia).
  rewrite Hceil. replace (length data + k - length data) with k by lia.
  split.
  - destruct (0 <? k) eqn:Hpos; [done|].
    apply Nat.ltb_ge in Hpos. replace k with 0 by lia.
    by rewrite take_0, app_nil_r.
  - rewrite length_app, length_take. lia.
Qed.

(** X3.  For data of at least [step_size] elements, alignment appends the
    first [k] elements of the data, with [k < step_size] the least number
    that makes the length a multiple of [step_size]; aligned data comes
    back unchanged (nothing is appended when the length is already a
    multiple), so aligning twice is aligning once. *)
Theorem align_data_to_step_size_least_multiple {A} (data : list A) (step : nat) :
  0 < step -> step <= length data ->
  let k := (step - length data mod step) mod step in
  let aligned := data ++ take k data in
  align_data_to_step_size data step = Ok aligned
  /\ k < step
  /\ length aligned = length data + k
  /\ (length data + k) mod step = 0
  /\ (length data mod step = 0 -> align_data_to_step_size data step = Ok data)
  /\ align_data_to_step_size aligned step = Ok aligned.
Proof.
  intros Hstep Hlen k aligned.
  destruct (ceil_div_spec (length data) step Hstep) as (Hk & Hceil & Hmod).
  destruct (align_data_to_step_size_ok data step Hstep Hlen) as [Hrun Hl].
  fold k in Hk, Hceil, Hmod, Hrun, Hl. fold aligned in Hrun, Hl.
  split; [done|]. split; [done|]. split; [lia|]. split; [done|].
  split.
  - intros Hz. rewrite Hrun. subst aligned k. rewrite Hz, Nat.sub_0_r.
    by rewrite Nat.Div0.mod_same, take_0, app_nil_r.
  - destruct (align_data_to_step_size_ok aligned step Hstep) as [Hagain _];
      [lia|].
    rewrite Hagain.
    assert (length aligned mod step = 0) as -> by (rewrite Hl, Hceil; done).
    by rewrite Nat.sub_0_r, Nat.Div0.mod_same, take_0, app_nil_r.
Qed.

Lemma align_data_to_step_size_least_multiple_witness :
  align_data_to_step_size [1; 2; 3; 4; 5; 6; 7] 3 = Ok [1; 2; 3; 4; 5; 6; 7; 1; 2]
  /\ align_data_to_step_size [1; 2; 3; 4; 5; 6; 7; 1; 2] 3
     = Ok [1; 2; 3; 4; 5; 6; 7; 1; 2].
Proof.
  assert (0 < 3) as H1 by lia.
  assert (3 <= length [1; 2; 3; 4; 5; 6; 7]) as H2 by (simpl; lia).
  destruct (align_data_to_step_size_least_multiple [1; 2; 3; 4; 5; 6; 7] 3 H1 H2)
    as (Hrun & _ & _ & _ & _ & Hagain).
  split; [exact Hrun|exact Hagain].
Defined.

Lemma concat_chunks {A} (l : list A) s m :
  concat ((fun k => take s (drop (k * s) l)) <$> seq 0 m) = take (m * s) l.
Proof.
  induction m as [|m IH]; [done|].
  rewrite seq_S, fmap_app, concat_app, IH. simpl. rewrite app_nil_r.
  rewrite take_take_drop. f_equal. lia.
Qed.

Lemma transform_continuous_data_to_samples_eq self data :
  transform_continuous_data_to_samples self data
  = (fun k => Tensor (array (dtype data)
                        (take (sample_size self)
                           (drop (k * sample_size self) (items data)))))
      <$> seq 0 ((a_len data + sample_size self - 1) / sample_size self).
Proof.
  unfold transform_continuous_data_to_samples, range_step, a_slice, slice.
  rewrite <- list_fmap_compose. apply list_fmap_ext. intros _ k _. simpl.
  do 3 f_equal. lia.
Qed.

(** X4.  Chunking a token stream loses and reorders nothing: the chunks
    concatenated are the stream; there are [ceil(len / sample_size)] of
    them, none is empty or longer than [sample_size], and when the length
    is a multiple of [sample_size] every chunk has exactly [sample_size]
    tokens. *)
Theorem transform_continuous_data_to_samples_round_trip (self : AllamoDataset)
    (data : Array) :
  let chunks := transform_continuous_data_to_samples self data in
  concat (tokens_of <$> chunks) = items data
  /\ length chunks = (a_len data + sample_size self - 1) / sample_size self
  /\ Forall (fun s => exists t, s = Tensor t /\ dtype t = dtype data
                                /\ 0 < a_len t <= sample_size self)
       chunks
  /\ (a_len data mod sample_size self = 0 ->
      Forall (fun s => length (tokens_of s) = sample_size self) chunks).
Proof.
  intros chunks. subst chunks. rewrite transform_continuous_data_to_samples_eq.
  unfold a_len.
  set (ss := sample_size self). set (n := length (items data)).
  assert (0 < ss) as Hss by (subst ss; unfold sample_size; lia).
  destruct (ceil_div_spec n ss Hss) as (Hk & Hceil & Hmod).
  set (m := (n + ss - 1) / ss) in *.
  set (k := (ss - n mod ss) mod ss) in *.
  split.
  { rewrite <- list_fmap_compose.
    change (tokens_of ∘ _) with (fun j => take ss (drop (j * ss) (items data))).
    rewrite concat_chunks. apply take_ge. fold n. lia. }
  split; [by rewrite length_fmap, length_seq|].
  split.
  - apply Forall_fmap, Forall_forall. intros j [_ Hj]%elem_of_seq. simpl.
    eexists. split; [done|]. split; [done|]. simpl.
    rewrite length_take, length_drop. fold n. nia.
  - intros Hz. apply Forall_fmap, Forall_forall. intros j [_ Hj]%elem_of_seq.
    simpl. rewrite length_take, length_drop. fold n.
    assert (k = 0) as Hk0.
    { subst k. rewrite Hz, Nat.sub_0_r. apply Nat.Div0.mod_same. }
    nia.
Qed.

Lemma transform_continuous_data_to_samples_round_trip_witness :
  let self := blank_dataset one_file_config 0 1 in
  let data := array int16 (Z.of_nat <$> seq 1 10) in
  a_len data mod sample_size self = 0
  /\ Forall (fun s => length (tokens_of s) = sample_size self)
       (transform_continuous_data_to_samples self data).
Proof.
  intros self data.
  assert (a_len data mod sample_size self = 0) as Hmul by reflexivity.
  split; [exact Hmul|].
  destruct (transform_continuous_data_to_samples_round_trip self data)
    as (_ & _ & _ & Hexact).
  exact (Hexact Hmul).
Defined.

Lemma limit_samples_to_rank_lookup {A} self (samples : list A) k :
  1 <= world_size self -> rank self < world_size self ->
  limit_samples_to_rank self samples !! k
  = samples !! (rank self + k * world_size self).
Proof.
  intros Hw Hr. unfold limit_samples_to_rank.
  destruct (1 <? world_size self) eqn:Hmulti.
  - apply stride_lookup. lia.
  - apply Nat.ltb_ge in Hmulti. f_equal. nia.
Qed.

Lemma limit_samples_to_rank_length {A} self (samples : list A) m :
  1 <= world_size self -> rank self < world_size self ->
  length samples = m * world_size self ->
  length (limit_samples_to_rank self samples) = m.
Proof.
  intros Hw Hr Hlen. unfold limit_samples_to_rank.
  destruct (1 <? world_size self) eqn:Hmulti.
  - apply stride_length; [lia|done|done].
  - apply Nat.ltb_ge in Hmulti. nia.
Qed.

(** X5.  A continuous token file of fewer than [world_size * sample_size]
    tokens is skipped.  Otherwise the rank gets exactly
    [ceil(len / (world_size * sample_size))] samples, a number that does
    not depend on the rank, and the [k]-th of them is the window of
    exactly [sample_size] tokens that starts at token
    [(rank + k * world_size) * sample_size] of the cyclically padded
    stream. *)
Theorem load_continuous_equal_shards (self : AllamoDataset) (tokens : Array) :
  1 <= world_size self -> rank self < world_size self ->
  let ss := sample_size self in
  let step := world_size self * ss in
  (a_len tokens < step -> load_continuous self tokens = Ok None)
  /\ (step <= a_len tokens ->
      exists aligned shard,
        align_data_to_step_size (items tokens) step = Ok aligned
        /\ load_continuous self tokens = Ok (Some shard)
        /\ length shard = (a_len tokens + step - 1) / step
        /\ 0 < length shard
        /\ forall k, k < length shard ->
             exists t,
               shard !! k = Some (Tensor t)
               /\ t = array (dtype tokens)
                        (take ss (drop ((rank self + k * world_size self) * ss)
                                    aligned))
               /\ a_len t = ss).
Proof.
  intros Hw Hr ss step. unfold load_continuous. fold ss step. split.
  - intros Hshort. apply Nat.ltb_lt in Hshort. by rewrite Hshort.
  - intros Hlong. apply Nat.ltb_ge in Hlong as Hlong'. rewrite Hlong'.
    unfold a_len in *.
    assert (0 < ss) as Hss by (subst ss; unfold sample_size; lia).
    assert (0 < step) as Hstep by (subst step; nia).
    destruct (align_data_to_step_size_ok (items tokens) step Hstep Hlong)
      as [Hal Hlen].
    set (aligned := items tokens
                    ++ take ((step - length (items tokens) mod step) mod step)
                         (items tokens)) in *.
    set (m := (length (items tokens) + step - 1) / step) in *.
    rewrite Hal. simpl.
    set (data := {| dtype := dtype tokens; items := aligned |}).
    exists aligned, (limit_samples_to_rank self
                       (transform_continuous_data_to_samples self data)).
    split; [done|]. split; [done|].
    assert (length (transform_continuous_data_to_samples self data)
            = m * world_size self) as Hchunks.
    { apply transform_continuous_data_to_samples_length. fold ss.
      unfold a_len. simpl. rewrite Hlen. subst step. lia. }
    assert (length (limit_samples_to_rank self
                      (transform_continuous_data_to_samples self data)) = m)
      as Hshard by by apply limit_samples_to_rank_length.
    split; [done|].
    assert (0 < m) as Hm.
    { destruct m; [|lia]. unfold aligned in Hlen.
      rewrite length_app in Hlen. simpl in Hlen. lia. }
    split; [lia|]. rewrite Hshard. intros k Hk.
    eexists. split; [|split; [reflexivity|]].
    + rewrite limit_samples_to_rank_lookup by done.
      rewrite transform_continuous_data_to_samples_eq, list_lookup_fmap.
      fold ss. unfold a_len. simpl. rewrite Hlen.
      replace ((m * step + ss - 1) / ss) with (m * world_size self).
      * rewrite lookup_seq_lt by nia. done.
      * apply (Nat.div_unique _ _ _ (ss - 1)); [lia|]. subst step. nia.
    + simpl. rewrite length_take, length_drop, Hlen. subst step. nia.
Qed.

Lemma load_continuous_equal_shards_witness :
  load_continuous (blank_dataset two_file_config 1 2)
    (array int16 (Z.of_nat <$> seq 1 11))
  = Ok (Some [Tensor (array int16 [6; 7; 8; 9; 10]%Z);
              Tensor (array int16 [5; 6; 7; 8; 9]%Z)])
  /\ load_continuous (blank_dataset two_file_config 1 2)
       (array int16 (Z.of_nat <$> seq 1 9))
     = Ok None.
Proof.
  assert (1 <= world_size (blank_dataset two_file_config 1 2)) as H1
    by (simpl; lia).
  assert (rank (blank_dataset two_file_config 1 2)
          < world_size (blank_dataset two_file_config 1 2)) as H2
    by (simpl; lia).
  destruct (load_continuous_equal_shards (blank_dataset two_file_config 1 2)
              (array int16 (Z.of_nat <$> seq 1 9)) H1 H2) as [Hskip _].
  split; [reflexivity|]. apply Hskip. vm_compute. lia.
Defined.

(** X6.  A sample list of fewer than [world_size] samples is skipped, and
    so is any object that is not a list.  Otherwise every rank gets the
    same number [ceil(n / world_size)] of samples, and the shards of all
    ranks together hold every sample of the file, the first [k] samples
    twice, with [k < world_size] the least number that makes [n + k] a
    multiple of [world_size]. *)
Theorem align_and_limit_to_rank_covers (self : AllamoDataset) (l : list Sample) :
  1 <= world_size self ->
  let w := world_size self in
  (forall r, align_and_limit_to_rank (on_rank self r) PyOther = Ok None)
  /\ (length l < w ->
      forall r, align_and_limit_to_rank (on_rank self r) (PyList l) = Ok None)
  /\ (w <= length l ->
      let k := (w - length l mod w) mod w in
      k < w
      /\ (forall r, r < w ->
            exists shard,
              align_and_limit_to_rank (on_rank self r) (PyList l) = Ok (Some shard)
              /\ length shard = (length l + w - 1) / w)
      /\ forall shards,
           Forall2 (fun r shard =>
                      align_and_limit_to_rank (on_rank self r) (PyList l)
                      = Ok (Some shard)) (seq 0 w) shards ->
           concat shards ≡ₚ l ++ take k l).
Proof.
  intros Hw w. split; [done|]. split.
  - intros Hshort r. unfold align_and_limit_to_rank. simpl. fold w.
    apply Nat.ltb_lt in Hshort. by rewrite Hshort.
  - intros Hlong k.
    destruct (ceil_div_spec (length l) w Hw) as (Hk & Hceil & _). fold k in Hk, Hceil.
    destruct (align_data_to_step_size_ok l w Hw Hlong) as [Hal Hlen].
    fold k in Hal, Hlen.
    assert (forall r, align_and_limit_to_rank (on_rank self r) (PyList l)
                      = Ok (Some (limit_samples_to_rank (on_rank self r)
                                    (l ++ take k l)))) as Hrun.
    { intros r. unfold align_and_limit_to_rank. simpl. fold w.
      apply Nat.ltb_ge in Hlong. rewrite Hlong, Hal. done. }
    split; [done|]. split.
    + intros r Hr. eexists. split; [apply Hrun|].
      apply limit_samples_to_rank_length; simpl; try done; fold w; lia.
    + intros shards Hshards.
      assert (shards = (fun r => limit_samples_to_rank (on_rank self r)
                                   (l ++ take k l)) <$> seq 0 w) as ->.
      { pose proof (Forall2_length _ _ _ Hshards) as Hsl.
        rewrite length_seq in Hsl.
        apply list_eq. intros i. rewrite list_lookup_fmap.
        destruct (decide (i < w)) as [Hi|Hi].
        - rewrite lookup_seq_lt by done. simpl.
          destruct (Forall2_lookup_l _ _ _ i i Hshards) as (shard & Hs & Hr);
            [by apply lookup_seq_lt|].
          rewrite Hrun in Hr. injection Hr as <-. done.
        - rewrite lookup_seq_ge by lia. apply lookup_ge_None. lia. }
      unfold limit_samples_to_rank. simpl. fold w.
      destruct (1 <? w) eqn:Hmulti.
      * apply stride_all_Permutation. lia.
      * apply Nat.ltb_ge in Hmulti. replace w with 1 by lia. simpl.
        by rewrite app_nil_r.
Qed.

Lemma align_and_limit_to_rank_covers_witness :
  let self := blank_dataset (config_sft 4 0 false) 0 2 in
  let l := [Tensor (array int16 [1]%Z); Tensor (array int16 [2]%Z); Tensor (array int16 [3]%Z)] in
  align_and_limit_to_rank (on_rank self 0) (PyList l)
    = Ok (Some [Tensor (array int16 [1]%Z); Tensor (array int16 [3]%Z)])
  /\ align_and_limit_to_rank (on_rank self 1) (PyList l)
     = Ok (Some [Tensor (array int16 [2]%Z); Tensor (array int16 [1]%Z)])
  /\ [Tensor (array int16 [1]%Z); Tensor (array int16 [3]%Z)] ++ [Tensor (array int16 [2]%Z); Tensor (array int16 [1]%Z)]
     ≡ₚ l ++ [Tensor (array int16 [1]%Z)].
Proof.
  intros self l.
  assert (1 <= world_size self) as H1 by (simpl; lia).
  assert (world_size self <= length l) as H2 by (simpl; lia).
  destruct (align_and_limit_to_rank_covers self l H1) as (_ & _ & Hcover).
  destruct (Hcover H2) as (_ & _ & Hperm).
  split; [reflexivity|]. split; [reflexivity|].
  specialize (Hperm [[Tensor (array int16 [1]%Z); Tensor (array int16 [3]%Z)]; [Tensor (array int16 [2]%Z); Tensor (array int16 [1]%Z)]]).
  simpl in Hperm. apply Hperm. repeat constructor.
Defined.

(** ** Load-time normalisation of [.pt] sample lists *)

Lemma fit_field_without_pad self fill x :
  (pad_token_id (config self) < 0)%Z ->
  fit_field self fill x = Ok (a_take (block_size (config self)) x).
Proof.
  intros Hpad. unfold fit_field, sample_size, a_len, a_take.
  assert ((0 <=? pad_token_id (config self))%Z = false) as ->
    by (apply Z.leb_gt; lia).
  simpl. set (bs := block_size (config self)).
  destruct (bs + 1 <=? length (items x)) eqn:Hlong.
  - do 3 f_equal. lia.
  - apply Nat.leb_gt in Hlong. rewrite take_ge by lia. by destruct x.
Qed.

(** X7.  Normalising a dict sample is idempotent: a sample that passed
    [pad_or_truncate_to_block_size] passes it again unchanged.  (One dict
    object can sit in two slots of an aligned list.) *)
Theorem pad_or_truncate_sample_idempotent (self : AllamoDataset) (d : Dict)
    (s' : Sample) :
  pad_or_truncate_sample self (DictSample d) = Ok s' ->
  pad_or_truncate_sample self s' = Ok s'.
Proof.
  unfold pad_or_truncate_sample at 1.
  destruct (input_ids d) as [i|]; cbn [mbind res_bind]; [|done].
  set (ignore := ignore_index (config self)).
  set (t := match target_ids d with Some t => t | None => a_drop 1 i end).
  assert (forall ks,
            (match target_ids d with
             | Some t => (t, ks)
             | None => (a_drop 1 i, keys_set "target_ids" ks)
             end) = (t, match target_ids d with
                        | Some _ => ks
                        | None => keys_set "target_ids" ks
                        end)) as Htk
    by (intros ks; subst t; by destruct (target_ids d)).
  rewrite Htk. clear Htk.
  set (ks1 := match target_ids d with
              | Some _ => keys d
              | None => keys_set "target_ids" (keys d)
              end).
  destruct (weighted_loss (config self)) eqn:Hw.
  - set (w := match target_weights d with
              | Some w => w
              | None => where_not_ignored ignore t
              end).
    assert ((match target_weights d with
             | Some w => (Some w, ks1)
             | None => (Some (where_not_ignored ignore t),
                        keys_set "target_weights" ks1)
             end) = (Some w, match target_weights d with
                             | Some _ => ks1
                             | None => keys_set "target_weights" ks1
                             end)) as ->
      by (subst w; by destruct (target_weights d)).
    destruct (fit_field self ignore i) as [i'|e] eqn:Hi'; [|done].
    cbn [mbind res_bind].
    destruct (fit_field self ignore t) as [t'|e] eqn:Ht'; [|done].
    cbn [mbind res_bind].
    destruct (fit_field self 0%Z w) as [w'|e] eqn:Hw'; [|done].
    cbn [mbind res_bind].
    destruct (a_len i' =? a_len t') eqn:H1; cbn [assert mbind res_bind]; [|done].
    destruct (a_len i' =? a_len w') eqn:H2; cbn [assert mbind res_bind]; [|done].
    intros [= <-]. unfold pad_or_truncate_sample.
    cbn [input_ids target_ids target_weights keys mbind res_bind].
    fold ignore. rewrite Hw.
    rewrite (proj1 (fit_field_Ok _ _ _ _ Hi')), (proj1 (fit_field_Ok _ _ _ _ Ht')),
      (proj1 (fit_field_Ok _ _ _ _ Hw')).
    cbn [mbind res_bind]. rewrite H1. cbn [assert mbind res_bind].
    rewrite H2. done.
  - assert ((match target_weights d with
             | Some _ => (None, keys_del "target_weights" ks1)
             | None => (None, ks1)
             end) = (None : option Array,
                     match target_weights d with
                     | Some _ => keys_del "target_weights" ks1
                     | None => ks1
                     end)) as ->
      by (by destruct (target_weights d)).
    destruct (fit_field self ignore i) as [i'|e] eqn:Hi'; [|done].
    cbn [mbind res_bind].
    destruct (fit_field self ignore t) as [t'|e] eqn:Ht'; [|done].
    cbn [mbind res_bind].
    destruct (a_len i' =? a_len t') eqn:H1; cbn [assert mbind res_bind]; [|done].
    intros [= <-]. unfold pad_or_truncate_sample.
    cbn [input_ids target_ids target_weights keys mbind res_bind].
    fold ignore. rewrite Hw.
    rewrite (proj1 (fit_field_Ok _ _ _ _ Hi')), (proj1 (fit_field_Ok _ _ _ _ Ht')).
    cbn [mbind res_bind]. rewrite H1. done.
Qed.

Lemma pad_or_truncate_sample_idempotent_witness :
  let self := blank_dataset (config_sft 4 0 true) 0 1 in
  let s' := DictSample (raw_sample (array int64 [1; 2; -100; -100]%Z)
                          (array int64 [2; 3; -100; -100]%Z)
                          (Some (array int64 [1; 1; 0; 0]%Z)) None) in
  pad_or_truncate_sample self
    (DictSample (raw_sample (array int16 [1; 2]%Z) (array int16 [2; 3]%Z)
                   None None))
    = Ok s'
  /\ pad_or_truncate_sample self s' = Ok s'.
Proof.
  intros self s'.
  assert (pad_or_truncate_sample self
            (DictSample (raw_sample (array int16 [1; 2]%Z)
                           (array int16 [2; 3]%Z) None None)) = Ok s') as H
    by reflexivity.
  split; [exact H|].
  exact (pad_or_truncate_sample_idempotent self _ s' H).
Defined.

(** A dict without ['input_ids'] is refused with a message that lists the
    keys it has. *)
Example pad_or_truncate_sample_without_input :
  pad_or_truncate_sample (blank_dataset (config_sft 4 0 false) 0 1)
    (DictSample
       {| keys := ["target_ids"; "seq_lens"];
          input_ids := None; target_ids := Some (array int64 [2; 3]%Z);
          target_weights := None; seq_lens := Some [2];
          input_pos := None; attn_mask := None;
          chosen_input_ids := None; chosen_target_ids := None;
          rejected_input_ids := None; rejected_target_ids := None;
          reference_chosen_logps := None;
          reference_rejected_logps := None |})
  = Raise (Exception
             "'input_ids' field not found in sample! Available keys: target_ids, seq_lens").
Proof. reflexivity. Qed.

(** X8.  Without a pad token ([pad_token_id < 0]) the normalisation of a
    dict sample never pads: a sample without ['target_ids'] whose input has
    between 1 and [block_size] tokens is rejected by the length assertion
    (the derived targets are one token shorter than the input); a sample
    whose input and targets have equal length is accepted, each field cut
    to its first [block_size] entries, and without weighted loss its
    ['target_weights'] are removed. *)
Theorem pad_or_truncate_sample_without_pad (self : AllamoDataset) (d : Dict)
    (i : Array) :
  (pad_token_id (config self) < 0)%Z ->
  input_ids d = Some i ->
  let bs := block_size (config self) in
  (target_ids d = None -> 0 < a_len i <= bs ->
   pad_or_truncate_sample self (DictSample d) = Raise (AssertionError EmptyString))
  /\ (forall t, target_ids d = Some t -> a_len t = a_len i ->
        weighted_loss (config self) = false ->
        exists d',
          pad_or_truncate_sample self (DictSample d) = Ok (DictSample d')
          /\ input_ids d' = Some (a_take bs i)
          /\ target_ids d' = Some (a_take bs t)
          /\ target_weights d' = None).
Proof.
  intros Hpad Hi bs. split.
  - intros Ht Hlen. unfold pad_or_truncate_sample. rewrite Hi, Ht.
    cbn [mbind res_bind].
    assert ((a_len (a_take bs i) =? a_len (a_take bs (a_drop 1 i))) = false)
      as Hne.
    { unfold a_len in *. cbn [a_take a_drop items].
      rewrite !length_take, length_drop. apply Nat.eqb_neq. lia. }
    destruct (weighted_loss (config self)); destruct (target_weights d);
      rewrite !fit_field_without_pad by done; fold bs;
      cbn [mbind res_bind]; by rewrite Hne.
  - intros t Ht Hlen Hw. unfold pad_or_truncate_sample.
    rewrite Hi, Ht, Hw. cbn [mbind res_bind].
    assert ((a_len (a_take bs i) =? a_len (a_take bs t)) = true) as Heq.
    { unfold a_len in *. cbn [a_take items].
      rewrite !length_take, Hlen. apply Nat.eqb_refl. }
    destruct (target_weights d);
      rewrite !fit_field_without_pad by done; fold bs;
      cbn [mbind res_bind]; rewrite Heq; cbn [assert mbind res_bind];
      (eexists; split; [reflexivity|]); done.
Qed.

Lemma pad_or_truncate_sample_without_pad_witness :
  let self := blank_dataset (config_sft 4 (-1) false) 0 1 in
  let sample := {| keys := ["input_ids"];
                   input_ids := Some (array int64 [1; 2; 3]%Z);
                   target_ids := None;
                   target_weights := None; seq_lens := None;
                   input_pos := None; attn_mask := None;
                   chosen_input_ids := None; chosen_target_ids := None;
                   rejected_input_ids := None; rejected_target_ids := None;
                   reference_chosen_logps := None;
                   reference_rejected_logps := None |} in
  pad_or_truncate_sample self (DictSample sample)
  = Raise (AssertionError EmptyString).
Proof.
  intros self sample.
  assert (pad_token_id (config self) < 0)%Z as Hpad by (simpl; lia).
  assert (0 < a_len (array int64 [1; 2; 3]%Z) <= block_size (config self))
    as Hlen by (vm_compute; lia).
  exact (proj1 (pad_or_truncate_sample_without_pad self sample
                  (array int64 [1; 2; 3]%Z) Hpad eq_refl) eq_refl Hlen).
Defined.

Lemma masked_fill_eq_scalar x v u :
  fits (dtype x) u = true ->
  masked_fill x (eq_scalar x v) u
  = Ok (array (dtype x) ((fun y => if (y =? v)%Z then u else y) <$> items x)).
Proof.
  intros Hfits. unfold masked_fill, eq_scalar. rewrite Hfits.
  by rewrite zip_with_fmap_r, zip_with_diag.
Qed.

(** X9.  A token window in a [.pt] sample list, normalised with a pad
    token ([pad_token_id >= 0]), is cut or extended with the ignore
    sentinel to [sample_size] tokens; a window that had to be extended is
    an [int64] tensor, a full one keeps the element type of the stored
    tensor.  When the pad token does not fit that element type the
    normalisation raises a [RuntimeError] (the [masked_fill] of the
    input).  When it fits, the ignore sentinel fits as well and the two
    differ, the window becomes a dict whose three fields have exactly
    [block_size] entries: the targets are the window shifted by one token,
    the input is the window with every ignore sentinel replaced by the pad
    token (so it never holds the ignore sentinel), and the weights,
    produced whether or not weighted loss is configured, are 0 exactly
    where the target is the ignore sentinel and 1 elsewhere.  Without a
    pad token the window stays a tensor, cut to at most [sample_size]
    tokens. *)
Theorem pad_or_truncate_sample_tensor (self : AllamoDataset) (t : Array) :
  let ss := sample_size self in
  let bs := block_size (config self) in
  let pad := pad_token_id (config self) in
  let ignore := ignore_index (config self) in
  let window := take ss (items t) ++ replicate (ss - a_len t) ignore in
  let wtype := if a_len t <? ss then int64 else dtype t in
  ((0 <= pad)%Z -> fits wtype pad = false ->
   pad_or_truncate_sample self (Tensor t) = Raise RuntimeError)
  /\ ((0 <= pad)%Z -> pad <> ignore ->
      fits wtype pad = true -> fits wtype ignore = true ->
      exists d i tg w,
        pad_or_truncate_sample self (Tensor t) = Ok (DictSample d)
        /\ input_ids d = Some i /\ target_ids d = Some tg
        /\ target_weights d = Some w
        /\ dtype i = wtype /\ dtype tg = wtype
        /\ a_len i = bs /\ a_len tg = bs /\ a_len w = bs
        /\ items tg = drop 1 window
        /\ (forall k x, k < bs -> window !! k = Some x ->
              items i !! k = Some (if decide (x = ignore) then pad else x))
        /\ (ignore ∉ items i)
        /\ (forall k x, items tg !! k = Some x ->
              items w !! k = Some (if decide (x = ignore) then 0%Z else 1%Z)))
  /\ ((pad < 0)%Z ->
      pad_or_truncate_sample self (Tensor t) = Ok (Tensor (a_take ss t))).
Proof.
  intros ss bs pad ignore window wtype.
  assert (ss = bs + 1) as Hss by reflexivity.
  set (cut := if ss <? a_len t then a_take ss t else t).
  assert (a_len cut = a_len t `min` ss /\ dtype cut = dtype t
          /\ items cut = take ss (items t)) as (Hlc & Hdc & Hic).
  { subst cut. unfold a_len, a_take. destruct (ss <? length (items t)) eqn:Hlong.
    - apply Nat.ltb_lt in Hlong. cbn [items dtype]. rewrite length_take.
      split; [lia|done].
    - apply Nat.ltb_ge in Hlong. rewrite take_ge by done. split; [lia|done]. }
  assert ((a_len cut <? ss) = (a_len t <? ss)) as Hshort.
  { rewrite Hlc. destruct (a_len t <? ss) eqn:H.
    - apply Nat.ltb_lt in H. apply Nat.ltb_lt. lia.
    - apply Nat.ltb_ge in H. apply Nat.ltb_ge. lia. }
  assert (length window = ss) as Hlw.
  { subst window. unfold a_len.
    rewrite length_app, length_take, length_replicate. lia. }
  assert (fits wtype ignore = true ->
          (if a_len cut <? ss
           then padding ← torch_full (ss - a_len cut) ignore;
                Ok (torch_cat cut padding)
           else Ok cut) = Ok (array wtype window)) as Hwin.
  { subst window wtype. rewrite Hshort. unfold torch_full, torch_cat.
    destruct (a_len t <? ss) eqn:H.
    - intros ->. cbn [mbind res_bind items dtype]. rewrite Hdc, Hic, Hlc.
      apply Nat.ltb_lt in H. do 2 f_equal; [by destruct (dtype t)|].
      do 2 f_equal. lia.
    - intros _. apply Nat.ltb_ge in H.
      replace (ss - a_len t) with 0 by lia. rewrite app_nil_r.
      rewrite <- Hdc, <- Hic. by destruct cut. }
  split; [|split].
  - intros Hpad Hover. unfold pad_or_truncate_sample.
    fold ss pad ignore cut. apply Z.leb_le in Hpad. rewrite Hpad.
    destruct (fits wtype ignore) eqn:Hfi.
    + rewrite (Hwin eq_refl). cbn [mbind res_bind].
      unfold masked_fill. cbn [a_take dtype]. by rewrite Hover.
    + rewrite Hshort. subst wtype. destruct (a_len t <? ss).
      * unfold torch_full. by rewrite Hfi.
      * cbn [mbind res_bind]. unfold masked_fill. cbn [a_take dtype].
        by rewrite Hdc, Hover.
  - intros Hpad Hne Hfp Hfi. unfold pad_or_truncate_sample.
    fold ss pad ignore cut. apply Z.leb_le in Hpad as Hpad'. rewrite Hpad'.
    rewrite (Hwin Hfi). cbn [mbind res_bind].
    rewrite masked_fill_eq_scalar by done. cbn [mbind res_bind].
    eexists _, _, _, _. split; [reflexivity|].
    cbn [input_ids target_ids target_weights].
    split; [reflexivity|]. split; [reflexivity|]. split; [reflexivity|].
    split; [reflexivity|]. split; [reflexivity|].
    unfold a_len. rewrite where_not_ignored_items.
    cbn [a_take a_drop items dtype]. rewrite Hlw.
    split; [rewrite length_fmap, length_take; lia|].
    split; [rewrite length_drop; lia|].
    split; [rewrite length_fmap, length_drop; lia|].
    split; [done|].
    split.
    { intros k x Hk Hx. rewrite list_lookup_fmap, lookup_take_lt by lia.
      rewrite Hx. simpl. f_equal.
      destruct (Z.eqb_spec x ignore); by case_decide. }
    split.
    { intros [x [Hx _]]%list_elem_of_fmap.
      destruct (Z.eqb_spec x ignore); congruence. }
    intros k x Hk. rewrite list_lookup_fmap, Hk.
    simpl. f_equal. destruct (Z.eqb_spec x ignore); by case_decide.
  - intros Hpad. unfold pad_or_truncate_sample. fold ss pad.
    assert ((0 <=? pad)%Z = false) as -> by (apply Z.leb_gt; lia).
    destruct (ss <? a_len t) eqn:Hlong; [done|].
    apply Nat.ltb_ge in Hlong. unfold a_take, a_len in *.
    rewrite take_ge by done. by destruct t.
Qed.

Lemma pad_or_truncate_sample_tensor_witness :
  let self := blank_dataset (config_sft 4 40000 false) 0 1 in
  (0 <= pad_token_id (config self))%Z
  /\ pad_or_truncate_sample self (Tensor (array int16 [1; 2; 3; 4; 5]%Z))
     = Raise RuntimeError
  /\ pad_or_truncate_sample self (Tensor (array int16 [1; 2; 3]%Z))
     = Ok (DictSample (raw_sample (array int64 [1; 2; 3; 40000]%Z)
                         (array int64 [2; 3; -100; -100]%Z)
                         (Some (array int64 [1; 1; 0; 0]%Z)) None)).
Proof.
  intros self.
  assert (0 <= pad_token_id (config self))%Z as H1 by (simpl; lia).
  split; [exact H1|]. split.
  - exact (proj1 (pad_or_truncate_sample_tensor self
                    (array int16 [1; 2; 3; 4; 5]%Z)) H1 eq_refl).
  - reflexivity.
Defined.

(** ** Materialisation: the remaining cases *)

Lemma packed_layout_full lens n :
  n <= sum_list lens ->
  packed_layout lens n
  = Ok (concat (seq 0 <$> lens), block_diag (tril_ones <$> lens)).
Proof.
  intros Hle. unfold packed_layout. rewrite seq_lens_loop_eq.
  by assert ((sum_list lens <? n) = false) as -> by (apply Nat.ltb_ge; lia).
Qed.

Lemma block_diag_rows_snoc_empty ms :
  block_diag_rows (ms ++ [[]]) = block_diag_rows ms.
Proof.
  induction ms as [|m ms IH]; [done|].
  rewrite <- app_comm_cons, !block_diag_rows_cons. by rewrite IH.
Qed.

Lemma block_diag_snoc_empty_aux ms :
  ms <> [] -> block_diag ms = block_diag_rows (ms ++ [[]]).
Proof.
  intros Hne. rewrite block_diag_rows_snoc_empty. by destruct ms.
Qed.

Lemma positions_length lens : length (concat (seq 0 <$> lens)) = sum_list lens.
Proof.
  induction lens as [|n rest IH]; [done|].
  rewrite fmap_cons. cbn [concat sum_list_with].
  by rewrite length_app, length_seq, IH.
Qed.

Lemma pad_to_block_Ok self v x x' :
  pad_to_block self v x = Ok x' -> x' = padded self v x /\ unpaddable self v x = false.
Proof.
  intros Hrun. split; [by apply pad_to_block_inv|].
  unfold unpaddable. destruct (a_len x <? padded_length self x) eqn:Hlt; [|done].
  apply Nat.ltb_lt in Hlt. destruct (fits (dtype x) v) eqn:Hfits; [done|].
  by rewrite (pad_to_block_overflow _ _ _ Hlt Hfits) in Hrun.
Qed.

Lemma pad_to_block_Raise self v x e :
  pad_to_block self v x = Raise e ->
  e = RuntimeError /\ unpaddable self v x = true.
Proof.
  intros Hrun. unfold unpaddable.
  destruct (a_len x <? padded_length self x) eqn:Hlt.
  - destruct (fits (dtype x) v) eqn:Hfits.
    + by rewrite (pad_to_block_fits _ _ _ Hfits) in Hrun.
    + apply Nat.ltb_lt in Hlt.
      rewrite (pad_to_block_overflow _ _ _ Hlt Hfits) in Hrun.
      by injection Hrun as <-.
  - apply Nat.ltb_ge in Hlt. pose proof (padded_length_ge self x).
    rewrite pad_to_block_full in Hrun by lia. done.
Qed.

Lemma a_len_padded self v x : a_len (padded self v x) = padded_length self x.
Proof.
  pose proof (padded_length_ge self x) as Hge. unfold padded, a_len in *.
  cbn [items]. rewrite length_app, length_replicate. lia.
Qed.

(** X10.  For a packed ALM sample with a non-empty [seq_lens] list whose
    total reaches the (padded) input length, and whose pad token and
    ignore sentinel fit the element types of the stored ['input_ids'] and
    ['target_ids'], materialisation adds no pad block: [input_pos] is the
    concatenation of [0..len-1] over the sub-sequences and [attn_mask] is
    the block-diagonal matrix of the causal blocks alone.  Both have the
    size of the [seq_lens] total, also when that exceeds the input length;
    entry [(r, c)] of the mask is set exactly when [c] lies between the
    start of the sub-sequence of [r] and [r]. *)
Theorem packed_sample_without_padding (self : AllamoDataset) (d : Dict)
    (i t : Array) (lens : list nat) :
  training_type (config self) <> "dpo" ->
  input_ids d = Some i -> target_ids d = Some t -> seq_lens d = Some lens ->
  lens <> [] ->
  fits (dtype i) (pad_token_id (config self)) = true ->
  fits (dtype t) (ignore_index (config self)) = true ->
  padded_length self i <= sum_list lens ->
  exists d' pos mask,
    prepare_alm_sample self (DictSample d) = Ok (DictSample d')
    /\ input_pos d' = Some pos /\ attn_mask d' = Some mask
    /\ pos = concat (seq 0 <$> lens)
    /\ length pos = sum_list lens
    /\ length mask = sum_list lens
    /\ (forall r c, r < sum_list lens -> c < sum_list lens ->
          entry mask r c = Some (bool_decide (block_start lens r <= c <= r))).
Proof.
  intros Hdpo Hi Ht Hlens Hne Hfi Hft Hfull.
  destruct (prepare_alm_sample_padded self d i t _ _ Hdpo Hi Ht
              (pad_to_block_fits _ _ _ Hfi) (pad_to_block_fits _ _ _ Hft))
    as (w' & _ & ->).
  rewrite Hlens.
  change (array (dtype i) _) with (padded self (pad_token_id (config self)) i).
  rewrite a_len_padded.
  rewrite (packed_layout_full _ _ Hfull). cbn [mbind res_bind].
  eexists _, _, _. split; [reflexivity|]. cbn [input_pos attn_mask].
  split; [reflexivity|]. split; [reflexivity|]. split; [reflexivity|].
  split; [apply positions_length|].
  assert (block_diag (tril_ones <$> lens)
          = block_diag_rows ((tril_ones <$> lens) ++ [eye 0])) as ->.
  { change (eye 0) with ([] : list (list bool)).
    rewrite block_diag_snoc_empty_aux; [done|].
    by destruct lens. }
  pose proof (square_block_diag_rows _ _ (causal_blocks_square lens 0)) as [Hl _].
  rewrite sum_list_snoc, Nat.add_0_r in Hl. split; [done|].
  intros r c Hr Hc. apply entry_causal_blocks; lia.
Qed.

Lemma packed_sample_without_padding_witness :
  let self := blank_dataset (config_sft 4 0 false) 0 1 in
  let sample := raw_sample (array int16 [11; 12; 21; 22]%Z)
                  (array int16 [12; 0; 22; 0]%Z) None (Some [2; 2]) in
  exists d',
    prepare_alm_sample self (DictSample sample) = Ok (DictSample d')
    /\ input_pos d' = Some [0; 1; 0; 1]
    /\ attn_mask d' = Some [[true; false; false; false];
                            [true; true; false; false];
                            [false; false; true; false];
                            [false; false; true; true]].
Proof.
  intros self sample.
  assert (training_type (config self) <> "dpo") as Hdpo by discriminate.
  assert ([2; 2] <> ([] : list nat)) as Hne by discriminate.
  assert (padded_length self (array int16 [11; 12; 21; 22]%Z)
          <= sum_list [2; 2]) as Hfull
    by (vm_compute; lia).
  destruct (packed_sample_without_padding self sample
              (array int16 [11; 12; 21; 22]%Z) (array int16 [12; 0; 22; 0]%Z)
              [2; 2] Hdpo eq_refl eq_refl eq_refl Hne eq_refl eq_refl Hfull)
    as (d' & pos & mask & Hrun & Hpos & Hmask & _).
  vm_compute in Hrun. injection Hrun as <-.
  eexists. split; [reflexivity|]. split; reflexivity.
Defined.

Lemma filter_nonzero_nil lens :
  filter (fun x => x <> 0) lens = [] <-> Forall (fun x => x = 0) lens.
Proof.
  induction lens as [|x rest IH]; [by split; [constructor|]|].
  destruct x as [|x].
  - rewrite filter_cons_False by lia. rewrite IH. split.
    + by constructor.
    + by intros [_ ?]%Forall_cons.
  - rewrite filter_cons_True by lia. split; [done|].
    intros [? _]%Forall_cons. lia.
Qed.

(** X11.  Outside preference training, materialising a dict sample fails
    in these cases, checked in this order: ['input_ids'] is missing
    ([KeyError]); ['target_ids'] is missing ([KeyError]); the input, or
    else the targets, must be extended to [block_size] and the element
    type of the stored array cannot hold the pad token, respectively the
    ignore sentinel ([RuntimeError]); the sample carries [seq_lens]
    without any token (empty or all zero) whose total is below the padded
    input length ([IndexError]).  A sample that passes has none of these
    defects.  A sample that is not a dict raises an [IndexError]. *)
Theorem prepare_alm_sample_failures (self : AllamoDataset) (d : Dict) :
  training_type (config self) <> "dpo" ->
  let pad := pad_token_id (config self) in
  let ignore := ignore_index (config self) in
  (forall t, prepare_alm_sample self (Tensor t) = Raise IndexError)
  /\ match prepare_alm_sample self (DictSample d) with
     | Ok _ =>
         exists i t,
           input_ids d = Some i /\ target_ids d = Some t
           /\ unpaddable self pad i = false
           /\ unpaddable self ignore t = false
           /\ (forall lens,
                 seq_lens d = Some lens ->
                 sum_list lens < padded_length self i ->
                 exists x, x ∈ lens /\ x <> 0)
     | Raise e =>
         (input_ids d = None /\ e = KeyError "input_ids")
         \/ (is_Some (input_ids d) /\ target_ids d = None
             /\ e = KeyError "target_ids")
         \/ (exists i t,
               input_ids d = Some i /\ target_ids d = Some t
               /\ (unpaddable self pad i = true
                   \/ unpaddable self ignore t = true)
               /\ e = RuntimeError)
         \/ (exists i t lens,
               input_ids d = Some i /\ target_ids d = Some t
               /\ unpaddable self pad i = false
               /\ unpaddable self ignore t = false
               /\ seq_lens d = Some lens
               /\ sum_list lens < padded_length self i
               /\ Forall (fun x => x = 0) lens
               /\ e = IndexError)
     end.
Proof.
  intros Hdpo pad ignore. split.
  { intros t. unfold prepare_alm_sample. by rewrite (not_dpo _ Hdpo). }
  destruct (input_ids d) as [i|] eqn:Hi.
  2:{ unfold prepare_alm_sample. rewrite (not_dpo _ Hdpo), Hi. by left. }
  destruct (target_ids d) as [t|] eqn:Ht.
  2:{ unfold prepare_alm_sample. rewrite (not_dpo _ Hdpo), Hi, Ht.
      right; left. eauto. }
  destruct (pad_to_block self pad i) as [i'|e] eqn:Hi'.
  2:{ unfold prepare_alm_sample. rewrite (not_dpo _ Hdpo), Hi, Ht.
      cbn [getkey mbind res_bind]. fold pad. rewrite Hi'.
      apply pad_to_block_Raise in Hi' as [-> Hun].
      right; right; left. exists i, t. eauto. }
  destruct (pad_to_block self ignore t) as [t'|e] eqn:Ht'.
  2:{ unfold prepare_alm_sample. rewrite (not_dpo _ Hdpo), Hi, Ht.
      cbn [getkey mbind res_bind]. fold pad ignore. rewrite Hi'.
      cbn [mbind res_bind]. rewrite Ht'.
      apply pad_to_block_Raise in Ht' as [-> Hun].
      right; right; left. exists i, t. eauto. }
  destruct (prepare_alm_sample_padded self d i t _ _ Hdpo Hi Ht Hi' Ht')
    as (w' & _ & ->).
  apply pad_to_block_Ok in Hi' as [-> Hui], Ht' as [-> Hut].
  rewrite a_len_padded. set (n := padded_length self i).
  destruct (seq_lens d) as [lens|] eqn:Hlens; cbn [mbind res_bind].
  - destruct (decide (sum_list lens < n)) as [Hlt|Hge].
    + destruct (filter (fun x => x <> 0) lens) as [|x rest] eqn:Hf.
      * rewrite (packed_layout_no_token _ _ Hlt Hf). cbn [mbind res_bind].
        right; right; right. exists i, t, lens.
        apply filter_nonzero_nil in Hf. repeat split; eauto.
      * destruct (last (filter (fun x => x <> 0) lens)) as [l|] eqn:Hlast.
        -- rewrite (packed_layout_ok _ _ _ Hlt Hlast). cbn [mbind res_bind].
           exists i, t. repeat (split; [done|]).
           intros lens' [= <-] _. exists x.
           assert (x ∈ filter (fun x => x <> 0) lens) as Hx
             by (rewrite Hf; left).
           by apply list_elem_of_filter in Hx as [? ?].
        -- rewrite Hf in Hlast. by apply last_None in Hlast.
    + rewrite packed_layout_full by lia. cbn [mbind res_bind].
      exists i, t. repeat (split; [done|]).
      intros lens' [= <-] Hlt. lia.
  - exists i, t. repeat (split; [done|]). intros lens' [=].
Qed.

Lemma prepare_alm_sample_failures_witness :
  let self := blank_dataset (config_sft 4 40000 false) 0 1 in
  training_type (config self) <> "dpo"
  /\ prepare_alm_sample self (Tensor (array int16 [1]%Z)) = Raise IndexError
  /\ prepare_alm_sample self (DictSample empty_dict)
     = Raise (KeyError "input_ids")
  /\ prepare_alm_sample self
       (DictSample (raw_sample (array int16 [5; 6]%Z) (array int16 [6; 7]%Z)
                      None None))
     = Raise RuntimeError.
Proof.
  intros self.
  assert (training_type (config self) <> "dpo") as Hdpo by discriminate.
  split; [exact Hdpo|].
  split; [exact (proj1 (prepare_alm_sample_failures self empty_dict Hdpo)
                   (array int16 [1]%Z))|].
  split; reflexivity.
Defined.





(** ** Access to the loaded file *)

Lemma mapM_Raise_first {A B} (f : A -> res B) l e :
  mapM f l = Raise e ->
  exists k x, l !! k = Some x /\ f x = Raise e
              /\ forall j y, j < k -> l !! j = Some y -> is_ok (f y) = true.
Proof.
  induction l as [|x l IH]; simpl; [done|].
  destruct (f x) as [y|e'] eqn:Hfx; simpl.
  - destruct (mapM f l) as [ys|e'] eqn:Hl; simpl; [done|].
    intros [= ->]. destruct (IH eq_refl) as (k & x' & Hk & Hx' & Hbefore).
    exists (S k), x'. split; [done|]. split; [done|].
    intros [|j] y' Hj Hy'.
    + injection Hy' as <-. by rewrite Hfx.
    + apply (Hbefore j); [lia|done].
  - intros [= ->]. exists 0, x. split; [done|]. split; [done|]. intros; lia.
Qed.

Lemma slice_lookup {A} (l : list A) lo hi k :
  k < hi - lo -> slice lo hi l !! k = l !! (lo + k).
Proof.
  intros Hk. unfold slice. by rewrite lookup_take_lt, lookup_drop.
Qed.

Lemma slice_length {A} (l : list A) lo hi :
  length (slice lo hi l) = hi `min` length l - lo.
Proof. unfold slice. rewrite length_take, length_drop. lia. Qed.

Lemma getitem_in_range self d idx x :
  data self = Some d -> d !! idx = Some x ->
  getitem self idx
  = if data_in_alm_format self
    then r ← prepare_alm_sample self x; Ok (Some r)
    else Ok (Some x).
Proof.
  intros Hd Hx. unfold getitem, len. rewrite Hd.
  assert (idx < length d) as Hlt by (by eapply lookup_lt_Some).
  apply Nat.ltb_lt in Hlt. rewrite Hlt. unfold item. by rewrite Hx.
Qed.

Lemma getitem_out_of_range self idx :
  len self <= idx -> getitem self idx = Ok None.
Proof.
  intros Hge. unfold getitem.
  by assert ((idx <? len self) = false) as -> by (apply Nat.ltb_ge; lia).
Qed.

(** X13.  Slice access [dataset[lo:hi]] and index access [dataset[i]]
    agree on the loaded file: a slice is clipped to the file, its [k]-th
    element is what index [lo + k] returns, and when the slice raises it
    raises the error of the first index of the window whose
    materialisation fails.  Beyond the end an index returns [None]
    instead of raising.  With nothing loaded every index returns [None]
    while every slice raises a [TypeError]. *)
Theorem getitem_slice_agrees_with_index (self : AllamoDataset) (lo hi : nat) :
  (data self = None ->
     getitem_slice self lo hi = Raise TypeError
     /\ forall idx, getitem self idx = Ok None)
  /\ (forall idx, len self <= idx -> getitem self idx = Ok None)
  /\ (forall l, getitem_slice self lo hi = Ok l ->
        length l = hi `min` len self - lo
        /\ getitem_slice self lo (hi `min` len self) = Ok l
        /\ forall k, k < length l -> getitem self (lo + k) = Ok (l !! k))
  /\ (forall e, getitem_slice self lo hi = Raise e -> data self <> None ->
        exists k, lo + k < hi `min` len self
                  /\ getitem self (lo + k) = Raise e
                  /\ forall j, j < k -> is_ok (getitem self (lo + j)) = true).
Proof.
  split; [|split; [|split]].
  - intros Hnone. split.
    + unfold getitem_slice. by rewrite Hnone.
    + intros idx. apply getitem_out_of_range. unfold len. rewrite Hnone. lia.
  - apply getitem_out_of_range.
  - intros l Hrun. unfold getitem_slice in *.
    destruct (data self) as [d|] eqn:Hd; [|done].
    assert (len self = length d) as Hlen by (unfold len; by rewrite Hd).
    assert (slice lo (hi `min` len self) d = slice lo hi d) as Hclip.
    { unfold slice. rewrite Hlen.
      destruct (decide (hi <= length d)) as [Hle|Hgt].
      - by replace (hi `min` length d) with hi by lia.
      - rewrite !take_ge; [done|rewrite length_drop; lia..]. }
    rewrite Hclip.
    assert (length l = length (slice lo hi d)) as Hll.
    { destruct (data_in_alm_format self).
      - apply mapM_Ok_Forall2, Forall2_length in Hrun. done.
      - by injection Hrun as <-. }
    split; [by rewrite Hll, slice_length, Hlen|]. split; [done|].
    intros k Hk.
    assert (k < hi - lo) as Hk'.
    { rewrite Hll, slice_length in Hk. lia. }
    destruct (lookup_lt_is_Some_2 (slice lo hi d) k) as [x Hx]; [lia|].
    rewrite slice_lookup in Hx by done.
    rewrite (getitem_in_range self d _ x Hd Hx).
    destruct (data_in_alm_format self).
    + apply mapM_Ok_Forall2 in Hrun.
      rewrite <- (slice_lookup d lo hi k Hk') in Hx.
      destruct (Forall2_lookup_l _ _ _ _ _ Hrun Hx) as (m & Hm & Hprep).
      by rewrite Hprep, Hm.
    + injection Hrun as <-. rewrite slice_lookup by done. by rewrite Hx.
  - intros e Hrun Hsome. unfold getitem_slice in Hrun.
    destruct (data self) as [d|] eqn:Hd; [|done].
    assert (len self = length d) as Hlen by (unfold len; by rewrite Hd).
    destruct (data_in_alm_format self) eqn:Halm; [|done].
    apply mapM_Raise_first in Hrun as (k & x & Hk & Hx & Hbefore).
    assert (k < length (slice lo hi d)) as Hlt by (by eapply lookup_lt_Some).
    rewrite slice_length in Hlt.
    assert (k < hi - lo) as Hk' by lia.
    exists k. split; [lia|]. split.
    + rewrite slice_lookup in Hk by done.
      by rewrite (getitem_in_range self d _ x Hd Hk), Halm, Hx.
    + intros j Hj.
      destruct (lookup_lt_is_Some_2 d (lo + j)) as [y Hy]; [lia|].
      rewrite (getitem_in_range self d _ y Hd Hy), Halm.
      assert (is_ok (prepare_alm_sample self y) = true) as Hok.
      { apply (Hbefore j); [done|]. rewrite slice_lookup by lia. done. }
      by destruct (prepare_alm_sample self y).
Qed.

Lemma getitem_slice_agrees_with_index_witness :
  let d := train_dataset one_file_fresh in
  getitem_slice d 1 9
  = Ok [Tensor (array int16 [6; 7; 8; 9; 10]%Z); Tensor (array int16 [11; 12; 13; 14; 15]%Z);
        Tensor (array int16 [16; 17; 18; 19; 20]%Z)]
  /\ getitem d 2 = Ok (Some (Tensor (array int16 [11; 12; 13; 14; 15]%Z)))
  /\ getitem d 4 = Ok None.
Proof.
  intros d.
  destruct (getitem_slice_agrees_with_index d 1 9) as (_ & Hout & Hin & _).
  split; [reflexivity|]. split.
  - destruct (Hin _ eq_refl) as (_ & _ & Hk).
    apply (Hk 1). simpl. lia.
  - apply Hout. vm_compute. lia.
Defined.

(** ** Collation *)

Lemma mapM_tensors (rows : list Array) :
  mapM (fun sample => match sample with
                      | Tensor t => Ok t
                      | DictSample _ => Raise TypeError
                      end) (Tensor <$> rows) = Ok rows.
Proof.
  induction rows as [|t rows IH]; [done|].
  rewrite fmap_cons. cbn [mapM]. rewrite IH. done.
Qed.

Lemma stack_Ok {A} (same : A -> A -> bool) rows out :
  stack same rows = Ok out ->
  out = rows
  /\ exists r rest, rows = r :: rest /\ Forall (fun x => same r x = true) rest.
Proof.
  unfold stack. destruct rows as [|r rest]; [done|].
  destruct (forallb (same r) rest) eqn:Hall; [|done].
  intros [= <-]. split; [done|]. exists r, rest. split; [done|].
  apply Forall_forall. intros x Hx.
  rewrite forallb_forall in Hall. apply Hall. by apply list_elem_of_In.
Qed.

Lemma stack_same_len_Ok (rows : list Array) n r rest :
  rows = r :: rest -> Forall (fun t => a_len t = n) rows ->
  stack same_len rows = Ok rows.
Proof.
  intros -> Hall. unfold stack.
  apply Forall_cons in Hall as [Hr Hrest].
  assert (forallb (same_len r) rest = true) as ->; [|done].
  apply forallb_forall. intros x Hx%list_elem_of_In.
  rewrite Forall_forall in Hrest. unfold same_len.
  apply Nat.eqb_eq. rewrite Hr. symmetry. by apply Hrest.
Qed.

Lemma stack_ragged {A} (same : A -> A -> bool) rows r rest x :
  rows = r :: rest -> x ∈ rest -> same r x = false ->
  stack same rows = Raise RuntimeError.
Proof.
  intros -> Hx Hdiff. unfold stack.
  assert (forallb (same r) rest = false) as ->; [|done].
  apply not_true_is_false. intros Hall. rewrite forallb_forall in Hall.
  rewrite (Hall x) in Hdiff; [done|]. by apply list_elem_of_In.
Qed.

Lemma stack_same_len_rows (rows out : list Array) :
  stack same_len rows = Ok out ->
  exists n, Forall (fun t => a_len t = n) out.
Proof.
  intros (-> & r & rest & -> & Hall)%stack_Ok. exists (a_len r).
  apply Forall_cons. split; [done|].
  eapply Forall_impl; [exact Hall|]. simpl. intros x Hx.
  unfold same_len in Hx. apply Nat.eqb_eq in Hx. done.
Qed.

(** X14.  Collating token windows (the continuous format): a batch of
    windows of one length [n] gives one input row and one target row per
    window, in order; the input row holds the window without its last
    token and the target row the window without its first, so that target
    position [j] is the token that follows input position [j].  Windows
    of different (non-zero) lengths cannot be collated, and an empty
    sample list raises an [IndexError]. *)
Theorem prepare_samples_tensors (config : AllamoConfiguration)
    (r : Array) (rest : list Array) :
  training_type config <> "dpo" ->
  let rows := items <$> r :: rest in
  let n := a_len r in
  prepare_samples config [] = Raise IndexError
  /\ (Forall (fun t => a_len t = n) rest ->
      prepare_samples config (Tensor <$> r :: rest)
      = Ok (Collated (take (n - 1) <$> rows) (drop 1 <$> rows) None None None)
      /\ forall k t, rows !! k = Some t ->
           length (take (n - 1) t) = n - 1 /\ length (drop 1 t) = n - 1
           /\ forall j, j < n - 1 ->
                take (n - 1) t !! j = t !! j /\ drop 1 t !! j = t !! (j + 1))
  /\ (1 <= n -> (exists t, t ∈ rest /\ 1 <= a_len t /\ a_len t <> n) ->
      prepare_samples config (Tensor <$> r :: rest) = Raise RuntimeError).
Proof.
  intros Hdpo rows n.
  assert (String.eqb (training_type config) "dpo" = false) as Hne
    by (by apply String.eqb_neq).
  split; [|split].
  - unfold prepare_samples. by rewrite Hne.
  - intros Hall.
    assert (Forall (fun t => a_len t = n) (r :: rest)) as Hrows
      by (by apply Forall_cons).
    split.
    + unfold prepare_samples. rewrite Hne.
      rewrite fmap_cons. unfold item. cbn [lookup list_lookup mbind res_bind].
      rewrite <- fmap_cons, mapM_tensors. cbn [mbind res_bind].
      rewrite (stack_same_len_Ok
                 ((fun t => a_take (a_len t - 1) t) <$> r :: rest) (n - 1)
                 (a_take (a_len r - 1) r)
                 ((fun t => a_take (a_len t - 1) t) <$> rest)); [|reflexivity|].
      * cbn [mbind res_bind].
        rewrite (stack_same_len_Ok (a_drop 1 <$> r :: rest) (n - 1)
                   (a_drop 1 r) (a_drop 1 <$> rest)); [|reflexivity|].
        -- cbn [mbind res_bind]. unfold to_int64. subst rows.
           rewrite <- !list_fmap_compose. do 2 f_equal.
           apply list_fmap_ext. intros k t Ht. rewrite Forall_lookup in Hrows.
           simpl. by rewrite (Hrows k t Ht).
        -- apply Forall_fmap. eapply Forall_impl; [exact Hrows|].
           simpl. intros t Ht. unfold a_len in *. simpl.
           rewrite length_drop. lia.
      * apply Forall_fmap. eapply Forall_impl; [exact Hrows|].
        simpl. intros t Ht. unfold a_len in *. simpl.
        rewrite length_take. lia.
    + intros k t Ht. subst rows. rewrite list_lookup_fmap in Ht.
      destruct ((r :: rest) !! k) as [a|] eqn:Ha; [|done].
      injection Ht as <-.
      rewrite Forall_lookup in Hrows. specialize (Hrows k a Ha).
      unfold a_len in Hrows.
      simpl in Hrows. split; [rewrite length_take; lia|].
      split; [rewrite length_drop; lia|].
      intros j Hj. split; [by rewrite lookup_take_lt|].
      rewrite lookup_drop. f_equal. lia.
  - intros Hn (t & Ht & Htn & Hdiff).
    unfold prepare_samples. rewrite Hne.
    rewrite fmap_cons. unfold item. cbn [lookup list_lookup mbind res_bind].
    rewrite <- fmap_cons, mapM_tensors. cbn [mbind res_bind].
    rewrite (stack_ragged same_len
               ((fun t0 => a_take (a_len t0 - 1) t0) <$> r :: rest)
               (a_take (a_len r - 1) r)
               ((fun t0 => a_take (a_len t0 - 1) t0) <$> rest)
               (a_take (a_len t - 1) t)); [done|reflexivity| |].
    + apply (list_elem_of_fmap_2 (fun t0 => a_take (a_len t0 - 1) t0)).
      done.
    + unfold same_len. apply Nat.eqb_neq. unfold a_len in *. simpl.
      rewrite !length_take. fold n. lia.
Qed.

Lemma prepare_samples_tensors_witness :
  training_type one_file_config <> "dpo"
  /\ prepare_samples one_file_config
       [Tensor (array int16 [1; 2; 3; 4; 5]%Z);
        Tensor (array int16 [6; 7; 8; 9; 10]%Z)]
     = Ok (Collated [[1; 2; 3; 4]; [6; 7; 8; 9]]%Z
             [[2; 3; 4; 5]; [7; 8; 9; 10]]%Z None None None)
  /\ prepare_samples one_file_config
       [Tensor (array int16 [1; 2; 3]%Z); Tensor (array int16 [6; 7]%Z)]
     = Raise RuntimeError.
Proof.
  assert (training_type one_file_config <> "dpo") as Hdpo by discriminate.
  split; [exact Hdpo|]. split.
  - destruct (prepare_samples_tensors one_file_config
                (array int16 [1; 2; 3; 4; 5]%Z)
                [array int16 [6; 7; 8; 9; 10]%Z] Hdpo) as (_ & Hok & _).
    apply Hok. by repeat constructor.
  - destruct (prepare_samples_tensors one_file_config
                (array int16 [1; 2; 3]%Z)
                [array int16 [6; 7]%Z] Hdpo) as (_ & _ & Hragged).
    apply Hragged; [vm_compute; lia|].
    exists (array int16 [6; 7]%Z). split; [left|]. vm_compute. lia.
Defined.

Lemma column_Ok {A} key (field : Dict -> option A) samples l :
  column key field samples = Ok l ->
  exists ds, samples = DictSample <$> ds /\ field <$> ds = Some <$> l.
Proof.
  unfold column. revert l.
  induction samples as [|s samples IH]; intros l; cbn [mapM].
  - intros [= <-]. by exists [].
  - destruct s as [t|d]; [done|].
    destruct (field d) as [x|] eqn:Hx; [|done]. cbn [getkey mbind res_bind].
    destruct (mapM _ samples) as [xs|e] eqn:Hrest; [|done].
    cbn [mbind res_bind]. intros [= <-].
    destruct (IH xs eq_refl) as (ds & -> & Hds).
    exists (d :: ds). split; [done|]. rewrite !fmap_cons. by rewrite Hx, Hds.
Qed.

Lemma fmap_DictSample_inj (ds ds' : list Dict) :
  DictSample <$> ds = DictSample <$> ds' -> ds = ds'.
Proof.
  revert ds'. induction ds as [|d ds IH]; intros [|d' ds']; try done.
  rewrite !fmap_cons. intros [= -> Hrest]. f_equal. by apply IH.
Qed.

Lemma optional_column_Ok {A B} key (field : Dict -> option A)
    (conv : list A -> B) (same : A -> A -> bool) d0 ds col :
  (if bool_decide (is_Some (field d0)) then
     c ← column key field (DictSample <$> ds);
     c ← stack same c; Ok (Some (conv c))
   else Ok None) = Ok col ->
  optional_column field conv d0 ds col.
Proof.
  unfold optional_column. destruct (field d0) as [x|].
  - rewrite bool_decide_eq_true_2 by eauto.
    destruct (column key field (DictSample <$> ds)) as [c|e] eqn:Hc; [|done].
    cbn [mbind res_bind].
    destruct (stack same c) as [c'|e] eqn:Hs; [|done].
    cbn [mbind res_bind]. intros [= <-].
    apply stack_Ok in Hs as [-> _].
    apply column_Ok in Hc as (ds' & ->%fmap_DictSample_inj & Hds').
    by exists c.
  - rewrite bool_decide_eq_false_2 by (by intros [? ?]).
    by intros [= <-].
Qed.

(** X15.  Collating structured samples outside preference training: a
    batch is produced only if every sample is a dict with ['input_ids']
    and ['target_ids']; the batch rows are the samples' fields in sample
    order, all input rows have one length and all target rows have one
    length.  Whether the batch carries ['target_weights'], ['attn_mask']
    and ['input_pos'] is decided by the first sample alone: a key the
    first sample lacks is dropped for the whole batch even where later
    samples have it, and a key the first sample has must be present in
    every sample.  The weights of the batch are the samples' weights
    converted to [float32], which rounds integers beyond 2^24; masks and
    positions are handed on as they are. *)
Theorem prepare_samples_dicts (config : AllamoConfiguration) (d0 : Dict)
    (rest : list Sample) (b : Batch) :
  training_type config <> "dpo" ->
  prepare_samples config (DictSample d0 :: rest) = Ok b ->
  exists ds input target weights mask pos,
    DictSample d0 :: rest = DictSample <$> ds
    /\ b = Collated (items <$> input) (items <$> target) weights mask pos
    /\ input_ids <$> ds = Some <$> input
    /\ target_ids <$> ds = Some <$> target
    /\ (exists n, Forall (fun row => a_len row = n) input)
    /\ (exists n, Forall (fun row => a_len row = n) target)
    /\ optional_column target_weights rows_to_float32 d0 ds weights
    /\ optional_column attn_mask id d0 ds mask
    /\ optional_column input_pos id d0 ds pos.
Proof.
  intros Hdpo. unfold prepare_samples.
  assert (String.eqb (training_type config) "dpo" = false) as ->
    by (by apply String.eqb_neq).
  unfold item. cbn [lookup list_lookup mbind res_bind].
  destruct (column "input_ids" input_ids (DictSample d0 :: rest))
    as [input|e] eqn:Hinput; [|done].
  cbn [mbind res_bind].
  destruct (stack same_len input) as [input'|e] eqn:Hsi; [|done].
  cbn [mbind res_bind].
  destruct (column "target_ids" target_ids (DictSample d0 :: rest))
    as [target|e] eqn:Htarget; [|done].
  cbn [mbind res_bind].
  destruct (stack same_len target) as [target'|e] eqn:Hst; [|done].
  cbn [mbind res_bind].
  apply column_Ok in Hinput as (ds & Hds & Hin). rewrite Hds in *.
  apply column_Ok in Htarget as (ds' & <-%fmap_DictSample_inj & Hta).
  match goal with
  | |- context [mbind _ ?m] =>
      match m with
      | (if _ then _ else _) => destruct m as [weights|e] eqn:Hw; [|done]
      end
  end.
  cbn [mbind res_bind].
  match goal with
  | |- context [mbind _ ?m] =>
      match m with
      | (if _ then _ else _) => destruct m as [mask|e] eqn:Hm; [|done]
      end
  end.
  cbn [mbind res_bind].
  match goal with
  | |- context [mbind _ ?m] =>
      match m with
      | (if _ then _ else _) => destruct m as [pos|e] eqn:Hp; [|done]
      end
  end.
  cbn [mbind res_bind]. intros [= <-].
  pose proof (stack_same_len_rows _ _ Hsi) as Hrows_i.
  pose proof (stack_same_len_rows _ _ Hst) as Hrows_t.
  apply stack_Ok in Hsi as [-> _]. apply stack_Ok in Hst as [-> _].
  exists ds, input, target, weights, mask, pos.
  split; [done|]. split; [done|]. split; [done|]. split; [done|].
  split; [done|]. split; [done|].
  split; [by eapply optional_column_Ok|].
  split; by eapply (optional_column_Ok _ _ id).
Qed.

Lemma prepare_samples_dicts_witness :
  let cfg := config_sft 2 0 true in
  let first := raw_sample (array int64 [1; 2]%Z) (array int64 [2; 3]%Z)
                 (Some (array int64 [1; 16777217]%Z)) None in
  let second := raw_sample (array int64 [4; 5]%Z) (array int64 [5; 6]%Z)
                  (Some (array int64 [0; 1]%Z)) None in
  training_type cfg <> "dpo"
  /\ prepare_samples cfg [DictSample first; DictSample second]
     = Ok (Collated [[1; 2]; [4; 5]]%Z [[2; 3]; [5; 6]]%Z
             (Some [[to_float32 1; to_float32 16777216];
                    [to_float32 0; to_float32 1]])
             None None)
  /\ optional_column target_weights rows_to_float32 first [first; second]
       (Some [[to_float32 1; to_float32 16777216];
              [to_float32 0; to_float32 1]]).
Proof.
  intros cfg first second.
  assert (training_type cfg <> "dpo") as Hdpo by discriminate.
  assert (prepare_samples cfg [DictSample first; DictSample second]
          = Ok (Collated [[1; 2]; [4; 5]]%Z [[2; 3]; [5; 6]]%Z
                  (Some [[to_float32 1; to_float32 16777216];
                         [to_float32 0; to_float32 1]])
                  None None)) as Hrun by (vm_compute; reflexivity).
  split; [exact Hdpo|]. split; [exact Hrun|].
  destruct (prepare_samples_dicts cfg first [DictSample second] _ Hdpo Hrun)
    as (ds & input & target & weights & mask & pos & Hds & Hb & _ & _ & _ & _
        & Hw & _).
  change [DictSample first; DictSample second]
    with (DictSample <$> [first; second]) in Hds.
  apply fmap_DictSample_inj in Hds as <-.
  injection Hb as _ _ <- _ _. exact Hw.
Defined.

(** ** Drawing batches *)

Lemma prepare_samples_rows config samples b :
  prepare_samples config samples = Ok b -> batch_rows b = length samples.
Proof.
  unfold prepare_samples.
  destruct (String.eqb (training_type config) "dpo").
  - unfold prepare_dpo_samples.
    destruct (column "chosen_input_ids" chosen_input_ids samples)
      as [ci|e] eqn:Hci; [|done].
    cbn [mbind res_bind].
    destruct (stack same_len ci) as [ci'|e] eqn:Hs; [|done].
    cbn [mbind res_bind].
    apply stack_Ok in Hs as [-> _].
    apply column_Ok in Hci as (ds & -> & Hds).
    assert (length ci = length (DictSample <$> ds)) as Hlen.
    { rewrite length_fmap, <- (length_fmap Some ci), <- Hds.
      by rewrite length_fmap. }
    repeat match goal with
           | |- context [mbind _ ?m] =>
               lazymatch m with
               | Ok _ => fail
               | _ => destruct m; [|done]; cbn [mbind res_bind]
               end
           end.
    intros [= <-]. simpl. unfold to_int64. by rewrite length_fmap.
  - destruct (item 0 samples) as [[t|d0]|e]; [| |done]; cbn [mbind res_bind].
    + destruct (mapM _ samples) as [rows|e] eqn:Hrows; [|done].
      cbn [mbind res_bind].
      destruct (stack same_len
                  ((fun t => a_take (a_len t - 1) t) <$> rows))
        as [input|e] eqn:Hs; [|done].
      cbn [mbind res_bind].
      destruct (stack same_len (a_drop 1 <$> rows)) as [target|e]; [|done].
      cbn [mbind res_bind]. intros [= <-]. simpl.
      apply stack_Ok in Hs as [-> _]. unfold to_int64.
      rewrite !length_fmap.
      apply mapM_Ok_Forall2, Forall2_length in Hrows. done.
    + destruct (column "input_ids" input_ids samples) as [input|e] eqn:Hi;
        [|done].
      cbn [mbind res_bind].
      destruct (stack same_len input) as [input'|e] eqn:Hs; [|done].
      cbn [mbind res_bind].
      apply stack_Ok in Hs as [-> _].
      apply column_Ok in Hi as (ds & -> & Hds).
      assert (length input = length (DictSample <$> ds)) as Hlen.
      { rewrite length_fmap, <- (length_fmap Some input), <- Hds.
        by rewrite length_fmap. }
      repeat match goal with
             | |- context [mbind _ ?m] =>
                 lazymatch m with
                 | Ok _ => fail
                 | _ => destruct m; [|done]; cbn [mbind res_bind]
                 end
             end.
      intros [= <-]. simpl. unfold to_int64. by rewrite length_fmap.
Qed.

(** X16.  A batch that is not a sequential training batch (a random draw,
    any split other than ['train'], or sequential training switched off)
    is drawn with replacement from the split's dataset - the validation
    dataset for a split other than ['train'] when one is loaded - at the
    indices [rng k mod len]; it has [batch_size] rows, and the call leaves
    the loader (cursor, epoch, ledger, prefetch slot) exactly as it was.
    On an empty dataset the call raises a [RuntimeError]. *)
Theorem get_batch_random_draw (env : Env) (rng : nat -> nat)
    (self : AllamoDataLoader) (split : string) (random_samples : bool) :
  random_samples = true \/ split <> "train"
  \/ dataset_seq_train (dl_config self) = false ->
  let d := dataset_of_split self split in
  (forall b self', get_batch env rng self split random_samples = Ok (b, self') ->
     self' = self /\ 0 < len d /\ batch_rows b = dl_batch_size self)
  /\ (forall ms, materialized d = Ok ms -> 0 < len d ->
        get_batch env rng self split random_samples
        = (batch ← prepare_samples (dl_config self)
                     ((fun k => ms !!! (rng k mod len d))
                        <$> seq 0 (dl_batch_size self));
           Ok (batch, self)))
  /\ (len d = 0 ->
        get_batch env rng self split random_samples = Raise RuntimeError).
Proof.
  intros Hmode d.
  assert (get_batch env rng self split random_samples
          = (samples ← random_samples_of rng self d;
             batch ← prepare_samples (dl_config self) samples;
             Ok (batch, self))) as Hdraw.
  { unfold get_batch.
    assert (negb random_samples && String.eqb split "train"
            && dataset_seq_train (dl_config self) = false) as ->.
    { destruct Hmode as [Hr|[Hs|Hq]];
        [by rewrite Hr| |by rewrite Hq, andb_false_r].
      apply String.eqb_neq in Hs. rewrite Hs. by rewrite andb_false_r. }
    unfold d, dataset_of_split.
    destruct (String.eqb split "train"); [done|].
    by destruct (val_dataset self). }
  split; [|split].
  - intros b self'. rewrite Hdraw. unfold random_samples_of, randint.
    destruct (len d =? 0) eqn:Hlen; [done|]. apply Nat.eqb_neq in Hlen.
    cbn [mbind res_bind].
    destruct (mapM _ _) as [samples|e] eqn:Hs; [|done]. cbn [mbind res_bind].
    destruct (prepare_samples _ samples) as [batch|e] eqn:Hb; [|done].
    cbn [mbind res_bind]. intros [= <- <-].
    split; [done|]. split; [lia|].
    rewrite (prepare_samples_rows _ _ _ Hb).
    apply mapM_Ok_Forall2, Forall2_length in Hs.
    by rewrite <- Hs, length_fmap, length_seq.
  - intros ms Hms Hpos. rewrite Hdraw.
    by rewrite (random_samples_of_materialized rng self d ms Hms Hpos).
  - intros Hempty. rewrite Hdraw. unfold random_samples_of, randint.
    by rewrite Hempty.
Qed.

Lemma get_batch_random_draw_witness :
  is_Some (val_dataset val_file_fresh)
  /\ get_batch val_file_env (fun k => k) val_file_fresh "val" false
     = Ok (Collated [[101; 102; 103; 104]; [106; 107; 108; 109]]%Z
             [[102; 103; 104; 105]; [107; 108; 109; 110]]%Z None None None,
           val_file_fresh).
Proof.
  split; [by eexists|].
  assert (false = true \/ "val" <> "train"
          \/ dataset_seq_train (dl_config val_file_fresh) = false) as Hmode
    by (right; left; discriminate).
  destruct (get_batch_random_draw val_file_env (fun k => k) val_file_fresh
              "val" false Hmode) as (_ & Hrun & _).
  rewrite (Hrun [Tensor (array int16 [101; 102; 103; 104; 105]%Z);
                 Tensor (array int16 [106; 107; 108; 109; 110]%Z)] eq_refl);
    [reflexivity|].
  vm_compute. lia.
Defined.

Lemma same_setup_refl self : same_setup self self.
Proof. unfold same_setup. repeat (split; [done|]). apply same_job_refl. Qed.

Lemma same_setup_trans s1 s2 s3 :
  same_setup s1 s2 -> same_setup s2 s3 -> same_setup s1 s3.
Proof.
  intros (? & ? & ? & ? & ? & ? & ?) (? & ? & ? & ? & ? & ? & ?).
  unfold same_setup. repeat (split; [congruence|]).
  by eapply same_job_trans.
Qed.

Lemma load_next_dataset_same_job env d loaded d' :
  load_next_dataset env d = Ok (loaded, d') -> same_job d' d.
Proof.
  unfold load_next_dataset. intros Hrun.
  by apply load_next_loop_ledger in Hrun as (_ & _ & _ & _ & _ & Hjob).
Qed.

Lemma load_next_dataset_loaded env d d' :
  load_next_dataset env d = Ok (true, d') -> 0 < len d'.
Proof.
  unfold load_next_dataset. intros Hrun.
  apply (load_next_loop_choice env d) in Hrun; simpl; try done; [|auto].
  destruct Hrun as (_ & _ & _ & x & l & _ & _ & _ & _ & Hdata & _).
  unfold len. rewrite Hdata. simpl. lia.
Qed.

Lemma reload_dataset_invariants env self after :
  reload_dataset env self = Ok after ->
  same_setup self after
  /\ dataset_offset after = 0
  /\ epoch self <= epoch after <= epoch self + 1
  /\ buffer after = buffer self
  /\ buffer_thread after = buffer_thread self
  /\ alive after = alive self
  /\ (1 < length (dataset_files (train_dataset self)) ->
        0 < len (train_dataset after))
  /\ (length (dataset_files (train_dataset self)) <= 1 ->
        train_dataset after = train_dataset self).
Proof.
  unfold reload_dataset.
  destruct (1 <? length (dataset_files (train_dataset self))) eqn:Hmulti.
  - apply Nat.ltb_lt in Hmulti.
    destruct (load_next_dataset env (train_dataset self))
      as [[[] d1]|e] eqn:Hnext; cbn [mbind res_bind]; [| |done].
    + intros [= <-]. simpl.
      pose proof (load_next_dataset_same_job _ _ _ _ Hnext) as Hjob.
      pose proof (load_next_dataset_loaded _ _ _ Hnext) as Hlen.
      unfold same_setup. simpl. repeat (split; [done || lia|]).
      intros; lia.
    + destruct (load_next_dataset env (set_processed_files d1 []))
        as [[[] d2]|e] eqn:Hagain; cbn [mbind res_bind assert]; [|done..].
      intros [= <-]. simpl.
      pose proof (load_next_dataset_same_job _ _ _ _ Hnext) as Hjob1.
      pose proof (load_next_dataset_same_job _ _ _ _ Hagain) as Hjob2.
      pose proof (load_next_dataset_loaded _ _ _ Hagain) as Hlen.
      assert (same_job d2 (train_dataset self)) as Hjob.
      { eapply same_job_trans; [exact Hjob2|].
        destruct Hjob1 as (? & ? & ? & ?). by repeat split. }
      unfold same_setup. simpl. repeat (split; [done || lia|]).
      intros; lia.
  - apply Nat.ltb_ge in Hmulti. intros [= <-]. simpl.
    unfold same_setup. simpl.
    repeat (split; [done || lia || apply same_job_refl|]).
    done.
Qed.

Lemma getitem_Some_in_range self idx s :
  getitem self idx = Ok (Some s) -> idx < len self.
Proof.
  unfold getitem. destruct (idx <? len self) eqn:Hlt; [|done].
  intros _. by apply Nat.ltb_lt.
Qed.

Lemma draw_one_by_one_invariants env n self acc samples self' :
  draw_one_by_one env n self acc = Ok (samples, self') ->
  length samples = length acc + n
  /\ same_setup self self'
  /\ epoch self <= epoch self' <= epoch self + n
  /\ buffer self' = buffer self
  /\ buffer_thread self' = buffer_thread self
  /\ alive self' = alive self
  /\ next_thread self' = next_thread self
  /\ (0 < n -> 0 < dataset_offset self' <= len (train_dataset self')).
Proof.
  revert self acc. induction n as [|n IH]; intros self acc; cbn [draw_one_by_one].
  - intros [= <- <-]. split; [lia|]. split; [apply same_setup_refl|].
    split; [lia|]. repeat (split; [done|]). intros; lia.
  - destruct (if len (train_dataset self) <=? dataset_offset self
              then reload_dataset env self else Ok self)
      as [self1|e] eqn:Hreload; [|done].
    cbn [mbind res_bind].
    assert (same_setup self self1
            /\ epoch self <= epoch self1 <= epoch self + 1
            /\ buffer self1 = buffer self
            /\ buffer_thread self1 = buffer_thread self
            /\ alive self1 = alive self
            /\ next_thread self1 = next_thread self)
      as (Hset1 & Hep1 & Hb1 & Ht1 & Ha1 & Hn1).
    { destruct (len (train_dataset self) <=? dataset_offset self).
      - pose proof Hreload as Hr.
        apply reload_dataset_invariants in Hreload
          as (? & ? & ? & ? & ? & ? & _).
        repeat (split; [done|]).
        unfold reload_dataset in Hr.
        destruct (1 <? length (dataset_files (train_dataset self))).
        + destruct (load_next_dataset env (train_dataset self))
            as [[[] d1]|e]; cbn [mbind res_bind] in Hr; [| |done].
          * by injection Hr as <-.
          * destruct (load_next_dataset env (set_processed_files d1 []))
              as [[[] d2]|e]; cbn [mbind res_bind assert] in Hr; [|done..].
            by injection Hr as <-.
        + by injection Hr as <-.
      - injection Hreload as <-. split; [apply same_setup_refl|].
        split; [lia|done]. }
    destruct (getitem (train_dataset self1) (dataset_offset self1))
      as [[s|]|e] eqn:Hget; cbn [mbind res_bind]; [|done..].
    apply getitem_Some_in_range in Hget.
    intros Hrun. pose proof Hrun as Hrun0. apply IH in Hrun
      as (Hlen & Hset & Hep & Hb & Ht & Ha & Hn & Hoff).
    simpl in *. rewrite length_app in Hlen. simpl in Hlen.
    split; [lia|].
    split.
    { eapply same_setup_trans; [exact Hset1|].
      destruct Hset as (? & ? & ? & ? & ? & ? & ?).
      unfold same_setup. by repeat (split; [done|]). }
    split; [lia|].
    split; [congruence|]. split; [congruence|]. split; [congruence|].
    split; [congruence|].
    intros _. destruct n as [|n]; [|apply Hoff; lia].
    cbn [draw_one_by_one] in Hrun0. injection Hrun0 as _ <-. simpl. lia.
Qed.

Lemma getitem_slice_length self lo hi l :
  getitem_slice self lo hi = Ok l -> length l = hi `min` len self - lo.
Proof.
  unfold getitem_slice, len. destruct (data self) as [d|]; [|done].
  destruct (data_in_alm_format self).
  - intros Hrun%mapM_Ok_Forall2%Forall2_length.
    by rewrite <- Hrun, slice_length.
  - intros [= <-]. by rewrite slice_length.
Qed.

Lemma next_samples_invariants env self samples self' :
  next_samples env self = Ok (samples, self') ->
  length samples = dl_batch_size self
  /\ same_setup self self'
  /\ epoch self <= epoch self' <= epoch self + dl_batch_size self
  /\ buffer self' = buffer self
  /\ buffer_thread self' = buffer_thread self
  /\ alive self' = alive self
  /\ next_thread self' = next_thread self
  /\ (0 < dl_batch_size self ->
        0 < dataset_offset self' <= len (train_dataset self'))
  /\ (dataset_offset self + dl_batch_size self <= len (train_dataset self) ->
        self' = set_dataset_offset self (dataset_offset self + dl_batch_size self)).
Proof.
  unfold next_samples.
  destruct (dataset_offset self + dl_batch_size self <=? len (train_dataset self))
    eqn:Hfit.
  - apply Nat.leb_le in Hfit.
    destruct (getitem_slice _ _ _) as [l|e] eqn:Hslice; [|done].
    cbn [mbind res_bind]. intros [= <- <-].
    apply getitem_slice_length in Hslice. simpl.
    split; [lia|].
    split; [unfold same_setup; simpl; repeat (split; [done|]);
            apply same_job_refl|].
    split; [lia|].
    repeat (split; [done|]). split; [intros; lia|done].
  - apply Nat.leb_gt in Hfit. intros Hrun.
    apply draw_one_by_one_invariants in Hrun
      as (Hlen & Hset & Hep & Hb & Ht & Ha & Hn & Hoff).
    simpl in Hlen. repeat (split; [done|]). intros; lia.
Qed.

(** X17.  A sequential training batch assembled synchronously (prefetch
    off, or nothing in the slot), over any catalogue: when the call
    returns, the batch has [batch_size] rows; configuration, rank, world
    size, batch size, validation dataset, splits and the catalogue are
    untouched; the epoch counter never decreases and grows by at most
    [batch_size]; for a non-empty batch the cursor ends inside the loaded
    file ([0 < offset <= len]); when the window fits into the loaded file
    the call only advances the offset by [batch_size], without reloading
    and without touching the epoch.  The slot is empty afterwards, and a
    worker was started exactly when the next window fits into the loaded
    file. *)
Theorem get_batch_sequential_invariants (env : Env) (rng : nat -> nat)
    (self self' : AllamoDataLoader) (b : Batch) :
  dataset_seq_train (dl_config self) = true ->
  dataset_buffer (dl_config self) = false \/ buffer self = None ->
  get_batch env rng self "train" false = Ok (b, self') ->
  let B := dl_batch_size self in
  batch_rows b = B
  /\ same_setup self self'
  /\ epoch self <= epoch self' <= epoch self + B
  /\ (0 < B -> 0 < dataset_offset self' <= len (train_dataset self'))
  /\ (dataset_offset self + B <= len (train_dataset self) ->
        epoch self' = epoch self
        /\ train_dataset self' = train_dataset self
        /\ dataset_offset self' = dataset_offset self + B)
  /\ buffer self' = None
  /\ (is_Some (buffer_thread self')
      <-> dataset_offset self' + B <= len (train_dataset self')).
Proof.
  intros Hseq Hsync Hrun B.
  assert (get_batch env rng self "train" false
          = ('(samples, st1) ← next_samples env self;
             batch ← prepare_samples (dl_config (reload_buffer st1)) samples;
             Ok (batch, reload_buffer st1))) as Heq.
  { destruct Hsync as [Hoff|Hnone].
    - by apply get_batch_sequential.
    - by apply get_batch_empty_slot. }
  rewrite Heq in Hrun. clear Heq.
  destruct (next_samples env self) as [[samples st1]|e] eqn:Hnext; [|done].
  cbn [mbind res_bind] in Hrun.
  destruct (prepare_samples _ samples) as [batch|e] eqn:Hb; [|done].
  cbn [mbind res_bind] in Hrun. injection Hrun as <- <-.
  apply next_samples_invariants in Hnext
    as (Hlen & Hset & Hep & _ & _ & _ & _ & Hoff & Hfit).
  apply prepare_samples_rows in Hb.
  assert (dataset_offset (reload_buffer st1) = dataset_offset st1
          /\ train_dataset (reload_buffer st1) = train_dataset st1
          /\ epoch (reload_buffer st1) = epoch st1
          /\ same_setup st1 (reload_buffer st1)
          /\ buffer (reload_buffer st1) = None
          /\ (is_Some (buffer_thread (reload_buffer st1))
              <-> dataset_offset st1 + dl_batch_size st1
                  <= len (train_dataset st1)))
    as (Ho & Hd & He & Hs & Hbuf & Hthr).
  { unfold reload_buffer. simpl.
    destruct (dataset_offset st1 + dl_batch_size st1 <=? len (train_dataset st1))
      eqn:Hnextfit; simpl.
    - apply Nat.leb_le in Hnextfit.
      do 3 (split; [done|]).
      split; [unfold same_setup; simpl; repeat (split; [done|]);
              apply same_job_refl|].
      split; [done|]. split; [done|by eexists].
    - apply Nat.leb_gt in Hnextfit.
      do 3 (split; [done|]).
      split; [unfold same_setup; simpl; repeat (split; [done|]);
              apply same_job_refl|].
      split; [done|]. split; [by intros [? ?]|lia]. }
  assert (dl_batch_size st1 = B) as HB by (by destruct Hset as (_ & _ & _ & ? & _)).
  rewrite Ho, Hd, He. rewrite HB in Hthr.
  split; [by rewrite Hb|].
  split; [by eapply same_setup_trans|].
  split; [done|]. split; [done|].
  split; [|done].
  intros Hwin. rewrite (Hfit Hwin). done.
Qed.

Lemma get_batch_sequential_invariants_witness :
  exists b after,
    get_batch two_file_env (fun _ => 0) two_file_done "train" false = Ok (b, after)
    /\ batch_rows b = 2
    /\ epoch two_file_done <= epoch after <= epoch two_file_done + 2
    /\ 0 < dataset_offset after <= len (train_dataset after).
Proof.
  destruct (get_batch two_file_env (fun _ => 0) two_file_done "train" false)
    as [[b after]|e] eqn:Hrun; [|vm_compute in Hrun; discriminate Hrun].
  exists b, after. split; [reflexivity|].
  destruct (get_batch_sequential_invariants two_file_env (fun _ => 0)
              two_file_done after b eq_refl (or_introl eq_refl) Hrun)
    as (Hrows & _ & Hep & Hoff & _).
  split; [exact Hrows|]. split; [exact Hep|]. apply Hoff. simpl. lia.
Defined.

(** ** File change within and across epochs *)

Lemma load_next_dataset_success env d d' :
  load_next_dataset env d = Ok (true, d') ->
  exists f added,
    last (processed_files d') = Some f
    /\ f ∈ dataset_files d /\ (f ∉ processed_files d)
    /\ has_data d' = true
    /\ processed_files d' = processed_files d ++ added
    /\ added `sublist_of` dataset_files d
    /\ NoDup added
    /\ (forall g, g ∈ added -> g ∉ processed_files d).
Proof.
  unfold load_next_dataset. intros Hrun. pose proof Hrun as Hled.
  apply (load_next_loop_choice env d) in Hrun; simpl; try done; [|auto].
  destruct Hrun as (sk & f & rest & x & l & Hfiles & _ & Hnew & _ & Hdata & _ & Hlast).
  apply load_next_loop_ledger in Hled as (added & Hp & Hsub & Hfresh & Hnd & _).
  simpl in *. exists f, added.
  split; [done|].
  split; [rewrite Hfiles; apply elem_of_app; right; left|].
  split; [done|].
  split; [unfold has_data; by rewrite Hdata|].
  done.
Qed.

Lemma load_next_dataset_failure env d d' :
  load_next_dataset env d = Ok (false, d') ->
  forall g, g ∈ dataset_files d -> g ∈ processed_files d \/ no_samples env d g.
Proof.
  unfold load_next_dataset. intros Hrun.
  apply (load_next_loop_choice env d) in Hrun; simpl; try done; [|auto].
  by destruct Hrun as (_ & _ & Hwhy & _).
Qed.

(** X18.  File change over a catalogue of several files.  A successful
    [reload_dataset] leaves a loaded file [f] of the catalogue in progress
    (the last ledger entry).  If the epoch counter did not move, the old
    ledger was extended by catalogue files that were not in it before,
    each once, so that [f] had not been loaded in this epoch.  If the
    epoch counter moved (by one), every catalogue file had been processed
    or gave no sample, and the ledger was restarted: it is duplicate-free
    and lists catalogue files in catalogue order. *)
Theorem reload_dataset_no_repeat (env : Env) (self after : AllamoDataLoader) :
  1 < length (dataset_files (train_dataset self)) ->
  reload_dataset env self = Ok after ->
  let files := dataset_files (train_dataset self) in
  let before := processed_files (train_dataset self) in
  let ledger := processed_files (train_dataset after) in
  exists f,
    last ledger = Some f /\ f ∈ files
    /\ has_data (train_dataset after) = true
    /\ ((epoch after = epoch self
         /\ (f ∉ before)
         /\ exists added,
              ledger = before ++ added /\ NoDup added
              /\ added `sublist_of` files
              /\ forall g, g ∈ added -> g ∉ before)
        \/ (epoch after = epoch self + 1
            /\ (forall g, g ∈ files ->
                  g ∈ before \/ no_samples env (train_dataset self) g)
            /\ NoDup ledger
            /\ ledger `sublist_of` files)).
Proof.
  intros Hmulti Hrun files before ledger. unfold reload_dataset in Hrun.
  apply Nat.ltb_lt in Hmulti. rewrite Hmulti in Hrun.
  destruct (load_next_dataset env (train_dataset self))
    as [[[] d1]|e] eqn:Hnext; cbn [mbind res_bind] in Hrun; [| |done].
  - injection Hrun as <-.
    apply load_next_dataset_success in Hnext
      as (f & added & Hlast & Hin & Hnew & Hdata & Hp & Hsub & Hnd & Hfresh).
    exists f. subst ledger. simpl.
    split; [done|]. split; [done|]. split; [done|].
    left. split; [done|]. split; [done|]. by exists added.
  - destruct (load_next_dataset env (set_processed_files d1 []))
      as [[[] d2]|e] eqn:Hagain; cbn [mbind res_bind assert] in Hrun; [|done..].
    injection Hrun as <-.
    pose proof (load_next_dataset_same_job _ _ _ _ Hnext) as (_ & _ & _ & Hcat).
    pose proof (load_next_dataset_failure _ _ _ Hnext) as Hdone.
    apply load_next_dataset_success in Hagain
      as (f & added & Hlast & Hin & _ & Hdata & Hp & Hsub & Hnd & _).
    simpl in Hin, Hp, Hsub. rewrite Hcat in Hin, Hsub.
    exists f. subst ledger. simpl.
    split; [done|]. split; [done|]. split; [done|].
    right. split; [done|]. split; [done|]. rewrite Hp. done.
Qed.

Lemma reload_dataset_no_repeat_witness :
  exists after,
    reload_dataset two_file_env two_file_fresh = Ok after
    /\ epoch after = epoch two_file_fresh
    /\ processed_files (train_dataset two_file_fresh) = ["a.bin"]
    /\ processed_files (train_dataset after) = ["a.bin"; "b.bin"]
    /\ has_data (train_dataset after) = true.
Proof.
  destruct (reload_dataset two_file_env two_file_fresh) as [after|e] eqn:Hrun;
    [|vm_compute in Hrun; discriminate Hrun].
  exists after. split; [reflexivity|].
  assert (1 < length (dataset_files (train_dataset two_file_fresh))) as Hmulti
    by (vm_compute; lia).
  destruct (reload_dataset_no_repeat two_file_env two_file_fresh after
              Hmulti Hrun) as (f & _ & _ & Hdata & _).
  vm_compute in Hrun. injection Hrun as <-.
  split; [reflexivity|]. split; [reflexivity|]. split; [reflexivity|].
  exact Hdata.
Defined.

(** ** Construction *)

Lemma new_dataset_inv env cfg train_split r w d :
  new_dataset env cfg train_split r w = Ok d ->
  exists files d0 loaded,
    get_dataset_files env cfg train_split = Ok files
    /\ rank d0 = r /\ world_size d0 = w /\ config d0 = cfg
    /\ dataset_files d0 = files
    /\ processed_files d0
       = take (dataset_train_processed_files_count cfg) files
    /\ data d0 = None
    /\ load_next_dataset env d0 = Ok (loaded, d).
Proof.
  unfold new_dataset.
  destruct (get_dataset_files env cfg train_split) as [files|e]; [|done].
  cbn [mbind res_bind].
  match goal with
  | |- context [load_next_dataset env ?d0] => set (start := d0)
  end.
  destruct (load_next_dataset env start) as [[loaded d1]|e] eqn:Hload; [|done].
  cbn [mbind res_bind]. intros [= <-].
  exists files, start, loaded. split; [done|]. subst start. simpl.
  do 4 (split; [done|]). split; [|done].
  by destruct (dataset_train_processed_files_count cfg).
Qed.

(** X19.  The processed-files count of the configuration seeds the ledger
    of every dataset object, the validation dataset included: the first
    [dataset_train_processed_files_count] catalogue files are in the
    ledger from the start and are not loaded by the constructor.  If the
    constructor loads a file, that file lies behind these in the
    catalogue; if the count covers the whole catalogue, nothing is loaded
    and the ledger is the catalogue. *)
Theorem new_dataset_skips_processed (env : Env) (cfg : AllamoConfiguration)
    (train_split : bool) (r w : nat) (d : AllamoDataset) :
  new_dataset env cfg train_split r w = Ok d ->
  let c := dataset_train_processed_files_count cfg in
  let files := dataset_files d in
  get_dataset_files env cfg train_split = Ok files
  /\ rank d = r /\ world_size d = w
  /\ take c files `prefix_of` processed_files d
  /\ (has_data d = true ->
        exists f, last (processed_files d) = Some f
                  /\ f ∈ drop c files /\ f ∉ take c files)
  /\ (has_data d = false -> forall f, f ∈ files -> f ∈ processed_files d)
  /\ (length files <= c -> has_data d = false /\ processed_files d = files).
Proof.
  intros Hnew c files.
  apply new_dataset_inv in Hnew
    as (files0 & d0 & loaded & Hcat & Hr & Hw & Hc & Hf & Hp & Hd & Hload).
  pose proof (load_next_dataset_same_job _ _ _ _ Hload)
    as (Hr' & Hw' & _ & Hfiles).
  assert (files = files0) as Hff by (subst files; congruence).
  fold c in Hp. rewrite <- Hff in *. clear Hff.
  split; [done|]. split; [congruence|]. split; [congruence|].
  destruct loaded.
  - apply load_next_dataset_success in Hload
      as (f & added & Hlast & Hin & Hnew & Hdata & Hled & Hsub & Hnd & Hfresh).
    rewrite Hp in Hled, Hnew. rewrite Hf in Hin.
    assert (f ∈ drop c files) as Hdrop.
    { rewrite <- (take_drop c files) in Hin.
      apply elem_of_app in Hin as [Hin|Hin]; done. }
    split; [rewrite Hled; by apply prefix_app_r|].
    split; [intros _; by exists f|].
    split; [intros Hno; by rewrite Hno in Hdata|].
    intros Hall. rewrite drop_ge in Hdrop by done.
    by apply elem_of_nil in Hdrop.
  - pose proof Hload as Hfail. unfold load_next_dataset in Hload, Hfail.
    apply load_next_loop_ledger in Hload as (added & Hled & Hsub & Hfresh & _).
    apply (load_next_loop_choice env d0) in Hfail; simpl; try done; [|auto].
    destruct Hfail as (Hdata & Hall & _). simpl in *.
    rewrite Hp in Hled, Hfresh. rewrite Hf in Hsub, Hall.
    assert (has_data d = false) as Hno.
    { unfold has_data. by rewrite Hdata. }
    split; [rewrite Hled; by apply prefix_app_r|].
    split; [intros Hyes; by rewrite Hyes in Hno|].
    split; [done|].
    intros Hcover. split; [done|].
    rewrite take_ge in Hled, Hfresh by done.
    destruct added as [|g added]; [by rewrite Hled, app_nil_r|].
    exfalso. apply (Hfresh g); [left|].
    eapply elem_of_sublist; [left|exact Hsub].
Qed.

Lemma new_dataset_skips_processed_witness :
  let config := config_of_files "a.bin,b.bin" "a.bin,b.bin" in
  let counted :=
    {| data_dir := data_dir config; dataset := dataset config;
       dataset_train_files := dataset_train_files config;
       dataset_validation_files := dataset_validation_files config;
       dataset_train_file_prefix := dataset_train_file_prefix config;
       dataset_validation_file_prefix := dataset_validation_file_prefix config;
       dataset_train_processed_files_count := 1;
       block_size := block_size config; ignore_index := ignore_index config;
       pad_token_id := pad_token_id config;
       weighted_loss := weighted_loss config;
       training_type := training_type config;
       batch_size := batch_size config;
       batch_size_schedule := batch_size_schedule config;
       batch_size_initial := batch_size_initial config;
       dataset_seq_train := dataset_seq_train config;
       dataset_seq_train_start := dataset_seq_train_start config;
       dataset_buffer := dataset_buffer config |} in
  exists d,
    new_dataset two_file_env counted false 0 1 = Ok d
    /\ processed_files d = ["a.bin"; "b.bin"]
    /\ has_data d = true
    /\ "a.bin" ∈ processed_files d.
Proof.
  intros config counted.
  destruct (new_dataset two_file_env counted false 0 1) as [d|e] eqn:Hnew;
    [|vm_compute in Hnew; discriminate Hnew].
  exists d. split; [reflexivity|].
  destruct (new_dataset_skips_processed two_file_env counted false 0 1 d Hnew)
    as (_ & _ & _ & Hpre & _).
  vm_compute in Hnew. injection Hnew as <-.
  split; [reflexivity|]. split; [reflexivity|].
  eapply elem_of_prefix; [|exact Hpre]. left.
Defined.

(** X20.  A loader is only constructed when the training split resolves
    to at least one file: with no file the constructor raises 'Training
    dataset files not found!', and any other failure is the failure of
    one of the two dataset constructors.  A constructed loader starts in
    epoch 0 with an empty slot and no worker, and both dataset objects
    carry the loader's rank and world size ([0] and [1] when none is
    given).  The ['val'] split is listed exactly when the validation
    dataset object is kept, which is exactly when validation data was
    loaded; otherwise the splits are ['train'] alone. *)
Theorem new_loader_splits (env : Env) (cfg : AllamoConfiguration)
    (r w : option nat) :
  match new_loader env cfg r w with
  | Ok dl =>
      resolve_dataset_files env cfg true <> []
      /\ dataset_files (train_dataset dl) <> []
      /\ epoch dl = 0 /\ buffer dl = None /\ buffer_thread dl = None
      /\ dl_rank dl = default 0 r /\ dl_world_size dl = default 1 w
      /\ rank (train_dataset dl) = default 0 r
      /\ world_size (train_dataset dl) = default 1 w
      /\ match val_dataset dl with
         | Some v =>
             splits dl = ["train"; "val"] /\ has_data v = true
             /\ rank v = default 0 r /\ world_size v = default 1 w
         | None =>
             splits dl = ["train"]
             /\ exists v, new_dataset env cfg false (default 0 r) (default 1 w)
                          = Ok v /\ has_data v = false
         end
  | Raise e =>
      (resolve_dataset_files env cfg true = []
       /\ e = Exception "Training dataset files not found!")
      \/ (resolve_dataset_files env cfg true <> []
          /\ (new_dataset env cfg true (default 0 r) (default 1 w) = Raise e
              \/ new_dataset env cfg false (default 0 r) (default 1 w) = Raise e))
  end.
Proof.
  unfold new_loader.
  destruct (new_dataset env cfg true (default 0 r) (default 1 w))
    as [train|e] eqn:Htrain; cbn [mbind res_bind].
  - pose proof Htrain as Hinv.
    apply new_dataset_inv in Hinv
      as (files & d0 & loaded & Hcat & Hr & Hw & _ & Hf & _ & _ & Hload).
    pose proof (load_next_dataset_same_job _ _ _ _ Hload)
      as (Hr' & Hw' & _ & Hfiles).
    assert (resolve_dataset_files env cfg true <> [] /\ files <> [])
      as [Hres Hne].
    { unfold get_dataset_files in Hcat.
      destruct (list_truthy (resolve_dataset_files env cfg true)) eqn:Ht;
        [|done].
      injection Hcat as <-. split.
      - intros Hnil. by rewrite Hnil in Ht.
      - intros Hnil.
        pose proof (sorted_Permutation (resolve_dataset_files env cfg true))
          as Hperm.
        rewrite Hnil in Hperm. apply Permutation_nil_l in Hperm.
        by rewrite <- Hperm in Ht. }
    destruct (new_dataset env cfg false (default 0 r) (default 1 w))
      as [val|e] eqn:Hval; cbn [mbind res_bind].
    + simpl. split; [done|]. split; [congruence|].
      do 5 (split; [done|]). split; [congruence|]. split; [congruence|].
      destruct (has_data val) eqn:Hdata.
      * apply new_dataset_inv in Hval
          as (vfiles & v0 & vloaded & _ & Hvr & Hvw & _ & _ & _ & _ & Hvload).
        pose proof (load_next_dataset_same_job _ _ _ _ Hvload)
          as (Hvr' & Hvw' & _).
        split; [done|]. split; [done|]. split; congruence.
      * split; [done|]. by exists val.
    + right. split; [done|]. by right.
  - unfold new_dataset in Htrain.
    destruct (get_dataset_files env cfg true) as [files|e'] eqn:Hcat.
    + right. split.
      * unfold get_dataset_files in Hcat.
        destruct (list_truthy (resolve_dataset_files env cfg true)) eqn:Ht;
          [|done].
        intros Hnil. by rewrite Hnil in Ht.
      * by left.
    + left. cbn [mbind res_bind] in Htrain. injection Htrain as <-.
      unfold get_dataset_files in Hcat.
      destruct (list_truthy (resolve_dataset_files env cfg true)) eqn:Ht;
        [done|].
      apply list_truthy_false in Ht. by injection Hcat as <-.
Qed.

Lemma new_loader_splits_witness :
  new_loader val_file_env val_file_config None None = Ok val_file_fresh
  /\ splits val_file_fresh = ["train"; "val"]
  /\ exists v, val_dataset val_file_fresh = Some v /\ has_data v = true.
Proof.
  assert (new_loader val_file_env val_file_config None None = Ok val_file_fresh)
    as Hrun by (vm_compute; reflexivity).
  split; [exact Hrun|].
  pose proof (new_loader_splits val_file_env val_file_config None None) as H.
  rewrite Hrun in H.
  destruct H as (_ & _ & _ & _ & _ & _ & _ & _ & _ & Hval).
  destruct (val_dataset val_file_fresh) as [v|] eqn:Hv; [|discriminate Hv].
  destruct Hval as (Hsplits & Hdata & _).
  split; [exact Hsplits|]. exists v. split; [reflexivity|exact Hdata].
Defined.

(** ** Where the catalogue comes from *)

Lemma split_nonempty sep s : split sep s <> [].
Proof.
  destruct s as [|c s]; simpl; [done|].
  destruct (Ascii.eqb c sep); [done|]. by destruct (split sep s).
Qed.

Lemma split_concat sep s :
  String.concat (String sep EmptyString) (split sep s) = s.
Proof.
  induction s as [|c s IH]; [done|]. cbn [split].
  pose proof (split_nonempty sep s) as Hne.
  destruct (Ascii.eqb c sep) eqn:Hc.
  - apply Ascii.eqb_eq in Hc as ->.
    destruct (split sep s) as [|w ws]; [done|].
    rewrite <- IH. reflexivity.
  - destruct (split sep s) as [|w ws]; [done|].
    rewrite <- IH. destruct ws as [|w' ws]; reflexivity.
Qed.

Lemma split_pieces sep s f :
  f ∈ split sep s -> str_contains sep f = false.
Proof.
  revert f. induction s as [|c s IH]; intros f; cbn [split].
  - by intros ->%list_elem_of_singleton.
  - destruct (Ascii.eqb c sep) eqn:Hc.
    + intros [->|Hf]%elem_of_cons; [done|by apply IH].
    + destruct (split sep s) as [|w ws].
      * intros ->%list_elem_of_singleton. simpl. by rewrite Hc.
      * intros [->|Hf]%elem_of_cons.
        -- simpl. rewrite Hc. apply IH. left.
        -- apply IH. by right.
Qed.

Lemma str_truthy_true s : str_truthy s = true <-> s <> EmptyString.
Proof.
  unfold str_truthy. rewrite negb_true_iff. apply String.eqb_neq.
Qed.

(** X21.  Where the catalogue comes from.  A non-empty explicit file list
    of the split always wins: the catalogue is its comma-separated pieces,
    sorted; the call cannot fail, the directory is not looked at, and the
    pieces are not filtered by file type.  The pieces joined by commas
    give the configured string back, and no piece holds a comma.  Without
    an explicit list for the split (the other split's list plays no
    role) and with a dataset name, the catalogue holds exactly the files
    that the directory listing returns, that have a supported extension
    and whose base name starts with the split's prefix.  With neither,
    nothing is resolved. *)
Theorem get_dataset_files_sources (env : Env) (cfg : AllamoConfiguration)
    (train_split : bool) :
  let explicit := explicit_files cfg train_split in
  let dir := path_join (data_dir cfg) (dataset cfg) in
  (explicit <> EmptyString ->
     get_dataset_files env cfg train_split = Ok (sorted (split "," explicit))
     /\ (forall f, f ∈ sorted (split "," explicit) <-> f ∈ split "," explicit)
     /\ String.concat "," (split "," explicit) = explicit
     /\ forall f, f ∈ split "," explicit -> str_contains "," f = false)
  /\ (explicit = EmptyString -> dataset cfg <> EmptyString ->
      forall f,
        (exists files, get_dataset_files env cfg train_split = Ok files
                       /\ f ∈ files)
        <-> f ∈ glob env (path_join dir "*.*")
            /\ is_file_type_supported f = true
            /\ startswith (basename f) (split_prefix cfg train_split) = true)
  /\ (explicit = EmptyString -> dataset cfg = EmptyString ->
      resolve_dataset_files env cfg train_split = []).
Proof.
  intros explicit dir.
  split; [|split].
  - intros Hne.
    assert (resolve_dataset_files env cfg train_split = split "," explicit)
      as Hres.
    { unfold resolve_dataset_files. subst explicit. unfold explicit_files in *.
      apply str_truthy_true in Hne.
      destruct train_split; simpl; by rewrite Hne. }
    split.
    + unfold get_dataset_files. rewrite Hres.
      pose proof (split_nonempty ","%char explicit) as Hs.
      by destruct (split ","%char explicit).
    + split.
      * intros f. by rewrite (sorted_Permutation (split ","%char explicit)).
      * split; [apply split_concat|apply split_pieces].
  - intros Hnone Hdata f.
    assert (resolve_dataset_files env cfg train_split
            = List.filter
                (fun dataset_file =>
                   is_file_type_supported dataset_file
                   && startswith (basename dataset_file)
                        (split_prefix cfg train_split))
                (glob env (path_join dir "*.*"))) as Hres.
    { unfold resolve_dataset_files. subst explicit.
      unfold explicit_files, split_prefix in *.
      apply str_truthy_true in Hdata.
      destruct train_split; simpl; rewrite Hnone; simpl; by rewrite Hdata. }
    assert (f ∈ resolve_dataset_files env cfg train_split
            <-> f ∈ glob env (path_join dir "*.*")
                /\ is_file_type_supported f = true
                /\ startswith (basename f) (split_prefix cfg train_split) = true)
      as Hmem.
    { rewrite Hres, list_elem_of_In, filter_In, andb_true_iff.
      by rewrite <- list_elem_of_In. }
    rewrite <- Hmem. unfold get_dataset_files.
    destruct (list_truthy (resolve_dataset_files env cfg train_split)) eqn:Ht.
    + split.
      * intros (files & [= <-] & Hf).
        by rewrite (sorted_Permutation _) in Hf.
      * intros Hf. eexists. split; [done|].
        by rewrite (sorted_Permutation _).
    + apply list_truthy_false in Ht. rewrite Ht. split.
      * intros (files & Hrun & Hf). destruct train_split; [done|].
        injection Hrun as <-. done.
      * intros Hf. by apply elem_of_nil in Hf.
  - intros Hnone Hdata. unfold resolve_dataset_files. subst explicit.
    unfold explicit_files in *.
    destruct train_split; simpl; rewrite Hnone, Hdata; done.
Qed.

Lemma get_dataset_files_sources_witness :
  explicit_files scan_config true = EmptyString
  /\ dataset scan_config <> EmptyString
  /\ get_dataset_files scan_env scan_config true = Ok ["data/corpus/train-1.bin"]
  /\ exists files, get_dataset_files scan_env scan_config false = Ok files
                   /\ "data/corpus/val-1.bin" ∈ files.
Proof.
  assert (dataset scan_config <> EmptyString) as Hname by discriminate.
  split; [reflexivity|]. split; [exact Hname|]. split; [reflexivity|].
  destruct (get_dataset_files_sources scan_env scan_config false)
    as (_ & Hscan & _).
  apply (Hscan eq_refl Hname). split; [|split; reflexivity].
  vm_compute. right. left.
Defined.

(** ** Prefetching *)

Lemma not_elem_of_filter_neq (t : nat) (l : list nat) :
  t ∉ List.filter (fun x => negb (x =? t)) l.
Proof.
  intros Hin%list_elem_of_In%filter_In. destruct Hin as [_ Hne].
  by rewrite Nat.eqb_refl in Hne.
Qed.

(** X22.  A prefetch worker touches nothing of the loader but the slot
    and the set of live threads.  No sequence of worker steps, of
    whatever threads and in whatever order, changes the cursor offset,
    the epoch, the datasets, the configuration, the batch size, the
    thread handle or the thread counter.  In one step the slot changes
    only by the assignment of the entry the worker has built, the set of
    live threads only by the end of the worker itself, and the lock only
    by being taken when it is free or by being released by a worker that
    leaves its [with] block. *)
Theorem worker_step_frame (tid : nat) (tids : list nat) (w : World) :
  (let w' := foldl (fun w t => worker_step t w) w tids in
   dataset_offset (loader w') = dataset_offset (loader w)
   /\ epoch (loader w') = epoch (loader w)
   /\ train_dataset (loader w') = train_dataset (loader w)
   /\ val_dataset (loader w') = val_dataset (loader w)
   /\ dl_config (loader w') = dl_config (loader w)
   /\ dl_batch_size (loader w') = dl_batch_size (loader w)
   /\ buffer_thread (loader w') = buffer_thread (loader w)
   /\ next_thread (loader w') = next_thread (loader w))
  /\ (let w' := worker_step tid w in
      (buffer (loader w') = buffer (loader w)
       \/ exists batch offset,
            pc_of tid (pcs w) = Entry batch offset
            /\ buffer (loader w') = Some (batch, offset))
      /\ (alive (loader w') = alive (loader w)
          \/ pc_of tid (pcs w) = Finishing
             /\ alive (loader w')
                = List.filter (fun t => negb (t =? tid)) (alive (loader w)))
      /\ (buffer_lock w' = buffer_lock w
          \/ pc_of tid (pcs w) = Started /\ buffer_lock w = None
             /\ buffer_lock w' = Some tid
          \/ pc_of tid (pcs w) = Leaving /\ buffer_lock w' = None)).
Proof.
  split.
  - revert w. induction tids as [|t tids IH]; intros w; [done|].
    cbn [foldl]. cbv zeta in *.
    destruct (IH (worker_step t w)) as (-> & -> & -> & -> & -> & -> & -> & ->).
    unfold worker_step.
    destruct (bool_decide (t ∈ alive (loader w))); [|done].
    destruct (pc_of t (pcs w)); try done.
    + by destruct (buffer_lock w).
    + by destruct (data (train_dataset (loader w))).
    + by destruct (if data_in_alm_format (train_dataset (loader w))
                   then _ else _).
    + by destruct (prepare_samples (dl_config (loader w)) samples).
  - cbv zeta. unfold worker_step.
    destruct (bool_decide (tid ∈ alive (loader w))); [|by repeat split; left].
    destruct (pc_of tid (pcs w)) eqn:Hpc.
    + destruct (buffer_lock w) eqn:Hlock.
      * repeat split; by left.
      * split; [by left|]. split; [by left|]. right; left. done.
    + repeat split; by left.
    + repeat split; by left.
    + destruct (data (train_dataset (loader w))); repeat split; by left.
    + destruct (if data_in_alm_format (train_dataset (loader w)) then _ else _);
        repeat split; by left.
    + destruct (prepare_samples (dl_config (loader w)) samples);
        repeat split; by left.
    + repeat split; by left.
    + split; [right; by eexists _, _|]. split; by left.
    + split; [by left|]. split; [by left|]. right; right. done.
    + split; [by left|]. split; [by right|]. by left.
Qed.

(** ** File formats *)

Lemma astype_int16_wrap z :
  (0 <= z < 65536)%Z ->
  astype_int16 z = (if z <? 32768 then z else z - 65536)%Z.
Proof.
  intros Hz. unfold astype_int16.
  destruct (z <? 32768)%Z eqn:Hlt.
  - apply Z.ltb_lt in Hlt. rewrite Z.mod_small by lia. lia.
  - apply Z.ltb_ge in Hlt.
    replace (z + 32768)%Z with (z - 32768 + 1 * 65536)%Z by lia.
    rewrite Z.mod_add by lia. rewrite Z.mod_small by lia. lia.
Qed.

(** X23.  The format dispatch of [load_dataset_file].  A [.bin] file
    outside pre-training and a [.pt] file in preference training fail
    their assertion before the file is opened; a file whose name has none
    of the three supported extensions yields no sample, again without
    being opened.  The 16-bit values of a [.bin] file are reinterpreted as
    signed: a stored value below 32768 is the token itself, a larger one
    comes out as the negative number [value - 65536], and the token stream
    is then cut into this rank's samples as for any continuous file. *)
Theorem read_dataset_file_formats (env : Env) (self : AllamoDataset)
    (f : string) :
  (endswith f ".bin" = true -> training_type (config self) <> "pre" ->
     read_dataset_file env self f
     = Raise (AssertionError "NumPy format is supported only for pre-training"))
  /\ (endswith f ".bin" = false -> endswith f ".pt" = true ->
      training_type (config self) = "dpo" ->
      read_dataset_file env self f
      = Raise (AssertionError "DPO training only supports the ALM format"))
  /\ (is_file_type_supported f = false ->
      read_dataset_file env self f = Ok None)
  /\ (endswith f ".bin" = true -> training_type (config self) = "pre" ->
      forall raw, np_fromfile env f = Ok raw ->
        Forall (fun z => 0 <= z < 65536)%Z raw ->
        read_dataset_file env self f
        = load_continuous self
            (array int16
               ((fun z => if z <? 32768 then z else z - 65536)%Z <$> raw))
        /\ Forall (fun z => -32768 <= z < 32768)%Z (astype_int16 <$> raw)).
Proof.
  unfold read_dataset_file. split; [|split; [|split]].
  - intros -> Hpre. apply String.eqb_neq in Hpre. by rewrite Hpre.
  - intros -> -> ->. done.
  - unfold is_file_type_supported. intros Hno.
    apply orb_false_iff in Hno as [Hno Halm].
    apply orb_false_iff in Hno as [Hbin Hpt].
    by rewrite Hbin, Hpt, Halm.
  - intros -> -> raw -> Hraw. cbn [assert mbind res_bind String.eqb].
    assert (astype_int16 <$> raw
            = (fun z => if z <? 32768 then z else z - 65536)%Z <$> raw) as Heq.
    { apply list_fmap_ext. intros i z Hz. apply astype_int16_wrap.
      rewrite Forall_lookup in Hraw. by apply (Hraw i). }
    split.
    + unfold int16_tensor. by rewrite Heq.
    + rewrite Heq. apply Forall_fmap. eapply Forall_impl; [exact Hraw|].
      simpl. intros z Hz. destruct (z <? 32768)%Z eqn:Hlt.
      * apply Z.ltb_lt in Hlt. lia.
      * apply Z.ltb_ge in Hlt. lia.
Qed.

Lemma read_dataset_file_formats_witness :
  let self := blank_dataset one_file_config 0 1 in
  read_dataset_file wide_token_env self "train.bin"
  = Ok (Some [Tensor (array int16 [1; -25536; 3; -1; 5]%Z);
              Tensor (array int16 [6; -32768; 8; 32767; 10]%Z)])
  /\ read_dataset_file wide_token_env self "train.txt" = Ok None.
Proof.
  intros self.
  destruct (read_dataset_file_formats wide_token_env self "train.bin")
    as (_ & _ & _ & Hbin).
  destruct (read_dataset_file_formats wide_token_env self "train.txt")
    as (_ & _ & Hother & _).
  split; [|apply Hother; reflexivity].
  destruct (Hbin eq_refl eq_refl
              [1; 40000; 3; 65535; 5; 6; 32768; 8; 32767; 10]%Z eq_refl)
    as [Hread _].
  - repeat constructor; lia.
  - rewrite Hread. reflexivity.
Defined.

(** ** Collation of preference samples *)

(** X24.  Collating preference samples: a batch is produced only from a
    non-empty list of dicts that all hold the four chosen/rejected keys;
    each of the four batch columns lists the samples' fields in sample
    order, with rows of one length per column.  Each of the two reference
    log-probability columns is present exactly when the first sample has
    that key, and then every sample must have it; the column holds the
    samples' values converted to [float32], which rounds (an integer
    16777217 comes out as 16777216.0). *)
Theorem prepare_dpo_samples_columns (cfg : AllamoConfiguration)
    (samples : list Sample) (b : Batch) :
  training_type cfg = "dpo" ->
  prepare_samples cfg samples = Ok b ->
  exists ds d0 ci ct ri rt rc rr,
    samples = DictSample <$> ds /\ ds !! 0 = Some d0
    /\ b = CollatedDpo (items <$> ci) (items <$> ct) (items <$> ri)
             (items <$> rt) rc rr
    /\ chosen_input_ids <$> ds = Some <$> ci
    /\ chosen_target_ids <$> ds = Some <$> ct
    /\ rejected_input_ids <$> ds = Some <$> ri
    /\ rejected_target_ids <$> ds = Some <$> rt
    /\ (exists n, Forall (fun row => a_len row = n) ci)
    /\ (exists n, Forall (fun row => a_len row = n) ct)
    /\ (exists n, Forall (fun row => a_len row = n) ri)
    /\ (exists n, Forall (fun row => a_len row = n) rt)
    /\ optional_column reference_chosen_logps nums_to_float32 d0 ds rc
    /\ optional_column reference_rejected_logps nums_to_float32 d0 ds rr.
Proof.
  intros Hdpo. unfold prepare_samples. rewrite Hdpo. cbn [String.eqb].
  change (String.eqb "dpo" "dpo") with true. cbv iota.
  unfold prepare_dpo_samples.
  destruct (column "chosen_input_ids" chosen_input_ids samples)
    as [ci|e] eqn:Hci; [|done]. cbn [mbind res_bind].
  destruct (stack same_len ci) as [ci'|e] eqn:Hsci; [|done].
  cbn [mbind res_bind].
  destruct (column "chosen_target_ids" chosen_target_ids samples)
    as [ct|e] eqn:Hct; [|done]. cbn [mbind res_bind].
  destruct (stack same_len ct) as [ct'|e] eqn:Hsct; [|done].
  cbn [mbind res_bind].
  destruct (column "rejected_input_ids" rejected_input_ids samples)
    as [ri|e] eqn:Hri; [|done]. cbn [mbind res_bind].
  destruct (stack same_len ri) as [ri'|e] eqn:Hsri; [|done].
  cbn [mbind res_bind].
  destruct (column "rejected_target_ids" rejected_target_ids samples)
    as [rt|e] eqn:Hrt; [|done]. cbn [mbind res_bind].
  destruct (stack same_len rt) as [rt'|e] eqn:Hsrt; [|done].
  cbn [mbind res_bind].
  pose proof (stack_same_len_rows _ _ Hsci) as Hrows_ci.
  pose proof (stack_same_len_rows _ _ Hsct) as Hrows_ct.
  pose proof (stack_same_len_rows _ _ Hsri) as Hrows_ri.
  pose proof (stack_same_len_rows _ _ Hsrt) as Hrows_rt.
  apply stack_Ok in Hsci as [-> _]. apply stack_Ok in Hsct as [-> _].
  apply stack_Ok in Hsri as [-> _]. apply stack_Ok in Hsrt as [-> _].
  apply column_Ok in Hci as (ds & Hds & Hci). rewrite Hds in *.
  apply column_Ok in Hct as (ds1 & <-%fmap_DictSample_inj & Hct).
  apply column_Ok in Hri as (ds2 & <-%fmap_DictSample_inj & Hri).
  apply column_Ok in Hrt as (ds3 & <-%fmap_DictSample_inj & Hrt).
  unfold item. rewrite list_lookup_fmap.
  destruct (ds !! 0) as [d0|] eqn:Hd0; [|done]. cbn [fmap option_fmap option_map
    mbind res_bind].
  match goal with
  | |- context [mbind _ ?m] =>
      match m with
      | (if _ then _ else _) => destruct m as [rc|e] eqn:Hrc; [|done]
      end
  end.
  cbn [mbind res_bind].
  match goal with
  | |- context [mbind _ ?m] =>
      match m with
      | (if _ then _ else _) => destruct m as [rr|e] eqn:Hrr; [|done]
      end
  end.
  cbn [mbind res_bind]. intros [= <-].
  exists ds, d0, ci, ct, ri, rt, rc, rr.
  do 11 (split; [done|]).
  split; by eapply optional_column_Ok.
Qed.

Lemma prepare_dpo_samples_columns_witness :
  let cfg := config_dpo 4 0 in
  let first := raw_dpo_sample (array int64 [1; 2]%Z) (array int64 [2; 3]%Z)
                 (array int64 [1; 5]%Z) (array int64 [5; 6]%Z)
                 (Some (IntNum 16777217)) None in
  let second := raw_dpo_sample (array int64 [3; 4]%Z) (array int64 [4; 5]%Z)
                  (array int64 [3; 8]%Z) (array int64 [8; 9]%Z)
                  (Some (IntNum 9)) (Some (IntNum 1)) in
  training_type cfg = "dpo"
  /\ prepare_samples cfg [DictSample first; DictSample second]
     = Ok (CollatedDpo [[1; 2]; [3; 4]]%Z [[2; 3]; [4; 5]]%Z
             [[1; 5]; [3; 8]]%Z [[5; 6]; [8; 9]]%Z
             (Some [to_float32 16777216; to_float32 9]) None)
  /\ optional_column reference_rejected_logps nums_to_float32 first
       [first; second] None.
Proof.
  intros cfg first second.
  assert (prepare_samples cfg [DictSample first; DictSample second]
          = Ok (CollatedDpo [[1; 2]; [3; 4]]%Z [[2; 3]; [4; 5]]%Z
                  [[1; 5]; [3; 8]]%Z [[5; 6]; [8; 9]]%Z
                  (Some [to_float32 16777216; to_float32 9]) None)) as Hrun
    by (vm_compute; reflexivity).
  split; [reflexivity|]. split; [exact Hrun|].
  destruct (prepare_dpo_samples_columns cfg
              [DictSample first; DictSample second] _ eq_refl Hrun)
    as (ds & d0 & ci & ct & ri & rt & rc & rr & Hds & Hd0 & Hb & _ & _ & _ & _
        & _ & _ & _ & _ & _ & Hrr).
  change [DictSample first; DictSample second]
    with (DictSample <$> [first; second]) in Hds.
  apply fmap_DictSample_inj in Hds as <-.
  injection Hd0 as <-. injection Hb as _ _ _ _ _ <-. exact Hrr.
Defined.

(** ** Batches that straddle a file boundary *)

Lemma set_dataset_offset_eta self :
  set_dataset_offset self (dataset_offset self) = self.
Proof. by destruct self. Qed.

Lemma draw_acc_prefix env n self acc samples self' :
  draw_one_by_one env n self acc = Ok (samples, self') ->
  acc `prefix_of` samples.
Proof.
  revert self acc. induction n as [|n IH]; intros self acc;
    cbn [draw_one_by_one].
  - by intros [= <- <-].
  - destruct (if len (train_dataset self) <=? dataset_offset self
              then reload_dataset env self else Ok self) as [self1|e]; [|done].
    cbn [mbind res_bind].
    destruct (getitem (train_dataset self1) (dataset_offset self1))
      as [[s|]|e]; cbn [mbind res_bind]; [|done..].
    intros Hrun%IH. by eapply prefix_app_l.
Qed.

Lemma draw_split env a b self acc :
  draw_one_by_one env (a + b) self acc
  = ('(s1, st1) ← draw_one_by_one env a self acc;
     draw_one_by_one env b st1 s1).
Proof.
  revert self acc. induction a as [|a IH]; intros self acc; [done|].
  cbn [Nat.add draw_one_by_one].
  destruct (if len (train_dataset self) <=? dataset_offset self
            then reload_dataset env self else Ok self) as [self1|e]; [|done].
  cbn [mbind res_bind].
  destruct (getitem (train_dataset self1) (dataset_offset self1))
    as [[s|]|e]; cbn [mbind res_bind]; [|done..].
  apply IH.
Qed.

Lemma draw_within env d ms n self acc :
  train_dataset self = d -> materialized d = Ok ms ->
  dataset_offset self + n <= len d ->
  draw_one_by_one env n self acc
  = Ok (acc ++ take n (drop (dataset_offset self) ms),
        set_dataset_offset self (dataset_offset self + n)).
Proof.
  intros Hd Hms. revert self acc Hd.
  induction n as [|n IH]; intros self acc Hd Hfit; cbn [draw_one_by_one].
  - by rewrite take_0, app_nil_r, Nat.add_0_r, set_dataset_offset_eta.
  - assert ((len (train_dataset self) <=? dataset_offset self) = false) as ->
      by (apply Nat.leb_gt; rewrite Hd; lia).
    cbn [mbind res_bind]. rewrite Hd.
    rewrite (getitem_materialized d ms Hms) by lia. cbn [mbind res_bind].
    rewrite IH; [|done|simpl; lia]. simpl.
    pose proof (materialized_length d ms Hms) as Hlen.
    destruct (lookup_lt_is_Some_2 ms (dataset_offset self)) as [x Hx]; [lia|].
    rewrite (drop_S ms x (dataset_offset self) Hx).
    rewrite (list_lookup_total_correct _ _ _ Hx).
    rewrite <- app_assoc. simpl.
    replace (dataset_offset self + 1) with (S (dataset_offset self)) by lia.
    do 2 f_equal. unfold set_dataset_offset. simpl. f_equal. lia.
Qed.

(** A window that does not fit into the loaded file: the batch starts
    with every sample from the cursor on, and the one-by-one loop goes on
    from the end of the file. *)
Lemma next_samples_spill env self ms :
  materialized (train_dataset self) = Ok ms ->
  dataset_offset self <= len (train_dataset self) ->
  let o := dataset_offset self in
  let K := len (train_dataset self) in
  let B := dl_batch_size self in
  K < o + B ->
  next_samples env self
  = draw_one_by_one env (o + B - K) (set_dataset_offset self K) (drop o ms).
Proof.
  intros Hms Hbound o K B Hlt.
  pose proof (materialized_length _ ms Hms) as Hlen. fold K in Hlen.
  unfold next_samples. fold o K B.
  assert ((o + B <=? K) = false) as -> by (apply Nat.leb_gt; lia).
  replace B with ((K - o) + (o + B - K)) at 1 by lia.
  rewrite draw_split.
  rewrite (draw_within env (train_dataset self) ms (K - o) self [] eq_refl Hms)
    by (fold o K; lia).
  cbn [mbind res_bind]. fold o. simpl.
  rewrite take_ge by (rewrite length_drop; lia).
  by replace (o + (K - o)) with K by lia.
Qed.

(** ... and when the file change (or rollover) gives a file with enough
    samples, the batch is completed by the first samples of that file. *)
Lemma next_samples_reloaded env self ms next ms' :
  materialized (train_dataset self) = Ok ms ->
  dataset_offset self <= len (train_dataset self) ->
  let o := dataset_offset self in
  let K := len (train_dataset self) in
  let B := dl_batch_size self in
  K < o + B ->
  reload_dataset env (set_dataset_offset self K) = Ok next ->
  materialized (train_dataset next) = Ok ms' ->
  o + B - K <= len (train_dataset next) ->
  next_samples env self
  = Ok (drop o ms ++ take (o + B - K) ms',
        set_dataset_offset next (o + B - K)).
Proof.
  intros Hms Hbound o K B Hlt Hreload Hms' Henough.
  rewrite (next_samples_spill env self ms Hms Hbound Hlt). fold o K B.
  destruct (o + B - K) as [|m] eqn:Hm; [lia|].
  assert (draw_one_by_one env (S m) (set_dataset_offset self K) (drop o ms)
          = draw_one_by_one env (S m) next (drop o ms)) as ->.
  { apply reload_dataset_invariants in Hreload as Hinv.
    destruct Hinv as (_ & Hzero & _).
    cbn [draw_one_by_one]. simpl. fold K.
    rewrite Nat.leb_refl, Hreload, Hzero.
    by assert ((len (train_dataset next) <=? 0) = false) as ->
      by (apply Nat.leb_gt; lia). }
  apply reload_dataset_invariants in Hreload as (_ & Hzero & _).
  rewrite (draw_within env (train_dataset next) ms' (S m) next _ eq_refl Hms')
    by (rewrite Hzero; lia).
  by rewrite Hzero, drop_0.
Qed.

(** X25.  A sequential batch at a file boundary loses no sample.  While
    the window fits into the loaded file the batch is the window at the
    cursor.  Otherwise the batch starts with every sample of the loaded
    file from the cursor on; and when the file change (or rollover) gives
    a file with enough samples, the batch is completed by the first
    samples of that file, in order, and the cursor is left behind the
    last sample taken. *)
Theorem next_samples_across_files (env : Env) (self : AllamoDataLoader)
    (ms : list Sample) :
  materialized (train_dataset self) = Ok ms ->
  dataset_offset self <= len (train_dataset self) ->
  let o := dataset_offset self in
  let K := len (train_dataset self) in
  let B := dl_batch_size self in
  (o + B <= K ->
     next_samples env self
     = Ok (slice o (o + B) ms, set_dataset_offset self (o + B)))
  /\ (K < o + B -> forall samples self',
        next_samples env self = Ok (samples, self') ->
        drop o ms `prefix_of` samples)
  /\ (K < o + B -> forall next ms',
        reload_dataset env (set_dataset_offset self K) = Ok next ->
        materialized (train_dataset next) = Ok ms' ->
        o + B - K <= len (train_dataset next) ->
        next_samples env self
        = Ok (drop o ms ++ take (o + B - K) ms',
              set_dataset_offset next (o + B - K))).
Proof.
  intros Hms Hbound o K B. split; [|split].
  - intros Hfit. unfold next_samples. fold o K B.
    apply Nat.leb_le in Hfit. rewrite Hfit.
    by rewrite (getitem_slice_materialized _ ms Hms).
  - intros Hlt samples self'.
    rewrite (next_samples_spill env self ms Hms Hbound Hlt).
    apply draw_acc_prefix.
  - intros Hlt next ms' Hreload Hms' Henough.
    by apply next_samples_reloaded.
Qed.

Lemma next_samples_across_files_witness :
  dataset_offset two_file_saved = 1
  /\ len (train_dataset two_file_saved) = 2
  /\ exists after,
       next_samples two_file_env two_file_saved
       = Ok ([Tensor (array int16 [16; 17; 18; 19; 20]%Z); Tensor (array int16 [1; 2; 3; 4; 5]%Z)], after)
       /\ dataset_offset after = 1 /\ epoch after = 1
       /\ processed_files (train_dataset after) = ["a.bin"].
Proof.
  split; [reflexivity|]. split; [reflexivity|].
  assert (dataset_offset two_file_saved <= len (train_dataset two_file_saved))
    as Hbound by (vm_compute; lia).
  destruct (next_samples_across_files two_file_env two_file_saved
              [Tensor (array int16 [11; 12; 13; 14; 15]%Z); Tensor (array int16 [16; 17; 18; 19; 20]%Z)]
              eq_refl Hbound) as (_ & _ & Hnext).
  eexists. split.
  - rewrite (Hnext ltac:(vm_compute; lia) _
               [Tensor (array int16 [1; 2; 3; 4; 5]%Z); Tensor (array int16 [6; 7; 8; 9; 10]%Z)]
               eq_refl eq_refl ltac:(vm_compute; lia)).
    reflexivity.
  - split; [reflexivity|]. split; reflexivity.
Defined.

(** ** In-place normalisation and aliasing *)

(** X26.  Alignment extends a sample list by (references to) its first
    samples, so that one object can sit at two positions of the aligned
    list.  No rank ever holds both: the shard of a rank lists pairwise
    different positions of the file's sample list.  The in-place
    normalisation of a shard therefore visits every sample object
    once. *)
Theorem align_and_limit_to_rank_no_alias (self : AllamoDataset)
    (l shard : list Sample) :
  rank self < world_size self ->
  align_and_limit_to_rank self (PyList l) = Ok (Some shard) ->
  exists idx : list nat,
    NoDup idx
    /\ Forall (fun i => i < length l) idx
    /\ Forall2 (fun s i => l !! i = Some s) shard idx.
Proof.
  intros Hr Hrun. unfold align_and_limit_to_rank in Hrun.
  set (w := world_size self) in *. set (r := rank self) in *.
  set (n := length l) in *.
  destruct (n <? w) eqn:Hshort; [done|]. apply Nat.ltb_ge in Hshort.
  assert (0 < w) as Hw by lia.
  destruct (ceil_div_spec n w Hw) as (Hk & Hceil & _).
  destruct (align_data_to_step_size_ok l w Hw Hshort) as [Hal Hlen].
  fold n in Hal, Hlen.
  set (k := (w - n mod w) mod w) in *.
  rewrite Hal in Hrun. cbn [mbind res_bind] in Hrun. injection Hrun as <-.
  set (m := (n + w - 1) / w) in *.
  assert (length (limit_samples_to_rank self (l ++ take k l)) = m) as Hm.
  { apply limit_samples_to_rank_length; [done..|]. by rewrite Hlen. }
  set (orig := fun p => if p <? n then p else p - n).
  exists ((fun j => orig (r + j * w)) <$> seq 0 m).
  assert (forall j, j < m -> r + j * w < n + k) as Hrange by (intros; nia).
  split; [|split].
  - apply NoDup_alt. intros i j x.
    rewrite !list_lookup_fmap.
    intros Hi Hj.
    destruct (seq 0 m !! i) as [i'|] eqn:Hi'; [|done].
    destruct (seq 0 m !! j) as [j'|] eqn:Hj'; [|done].
    apply lookup_seq in Hi' as [-> Hilt]. apply lookup_seq in Hj' as [-> Hjlt].
    simpl in Hi, Hj. injection Hi as Hi. injection Hj as Hj.
    pose proof (Hrange i Hilt). pose proof (Hrange j Hjlt).
    unfold orig in Hi, Hj.
    destruct (r + i * w <? n) eqn:Hpi, (r + j * w <? n) eqn:Hpj;
      try apply Nat.ltb_lt in Hpi; try apply Nat.ltb_ge in Hpi;
      try apply Nat.ltb_lt in Hpj; try apply Nat.ltb_ge in Hpj; nia.
  - apply Forall_fmap, Forall_forall. intros j [_ Hj]%elem_of_seq.
    simpl in *. pose proof (Hrange j ltac:(lia)). unfold orig.
    destruct (r + j * w <? n) eqn:Hp.
    + by apply Nat.ltb_lt in Hp.
    + apply Nat.ltb_ge in Hp. lia.
  - apply Forall2_same_length_lookup. split.
    + by rewrite Hm, length_fmap, length_seq.
    + intros j s i Hs Hidx.
      rewrite list_lookup_fmap in Hidx.
      destruct (seq 0 m !! j) as [j'|] eqn:Hj'; [|done].
      apply lookup_seq in Hj' as [-> Hjlt]. simpl in Hidx.
      injection Hidx as <-.
      rewrite limit_samples_to_rank_lookup in Hs by (fold w; fold r; lia).
      fold w r in Hs. pose proof (Hrange j Hjlt). unfold orig.
      destruct (r + j * w <? n) eqn:Hp.
      * apply Nat.ltb_lt in Hp. by rewrite lookup_app_l in Hs.
      * apply Nat.ltb_ge in Hp. rewrite lookup_app_r in Hs by done.
        fold n in Hs. by rewrite lookup_take_lt in Hs by lia.
Qed.

Lemma align_and_limit_to_rank_no_alias_witness :
  let self := on_rank (blank_dataset (config_sft 2 0 false) 0 2) 0 in
  let a := DictSample (raw_sample (array int64 [1]%Z) (array int64 [2]%Z) None None) in
  let b := DictSample (raw_sample (array int64 [3]%Z) (array int64 [4]%Z) None None) in
  let c := DictSample (raw_sample (array int64 [5]%Z) (array int64 [6]%Z) None None) in
  align_and_limit_to_rank self (PyList [a; b; c]) = Ok (Some [a; c])
  /\ exists idx, NoDup idx /\ Forall2 (fun s i => [a; b; c] !! i = Some s)
                                [a; c] idx.
Proof.
  intros self a b c. split; [reflexivity|].
  assert (rank self < world_size self) as Hr by (simpl; lia).
  destruct (align_and_limit_to_rank_no_alias self [a; b; c] [a; c] Hr eq_refl)
    as (idx & Hnd & _ & Hidx).
  by exists idx.
Defined.

(** ** The prefetch slot and its workers *)

Lemma reload_buffer_config st : dl_config (reload_buffer st) = dl_config st.
Proof. unfold reload_buffer. by destruct (_ <=? _). Qed.









(** The three reads of the cursor offset in [update_buffer] are separate
    steps.  On the seven-sample file the first call starts worker 0,
    which takes the lock and reads the start of its window, 2; a second
    call then draws the samples 2 and 3 synchronously and moves the
    cursor to 4; the worker reads the stop of its window, 6, and fills
    the slot with a batch of four rows, the samples 2 to 5, and the
    offset 6. *)
Example worker_reads_offset_twice :
  let l1 := after_call seven_env seven_fresh in
  let w1 := worker_step 0 (worker_step 0 (idle l1)) in
  let w2 := with_loader w1 (after_call seven_env (loader w1)) in
  pc_of 0 (pcs w1) = SliceStart 2
  /\ dataset_offset (loader w2) = 4
  /\ buffer (loader (Nat.iter 8 (worker_step 0) w2))
     = Some (Collated [[11; 12; 13; 14]; [16; 17; 18; 19];
                       [21; 22; 23; 24]; [26; 27; 28; 29]]%Z
               [[12; 13; 14; 15]; [17; 18; 19; 20];
                [22; 23; 24; 25]; [27; 28; 29; 30]]%Z None None None, 6).
Proof. repeat split; vm_compute; reflexivity. Qed.


